(** * Volteras oracle: lifecycle gates, workers, store and forwarder

    A shallow embedding of the Go sources of the onboarding oracle
    (packages [onboarding], [controllers], [service], [convert]) together
    with the properties of its lifecycle state machine, its workers, the
    VIN store and the telemetry forwarder. *)

From Stdlib Require Import ZArith Lia Bool.
From stdpp Require Import base option list strings pretty gmap fin_maps.

Local Open Scope string_scope.
Local Open Scope Z_scope.

(** ** Nullable columns ([github.com/volatiletech/null/v8])

    A nullable value is a struct holding the value and a validity flag;
    the Go code reads the two fields independently. *)

Module null.

Record String := mkString { String_ : string; SValid : bool }.
Record Int64 := mkInt64 { Int64_ : Z; IValid : bool }.

(** [null.StringFrom(s)] *)
Definition StringFrom (s : string) : String := mkString s true.
(** [null.Int64From(i)] *)
Definition Int64From (i : Z) : Int64 := mkInt64 i true.
(** [null.NewInt64(i, valid)] *)
Definition NewInt64 (i : Z) (valid : bool) : Int64 := mkInt64 i valid.
(** The zero values of the two structs (a freshly declared field). *)
Definition zeroString : String := mkString "" false.
Definition zeroInt64 : Int64 := mkInt64 0 false.

(** [IsZero] is "not valid" for both types. *)
Definition SIsZero (s : String) : bool := negb (SValid s).
Definition IIsZero (i : Int64) : bool := negb (IValid i).

(** [SetValid] on a string column. *)
Definition SetValid (s : string) : String := mkString s true.

End null.

(** ** The lifecycle state codes ([internal/onboarding/status.go]) *)

Module onboarding_status.

Definition OnboardingStatusSubmitUnknown : Z := 0.
Definition OnboardingStatusSubmitPending : Z := 1.
Definition OnboardingStatusSubmitFailure : Z := 2.
Definition OnboardingStatusSubmitSuccess : Z := 3.

Definition OnboardingStatusDecodingUnknown : Z := 10.
Definition OnboardingStatusDecodingPending : Z := 11.
Definition OnboardingStatusDecodingFailure : Z := 12.
Definition OnboardingStatusDecodingSuccess : Z := 13.

Definition OnboardingStatusVendorValidationUnknown : Z := 20.
Definition OnboardingStatusVendorValidationPending : Z := 21.
Definition OnboardingStatusVendorValidationFailure : Z := 22.
Definition OnboardingStatusVendorValidationSuccess : Z := 23.

Definition OnboardingStatusMintSubmitUnknown : Z := 30.
Definition OnboardingStatusMintSubmitPending : Z := 31.
Definition OnboardingStatusMintSubmitFailure : Z := 32.
Definition OnboardingStatusMintSubmitSuccess : Z := 33.

Definition OnboardingStatusConnectUnknown : Z := 40.
Definition OnboardingStatusConnectPending : Z := 41.
Definition OnboardingStatusConnectFailure : Z := 42.
Definition OnboardingStatusConnectSuccess : Z := 43.

Definition OnboardingStatusMintUnknown : Z := 50.
Definition OnboardingStatusMintPending : Z := 51.
Definition OnboardingStatusMintFailure : Z := 52.
Definition OnboardingStatusMintSuccess : Z := 53.

Definition OnboardingStatusDisconnectSubmitUnknown : Z := 60.
Definition OnboardingStatusDisconnectSubmitPending : Z := 61.
Definition OnboardingStatusDisconnectSubmitFailure : Z := 62.
Definition OnboardingStatusDisconnectSubmitSuccess : Z := 63.

Definition OnboardingStatusDisconnectUnknown : Z := 70.
Definition OnboardingStatusDisconnectPending : Z := 71.
Definition OnboardingStatusDisconnectFailure : Z := 72.
Definition OnboardingStatusDisconnectSuccess : Z := 73.

Definition OnboardingStatusBurnSDUnknown : Z := 80.
Definition OnboardingStatusBurnSDPending : Z := 81.
Definition OnboardingStatusBurnSDFailure : Z := 82.
Definition OnboardingStatusBurnSDSuccess : Z := 83.

Definition OnboardingStatusDeleteSubmitUnknown : Z := 90.
Definition OnboardingStatusDeleteSubmitPending : Z := 91.
Definition OnboardingStatusDeleteSubmitFailure : Z := 92.
Definition OnboardingStatusDeleteSubmitSuccess : Z := 93.

Definition OnboardingStatusBurnVehicleUnknown : Z := 100.
Definition OnboardingStatusBurnVehiclePending : Z := 101.
Definition OnboardingStatusBurnVehicleFailure : Z := 102.
Definition OnboardingStatusBurnVehicleSuccess : Z := 103.

(** Go's [%] on [int] truncates towards zero: it is [Z.rem]. *)
Definition IsVerified (status : Z) : bool :=
  OnboardingStatusVendorValidationSuccess <=? status.

Definition IsMinted (status : Z) : bool :=
  status =? OnboardingStatusMintSuccess.

Definition IsDisconnected (status : Z) : bool :=
  status =? OnboardingStatusBurnSDSuccess.

Definition IsFailure (status : Z) : bool :=
  Z.rem status 10 =? 2.

Definition IsPending (status : Z) : bool :=
  (0 <? status) && (status <? OnboardingStatusMintSuccess).

Definition IsMintPending (status : Z) : bool :=
  (OnboardingStatusMintSubmitUnknown <? status)
  && (status <? OnboardingStatusMintSuccess).

Definition IsDisconnectPending (status : Z) : bool :=
  ((OnboardingStatusDisconnectSubmitUnknown <? status)
   && (status <? OnboardingStatusBurnSDSuccess))
  && negb (IsFailure status).

Definition IsDisconnectFailed (status : Z) : bool :=
  (status =? OnboardingStatusDisconnectSubmitFailure)
  || (status =? OnboardingStatusBurnSDFailure)
  || (status =? OnboardingStatusDisconnectFailure).

Definition IsBurnPending (status : Z) : bool :=
  (OnboardingStatusDeleteSubmitUnknown <? status)
  && (status <? OnboardingStatusBurnVehicleSuccess).

Definition GetVerificationStatus (status : Z) : string :=
  if IsVerified status then "Success"
  else if IsFailure status then "Failure"
  else if IsPending status then "Pending"
  else "Unknown".

Definition statusToString : list (Z * string) :=
  [(OnboardingStatusSubmitUnknown, "VerificationSubmitUnknown");
   (OnboardingStatusSubmitPending, "VerificationSubmitPending");
   (OnboardingStatusSubmitFailure, "VerificationSubmitFailure");
   (OnboardingStatusSubmitSuccess, "VerificationSubmitSuccess");
   (OnboardingStatusDecodingUnknown, "DecodingUnknown");
   (OnboardingStatusDecodingPending, "DecodingPending");
   (OnboardingStatusDecodingFailure, "DecodingFailure");
   (OnboardingStatusDecodingSuccess, "DecodingSuccess");
   (OnboardingStatusVendorValidationUnknown, "VendorValidationUnknown");
   (OnboardingStatusVendorValidationPending, "VendorValidationPending");
   (OnboardingStatusVendorValidationFailure, "VendorValidationFailure");
   (OnboardingStatusVendorValidationSuccess, "VendorValidationSuccess");
   (OnboardingStatusMintSubmitUnknown, "MintSubmitUnknown");
   (OnboardingStatusMintSubmitPending, "MintSubmitPending");
   (OnboardingStatusMintSubmitFailure, "MintSubmitFailure");
   (OnboardingStatusMintSubmitSuccess, "MintSubmitSuccess");
   (OnboardingStatusConnectUnknown, "ConnectUnknown");
   (OnboardingStatusConnectPending, "ConnectPending");
   (OnboardingStatusConnectFailure, "ConnectFailure");
   (OnboardingStatusConnectSuccess, "ConnectSuccess");
   (OnboardingStatusMintUnknown, "MintUnknown");
   (OnboardingStatusMintPending, "MintPending");
   (OnboardingStatusMintFailure, "MintFailure");
   (OnboardingStatusMintSuccess, "MintSuccess");
   (OnboardingStatusDisconnectSubmitUnknown, "DisconnectSubmitUnknown");
   (OnboardingStatusDisconnectSubmitPending, "DisconnectSubmitPending");
   (OnboardingStatusDisconnectSubmitFailure, "DisconnectSubmitFailure");
   (OnboardingStatusDisconnectSubmitSuccess, "DisconnectSubmitSuccess");
   (OnboardingStatusDisconnectUnknown, "DisconnectUnknown");
   (OnboardingStatusDisconnectPending, "DisconnectPending");
   (OnboardingStatusDisconnectFailure, "DisconnectFailure");
   (OnboardingStatusDisconnectSuccess, "DisconnectSuccess");
   (OnboardingStatusBurnSDUnknown, "BurnSDUnknown");
   (OnboardingStatusBurnSDPending, "BurnSDPending");
   (OnboardingStatusBurnSDFailure, "BurnSDFailure");
   (OnboardingStatusBurnSDSuccess, "BurnSDSuccess");
   (OnboardingStatusDeleteSubmitUnknown, "DeleteSubmitUnknown");
   (OnboardingStatusDeleteSubmitPending, "DeleteSubmitPending");
   (OnboardingStatusDeleteSubmitFailure, "DeleteSubmitFailure");
   (OnboardingStatusDeleteSubmitSuccess, "DeleteSubmitSuccess");
   (OnboardingStatusBurnVehicleUnknown, "BurnVehicleUnknown");
   (OnboardingStatusBurnVehiclePending, "BurnVehiclePending");
   (OnboardingStatusBurnVehicleFailure, "BurnVehicleFailure");
   (OnboardingStatusBurnVehicleSuccess, "BurnVehicleSuccess")].

Definition GetDetailedStatus (status : Z) : string :=
  match List.find (fun p => fst p =? status) statusToString with
  | Some p => snd p
  | None => "Unknown"
  end.

(** The three views of the later phases. *)
Definition GetMintStatus (status : Z) : string :=
  if status =? OnboardingStatusMintSuccess then "Success"
  else if IsFailure status then "Failure"
  else if IsPending status then "Pending"
  else "Unknown".

Definition GetDisconnectStatus (status : Z) : string :=
  if status =? OnboardingStatusBurnSDSuccess then "Success"
  else if IsFailure status then "Failure"
  else if IsDisconnectPending status then "Pending"
  else "Unknown".

Definition GetBurnStatus (status : Z) : string :=
  if status =? OnboardingStatusBurnVehicleSuccess then "Success"
  else if IsFailure status then "Failure"
  else if IsBurnPending status then "Pending"
  else "Unknown".

End onboarding_status.

(** ** The VIN row ([internal/db/models], generated from the migrations)

    The generated model is one struct field per column of the [vins]
    table: the primary key [vin], the status code and the nullable
    columns. *)

Module dbmodels.

Record Vin := mkVin {
  Vin_ : string;
  VehicleTokenID : null.Int64;
  SyntheticTokenID : null.Int64;
  ExternalID : null.String;
  ConnectionStatus : null.String;
  OnboardingStatus : Z;
  DeviceDefinitionID : null.String;
  WalletIndex : null.Int64;
  DisconnectionStatus : null.String;
  OperationErrorCode : null.String;
  OperationErrorType : null.String;
  OperationErrorDescription : null.String
}.

(** [&dbmodels.Vin{Vin: v, OnboardingStatus: s}]: every other field
    takes its zero value. *)
Definition newVin (v : string) (s : Z) : Vin :=
  mkVin v null.zeroInt64 null.zeroInt64 null.zeroString null.zeroString s
        null.zeroString null.zeroInt64 null.zeroString
        null.zeroString null.zeroString null.zeroString.

(** Column names, as listed in [boil.Whitelist(...)]. *)
Inductive Column :=
| ColVin | ColVehicleTokenID | ColSyntheticTokenID | ColExternalID
| ColConnectionStatus | ColOnboardingStatus | ColDeviceDefinitionID
| ColWalletIndex | ColDisconnectionStatus | ColOperationErrorCode
| ColOperationErrorType | ColOperationErrorDescription.

Definition Column_eqb (a b : Column) : bool :=
  match a, b with
  | ColVin, ColVin | ColVehicleTokenID, ColVehicleTokenID
  | ColSyntheticTokenID, ColSyntheticTokenID
  | ColExternalID, ColExternalID
  | ColConnectionStatus, ColConnectionStatus
  | ColOnboardingStatus, ColOnboardingStatus
  | ColDeviceDefinitionID, ColDeviceDefinitionID
  | ColWalletIndex, ColWalletIndex
  | ColDisconnectionStatus, ColDisconnectionStatus
  | ColOperationErrorCode, ColOperationErrorCode
  | ColOperationErrorType, ColOperationErrorType
  | ColOperationErrorDescription, ColOperationErrorDescription => true
  | _, _ => false
  end.

Definition listed (c : Column) (cols : list Column) : bool :=
  existsb (Column_eqb c) cols.

(** [record.Update(ctx, exec, boil.Whitelist(cols...))]: the row with
    the record's primary key receives the listed columns of the
    in-memory record; every other column of the row is kept. *)
Definition writeColumns (cols : list Column) (mem row : Vin) : Vin :=
  let pick {A} (c : Column) (f : Vin -> A) : A :=
    if listed c cols then f mem else f row in
  {| Vin_ := Vin_ row;
     VehicleTokenID := pick ColVehicleTokenID VehicleTokenID;
     SyntheticTokenID := pick ColSyntheticTokenID SyntheticTokenID;
     ExternalID := pick ColExternalID ExternalID;
     ConnectionStatus := pick ColConnectionStatus ConnectionStatus;
     OnboardingStatus := pick ColOnboardingStatus OnboardingStatus;
     DeviceDefinitionID := pick ColDeviceDefinitionID DeviceDefinitionID;
     WalletIndex := pick ColWalletIndex WalletIndex;
     DisconnectionStatus := pick ColDisconnectionStatus DisconnectionStatus;
     OperationErrorCode := pick ColOperationErrorCode OperationErrorCode;
     OperationErrorType := pick ColOperationErrorType OperationErrorType;
     OperationErrorDescription :=
       pick ColOperationErrorDescription OperationErrorDescription |}.

Definition allColumns : list Column :=
  [ColVehicleTokenID; ColSyntheticTokenID; ColExternalID;
   ColConnectionStatus; ColOnboardingStatus; ColDeviceDefinitionID;
   ColWalletIndex; ColDisconnectionStatus; ColOperationErrorCode;
   ColOperationErrorType; ColOperationErrorDescription].

(** The SQL [UPDATE ... WHERE vin = <key>] behind [record.Update]: a
    missing row is not an error, nothing is written. *)
Definition Update (cols : list Column) (mem : Vin) (t : gmap string Vin)
    : gmap string Vin :=
  match t !! Vin_ mem with
  | Some row => <[Vin_ mem := writeColumns cols mem row]> t
  | None => t
  end.

End dbmodels.

(** ** Go error values

    Sentinel errors are compared by identity ([errors.Is]); an error made
    by [errors.New] or [fmt.Errorf] at a call site is a fresh value that is
    equal to no sentinel, whatever its text. [fmt.Errorf] with [%w] wraps
    an error, and [errors.Is] follows the wrapping chain. *)

Module goerr.

Inductive error :=
| ErrVehicleNotFound                         (* service.ErrVehicleNotFound *)
| ErrNoRows                                  (* sql.ErrNoRows *)
| New (msg : string)                         (* errors.New, fmt.Errorf without %w *)
| Wrap (msg : string) (inner : error)        (* fmt.Errorf("...: %w", err) *)
| External (code : Z).                       (* an error handed back by a collaborator *)

(** [errors.Is(err, service.ErrVehicleNotFound)] *)
Fixpoint IsVehicleNotFound (e : error) : bool :=
  match e with
  | ErrVehicleNotFound => true
  | Wrap _ inner => IsVehicleNotFound inner
  | _ => false
  end.

(** [errors.Is(err, sql.ErrNoRows)] *)
Fixpoint IsNoRows (e : error) : bool :=
  match e with
  | ErrNoRows => true
  | Wrap _ inner => IsNoRows inner
  | _ => false
  end.

End goerr.

(** ** Settings read by the modelled code ([internal/config]) *)

Module config.

Record Settings := mkSettings {
  EnableVendorTestMode : bool;
  EnableVendorCapabilityCheck : bool;
  EnableVendorConnection : bool;
  ChainID : Z;
  VehicleNftAddress : string;
  SyntheticNftAddress : string
}.

End config.

(** ** The vehicle store ([internal/service/vehicle.go])

    The [vins] table is a finite map from the primary key to the row.
    Every store call opens a transaction, runs one statement and commits;
    [faults] says at which of these steps the database fails in a call,
    if at any. *)

Module service.
Import goerr dbmodels.

Abbreviation table := (gmap string Vin).

Definition rows (t : table) : list Vin := (map_to_list t).*2.

Record faults := mkFaults {
  beginErr : option error;   (* BeginTx *)
  fetchErr : option error;   (* the query, other than finding no row *)
  writeErr : option error;   (* Update / Upsert *)
  commitErr : option error   (* tx.Commit *)
}.

Definition noFaults : faults := mkFaults None None None None.

(** [GetVehicleByVin]: the row with that primary key, or the sentinel
    [ErrVehicleNotFound]; a failed commit is only logged. *)
Definition GetVehicleByVin (f : faults) (t : table)
    (vehicleID : string) : Vin + error :=
  match beginErr f with
  | Some err => inr err
  | None =>
      match fetchErr f with
      | Some err => if IsNoRows err then inr ErrVehicleNotFound else inr err
      | None =>
          match t !! vehicleID with
          | Some vin => inl vin
          | None => inr ErrVehicleNotFound
          end
      end
  end.

(** [GetVehiclesByVins]: the rows whose key is in the list; an empty
    result is an empty slice, not an error. *)
Definition GetVehiclesByVins (f : faults) (t : table)
    (vehicleIDs : list string) : list Vin * option error :=
  match beginErr f with
  | Some err => ([], Some err)
  | None =>
      match fetchErr f with
      | Some err =>
          if IsNoRows err then ([], Some ErrVehicleNotFound) else ([], Some err)
      | None =>
          (List.filter (fun r => bool_decide (Vin_ r ∈ vehicleIDs)) (rows t), None)
      end
  end.

(** [GetVehicleByExternalID]: the first row whose [external_id] column
    equals the argument. With no such row the function returns a NEW
    error, [errors.New("vehicle not found")], not the sentinel. *)
Definition GetVehicleByExternalID (f : faults) (t : table)
    (externalID : string) : option Vin * option error :=
  match beginErr f with
  | Some err => (None, Some err)
  | None =>
      match fetchErr f with
      | Some err =>
          if IsNoRows err then (None, Some (New "vehicle not found"))
          else (None, Some err)
      | None =>
          match List.find (fun r => null.SValid (ExternalID r)
                                    && String.eqb (null.String_ (ExternalID r)) externalID)
                          (rows t) with
          | None => (None, Some (New "vehicle not found"))
          | Some vin =>
              match commitErr f with
              | Some err => (None, Some err)
              | None => (Some vin, None)
              end
          end
      end
  end.

(** [InsertOrUpdateVin]: [vin.Upsert] on the primary key, every column
    inferred. *)
Definition InsertOrUpdateVin (f : faults) (t : table)
    (vin : Vin) : table * option error :=
  match beginErr f with
  | Some err => (t, Some err)
  | None =>
      match writeErr f with
      | Some _ => (t, Some (New "failed to insert VIN record"))
      | None =>
          match commitErr f with
          | Some err => (t, Some err)
          | None => (<[Vin_ vin := vin]> t, None)
          end
      end
  end.

(** [models.OperationError] *)
Record OperationError := mkOperationError {
  Code : string; Type_ : string; Description : string
}.

Definition enrollmentColumns : list Column :=
  [ColConnectionStatus; ColDisconnectionStatus; ColExternalID;
   ColOperationErrorType; ColOperationErrorCode; ColOperationErrorDescription].

(** The [if error != nil { ... } else { ... }] block shared by the two
    update functions. *)
Definition setOperationError (error : option OperationError) (r : Vin) : Vin :=
  match error with
  | Some e =>
      {| Vin_ := Vin_ r; VehicleTokenID := VehicleTokenID r;
         SyntheticTokenID := SyntheticTokenID r; ExternalID := ExternalID r;
         ConnectionStatus := ConnectionStatus r;
         OnboardingStatus := OnboardingStatus r;
         DeviceDefinitionID := DeviceDefinitionID r;
         WalletIndex := WalletIndex r;
         DisconnectionStatus := DisconnectionStatus r;
         OperationErrorCode := null.StringFrom (Code e);
         OperationErrorType := null.StringFrom (Type_ e);
         OperationErrorDescription := null.StringFrom (Description e) |}
  | None =>
      {| Vin_ := Vin_ r; VehicleTokenID := VehicleTokenID r;
         SyntheticTokenID := SyntheticTokenID r; ExternalID := ExternalID r;
         ConnectionStatus := ConnectionStatus r;
         OnboardingStatus := OnboardingStatus r;
         DeviceDefinitionID := DeviceDefinitionID r;
         WalletIndex := WalletIndex r;
         DisconnectionStatus := DisconnectionStatus r;
         OperationErrorCode := null.mkString "" false;
         OperationErrorType := null.mkString "" false;
         OperationErrorDescription := null.mkString "" false |}
  end.

Definition setConnection (c e d : null.String) (r : Vin) : Vin :=
  {| Vin_ := Vin_ r; VehicleTokenID := VehicleTokenID r;
     SyntheticTokenID := SyntheticTokenID r; ExternalID := e;
     ConnectionStatus := c;
     OnboardingStatus := OnboardingStatus r;
     DeviceDefinitionID := DeviceDefinitionID r;
     WalletIndex := WalletIndex r;
     DisconnectionStatus := d;
     OperationErrorCode := OperationErrorCode r;
     OperationErrorType := OperationErrorType r;
     OperationErrorDescription := OperationErrorDescription r |}.

(** [UpdateEnrollmentStatus] *)
Definition UpdateEnrollmentStatus (f : faults) (t : table)
    (vin status externalID : string) (error : option OperationError)
    : table * option goerr.error :=
  match beginErr f with
  | Some e => (t, Some e)
  | None =>
      match (match fetchErr f with
             | Some e => inl e
             | None => match t !! vin with
                       | Some r => inr r
                       | None => inl ErrNoRows
                       end
             end) with
      | inl e => (t, Some (Wrap "failed to fetch VIN record" e))
      | inr vinRecord =>
          let vinRecord :=
            setConnection (null.StringFrom status) (null.StringFrom externalID)
              (if String.eqb status "succeeded"
               then null.mkString "" false
               else DisconnectionStatus vinRecord)
              vinRecord in
          let vinRecord := setOperationError error vinRecord in
          match writeErr f with
          | Some e => (t, Some (Wrap "failed to update VIN record" e))
          | None =>
              match commitErr f with
              | Some e => (t, Some e)
              | None =>
                  (Update enrollmentColumns vinRecord t, None)
              end
          end
      end
  end.

(** [UpdateUnenrollmentStatus] *)
Definition UpdateUnenrollmentStatus (f : faults) (t : table)
    (vin status : string) (error : option OperationError)
    : table * option goerr.error :=
  match beginErr f with
  | Some e => (t, Some e)
  | None =>
      match (match fetchErr f with
             | Some e => inl e
             | None => match t !! vin with
                       | Some r => inr r
                       | None => inl ErrNoRows
                       end
             end) with
      | inl e => (t, Some (Wrap "failed to fetch VIN record" e))
      | inr vinRecord =>
          let vinRecord :=
            if String.eqb status "succeeded"
            then setConnection (null.mkString "" false) (null.mkString "" false)
                   (null.StringFrom status) vinRecord
            else setConnection (ConnectionStatus vinRecord) (ExternalID vinRecord)
                   (null.StringFrom status) vinRecord in
          let vinRecord := setOperationError error vinRecord in
          match writeErr f with
          | Some e => (t, Some (Wrap "failed to update VIN record" e))
          | None =>
              match commitErr f with
              | Some e => (t, Some e)
              | None => (Update enrollmentColumns vinRecord t, None)
              end
          end
      end
  end.

(** [GetVehiclesByVinsAndOnboardingStatus]:
    [WHERE vin IN (...) AND onboarding_status = status]. *)
Definition GetVehiclesByVinsAndOnboardingStatus (f : faults) (t : table)
    (vehicleIDs : list string) (status : Z) : list Vin * option error :=
  match beginErr f with
  | Some err => ([], Some err)
  | None =>
      match fetchErr f with
      | Some err =>
          if IsNoRows err then ([], Some ErrVehicleNotFound) else ([], Some err)
      | None =>
          (List.filter (fun r => bool_decide (Vin_ r ∈ vehicleIDs)
                                 && (OnboardingStatus r =? status)) (rows t),
           None)
      end
  end.

(** [GetVehiclesByVinsAndOnboardingStatusRange]: with additional
    statuses the condition is
    [vin IN (...) AND ((status >= min AND status <= max) OR status IN (...))],
    without them [vin IN (...) AND status >= min AND status <= max]. *)
Definition GetVehiclesByVinsAndOnboardingStatusRange (f : faults) (t : table)
    (vehicleIDs : list string) (minStatus maxStatus : Z)
    (additionalStatuses : list Z) : list Vin * option error :=
  match beginErr f with
  | Some err => ([], Some err)
  | None =>
      let '(vins, err) :=
        match fetchErr f with
        | Some err => ([], Some err)
        | None =>
            if (0 <? length additionalStatuses)%nat then
              (List.filter
                 (fun r => bool_decide (Vin_ r ∈ vehicleIDs)
                           && (((minStatus <=? OnboardingStatus r)
                                && (OnboardingStatus r <=? maxStatus))
                               || bool_decide (OnboardingStatus r ∈ additionalStatuses)))
                 (rows t), None)
            else
              (List.filter
                 (fun r => bool_decide (Vin_ r ∈ vehicleIDs)
                           && (minStatus <=? OnboardingStatus r)
                           && (OnboardingStatus r <=? maxStatus))
                 (rows t), None)
        end in
      match err with
      | Some err =>
          if IsNoRows err then ([], Some ErrVehicleNotFound) else ([], Some err)
      | None => (vins, None)
      end
  end.

(** [InsertVinToDB]: a plain [INSERT]; the primary key rejects a second
    row for the same VIN. *)
Definition InsertVinToDB (f : faults) (t : table) (vin : Vin)
    : table * option error :=
  match beginErr f with
  | Some err => (t, Some err)
  | None =>
      match (match writeErr f with
             | Some err => Some err
             | None => match t !! Vin_ vin with
                       | Some _ => Some (External 23505)   (* unique_violation *)
                       | None => None
                       end
             end) with
      | Some _ => (t, Some (New "failed to insert VIN record"))
      | None =>
          match commitErr f with
          | Some err => (t, Some err)
          | None => (<[Vin_ vin := vin]> t, None)
          end
      end
  end.

(** [GetVinsByTokenIDs]: one query on the reader connection, no
    transaction; [NULL] is in no list. *)
Definition GetVinsByTokenIDs (f : faults) (t : table)
    (tokenIDsToCheck : list Z) : list Vin * option error :=
  match fetchErr f with
  | Some err => ([], Some (Wrap "failed to get VINs by token IDs" err))
  | None =>
      (List.filter (fun r => null.IValid (VehicleTokenID r)
                             && bool_decide (null.Int64_ (VehicleTokenID r)
                                             ∈ tokenIDsToCheck)) (rows t),
       None)
  end.

(** [GetVehiclesFromDB] *)
Definition GetVehiclesFromDB (f : faults) (t : table)
    : list Vin * option error :=
  match beginErr f with
  | Some err => ([], Some (Wrap "failed to begin transaction" err))
  | None =>
      match fetchErr f with
      | Some err => ([], Some (Wrap "failed to get VINs" err))
      | None =>
          match commitErr f with
          | Some err => ([], Some (Wrap "failed to commit transaction" err))
          | None => (rows t, None)
          end
      end
  end.

End service.

(** ** The API controller ([controllers]) *)

Module controllers.
Import goerr dbmodels onboarding_status service.

(** *** Gate predicates *)

(** [canSubmitVerificationJob]; the argument is a pointer, [None] is
    [nil]. *)
Definition canSubmitVerificationJob (record : option Vin) : bool :=
  match record with
  | None => false
  | Some record =>
      let verified := IsVerified (OnboardingStatus record) in
      let failed := IsFailure (OnboardingStatus record) in
      let pending := IsPending (OnboardingStatus record) in
      negb verified && (failed || negb pending)
  end.

(** [canSubmitMintingJob]; in Go [&&] binds tighter than [||]. *)
Definition canSubmitMintingJob (record : option Vin) : bool :=
  match record with
  | None => false
  | Some record =>
      let minted := IsMinted (OnboardingStatus record) in
      let burned := IsDisconnected (OnboardingStatus record) in
      let failed := IsFailure (OnboardingStatus record) in
      let failedConnection :=
        String.eqb (null.String_ (ConnectionStatus record)) "failed" in
      let pending := IsMintPending (OnboardingStatus record)
                     || IsDisconnectPending (OnboardingStatus record) in
      (minted && failedConnection)
      || ((negb minted || burned) && (failed || negb pending))
  end.

(** [canSubmitDisconnectJob] *)
Definition canSubmitDisconnectJob (record : option Vin) : bool :=
  match record with
  | None => false
  | Some record =>
      let minted := IsMinted (OnboardingStatus record) in
      let failed := IsDisconnectFailed (OnboardingStatus record) in
      let pending := IsDisconnectPending (OnboardingStatus record) in
      (minted || failed) && negb pending
  end.

(** [canSubmitDeleteJob] *)
Definition canSubmitDeleteJob (record : option Vin) : bool :=
  match record with
  | None => false
  | Some record =>
      let disconnected := IsDisconnected (OnboardingStatus record) in
      let failed := IsFailure (OnboardingStatus record) in
      let pending := IsBurnPending (OnboardingStatus record) in
      (disconnected || failed) && negb pending
  end.

(** *** VIN parsing *)

(** One byte of the class [[A-HJ-NPR-Z0-9]]. *)
Definition vinByte (c : Ascii.ascii) : bool :=
  let n := Z.of_N (Ascii.N_of_ascii c) in
  ((65 <=? n) && (n <=? 72)) || ((74 <=? n) && (n <=? 78)) || (n =? 80)
  || ((82 <=? n) && (n <=? 90)) || ((48 <=? n) && (n <=? 57)).

Fixpoint allBytes (p : Ascii.ascii -> bool) (s : string) : bool :=
  match s with
  | EmptyString => true
  | String c rest => p c && allBytes p rest
  end.

(** [vinRegexp.MatchString] for [^[A-HJ-NPR-Z0-9]{17}$]; in Go's syntax
    [$] matches only at the end of the text. *)
Definition vinRegexp_MatchString (vin : string) : bool :=
  (String.length vin =? 17)%nat && allBytes vinByte vin.

Definition isValidVin (settings : config.Settings) (vin : string) : bool :=
  if config.EnableVendorTestMode settings
  then (String.length vin =? 17)%nat
  else vinRegexp_MatchString vin.

(** [strings.TrimSpace] on the single-byte white space of Go
    (tab, line feed, vertical tab, form feed, carriage return, space);
    the multi-byte Unicode spaces are not decoded here. *)
Definition isSpace (c : Ascii.ascii) : bool :=
  let n := Z.of_N (Ascii.N_of_ascii c) in
  ((9 <=? n) && (n <=? 13)) || (n =? 32).

Fixpoint trimLeft (s : string) : string :=
  match s with
  | EmptyString => EmptyString
  | String c rest => if isSpace c then trimLeft rest else s
  end.

Fixpoint trimRight (s : string) : string :=
  match s with
  | EmptyString => EmptyString
  | String c rest =>
      match trimRight rest with
      | EmptyString => if isSpace c then EmptyString else String c EmptyString
      | t => String c t
      end
  end.

Definition TrimSpace (s : string) : string := trimRight (trimLeft s).

(** [slices.Compact]: every run of CONSECUTIVE equal elements is
    replaced by one copy. *)
Fixpoint Compact (l : list string) : list string :=
  match l with
  | [] => []
  | x :: rest =>
      match rest with
      | y :: _ => if String.eqb x y then Compact rest else x :: Compact rest
      | [] => [x]
      end
  end.

(** *** Requests, responses and observable effects *)

Record VinStatus := mkVinStatus {
  vsVin : string; vsStatus : string; vsDetails : string
}.

Record VinWithCountryCode := mkVinCC { ccVin : string; CountryCode : string }.

(** [models.Vehicle], the fields the register handler reads. *)
Record Vehicle := mkVehicle {
  vVIN : string;
  TokenID : Z;
  Owner : string;
  DefinitionID : string;           (* Definition.ID *)
  SyntheticDeviceTokenID : Z       (* SyntheticDevice.TokenID *)
}.

Inductive body :=
| ErrorBody (msg : string)
| StatusesBody (statuses : list VinStatus)
| VehicleBody (vehicle : Vehicle).

Record Response := mkResponse { code : Z; payload : body }.

Definition StatusOK : Z := 200.
Definition StatusBadRequest : Z := 400.
Definition StatusUnauthorized : Z := 401.
Definition StatusNotFound : Z := 404.
Definition StatusConflict : Z := 409.
Definition StatusInternalServerError : Z := 500.

(** What a handler did to its collaborators, in order. *)
Inductive effect :=
| StoreLookup (vins : list string)              (* vs.GetVehiclesByVins *)
| Enqueue (vin countryCode : string)            (* riverClient.Insert(VerifyArgs) *)
| StoreUpsert (r : Vin).                        (* vs.InsertOrUpdateVin *)

(** The parsed request of the two verify endpoints: the parser
    failed, or it produced the list. *)
Inductive parsed (A : Type) :=
| ParseError
| Parsed (vins : list A).
Arguments ParseError {A}.
Arguments Parsed {A} vins.

(** The map [indexedVins] built by
    [for _, vin := range dbVins { indexedVins[vin.Vin] = vin }]. *)
Definition indexVins (dbVins : list Vin) : gmap string Vin :=
  foldl (fun m vin => <[Vin_ vin := vin]> m) ∅ dbVins.

(** *** [GetVerificationStatusForVins] *)
Definition GetVerificationStatusForVins (settings : config.Settings)
    (f : faults) (t : table) (params : parsed string)
    : Response * list effect :=
  match params with
  | ParseError => (mkResponse StatusBadRequest (ErrorBody "Failed to parse VINs"), [])
  | Parsed paramsVins =>
      let validVins :=
        List.filter (isValidVin settings) (List.map TrimSpace paramsVins) in
      if negb (length validVins =? length paramsVins)%nat then
        (mkResponse StatusBadRequest (ErrorBody "Invalid VINs provided"), [])
      else
        let compactedVins := Compact validVins in
        if negb (length validVins =? length compactedVins)%nat then
          (mkResponse StatusBadRequest (ErrorBody "Duplicated VINs"), [])
        else if (0 <? length validVins)%nat then
          match GetVehiclesByVins f t validVins with
          | (_, Some err) =>
              if IsVehicleNotFound err
              then (mkResponse StatusNotFound (ErrorBody "Could not find Vehicles"),
                    [StoreLookup validVins])
              else (mkResponse StatusInternalServerError
                      (ErrorBody "Failed to load vehicles from Database"),
                    [StoreLookup validVins])
          | (dbVins, None) =>
              let indexedVins := indexVins dbVins in
              let statuses :=
                List.map (fun vin =>
                  match indexedVins !! vin with
                  | None => mkVinStatus vin "Unknown" "Unknown"
                  | Some dbVin =>
                      mkVinStatus vin
                        (GetVerificationStatus (OnboardingStatus dbVin))
                        (GetDetailedStatus (OnboardingStatus dbVin))
                  end) validVins in
              (mkResponse StatusOK (StatusesBody statuses), [StoreLookup validVins])
          end
        else (mkResponse StatusOK (StatusesBody []), [])
  end.

(** *** [SubmitVerificationForVins] *)

(** Failures of the collaborators of the submit handler. *)
Record env := mkEnv {
  lookupFaults : faults;                         (* vs.GetVehiclesByVins *)
  insertErr : string -> string -> option error;  (* riverClient.Insert *)
  upsertFaults : Vin -> faults                   (* vs.InsertOrUpdateVin *)
}.

Definition quiet : env := mkEnv noFaults (fun _ _ => None) (fun _ => noFaults).

(** The body of [for _, vin := range validVinsWithCountryCode]. *)
Fixpoint submitEach (e : env) (indexedDbVins : gmap string Vin)
    (vins : list VinWithCountryCode) (t : table) (eff : list effect)
    (vinStatuses : list VinStatus) : Response * table * list effect :=
  match vins with
  | [] => (mkResponse StatusOK (StatusesBody vinStatuses), t, eff)
  | vin :: rest =>
      let dbVin :=
        match indexedDbVins !! ccVin vin with
        | Some r => r
        | None => newVin (ccVin vin) OnboardingStatusSubmitUnknown
        end in
      let '(st, eff) :=
        if canSubmitVerificationJob (Some dbVin) then
          match insertErr e (ccVin vin) (CountryCode vin) with
          | Some _ =>
              (mkVinStatus (ccVin vin) "Failure"
                 (GetDetailedStatus OnboardingStatusSubmitFailure),
               (eff ++ [Enqueue (ccVin vin) (CountryCode vin)])%list)
          | None =>
              (mkVinStatus (ccVin vin) "Pending"
                 (GetDetailedStatus OnboardingStatusSubmitPending),
               (eff ++ [Enqueue (ccVin vin) (CountryCode vin)])%list)
          end
        else
          (mkVinStatus (ccVin vin)
             (GetVerificationStatus (OnboardingStatus dbVin))
             (GetDetailedStatus (OnboardingStatus dbVin)), eff) in
      match InsertOrUpdateVin (upsertFaults e dbVin) t dbVin with
      | (t, Some _) =>
          (mkResponse StatusInternalServerError
             (ErrorBody ("Failed to submit verification for vin: {"
                         +:+ ccVin vin +:+ " " +:+ CountryCode vin +:+ "}")),
           t, (eff ++ [StoreUpsert dbVin])%list)
      | (t, None) =>
          submitEach e indexedDbVins rest t (eff ++ [StoreUpsert dbVin])%list
            (vinStatuses ++ [st])%list
      end
  end.

Definition SubmitVerificationForVins (settings : config.Settings) (e : env)
    (t : table) (params : parsed VinWithCountryCode)
    : Response * table * list effect :=
  match params with
  | ParseError =>
      (mkResponse StatusBadRequest (ErrorBody "Failed to parse VINs"), t, [])
  | Parsed paramsVins =>
      let validVinsWithCountryCode :=
        List.filter (fun v => isValidVin settings (ccVin v))
          (List.map (fun paramVin =>
                       mkVinCC (TrimSpace (ccVin paramVin))
                               (TrimSpace (CountryCode paramVin))) paramsVins) in
      let validVins := List.map ccVin validVinsWithCountryCode in
      if negb (length validVins =? length paramsVins)%nat then
        (mkResponse StatusBadRequest (ErrorBody "Invalid VINs provided"), t, [])
      else
        let compactedVins := Compact validVins in
        if negb (length validVins =? length compactedVins)%nat then
          (mkResponse StatusBadRequest (ErrorBody "Duplicated VINs"), t, [])
        else if (0 <? length validVins)%nat then
          match GetVehiclesByVins (lookupFaults e) t validVins with
          | (_, Some err) =>
              if IsNoRows err
              then (mkResponse StatusNotFound (ErrorBody "Could not find Vehicles"),
                    t, [StoreLookup validVins])
              else (mkResponse StatusInternalServerError
                      (ErrorBody "Failed to load vehicles from Database"),
                    t, [StoreLookup validVins])
          | (dbVins, None) =>
              submitEach e (indexVins dbVins) validVinsWithCountryCode t
                [StoreLookup validVins] []
          end
        else (mkResponse StatusOK (StatusesBody []), t, [])
  end.

(** *** [RegisterVehicle] *)

(** The two values read from the body with [gjson.GetBytes]: [None]
    when the key does not exist, otherwise its [String()] / [Int()]. *)
Record RegisterBody := mkRegisterBody {
  rbVin : option string;
  rbTokenID : option Z
}.

Definition withVehicleTokenID (v : null.Int64) (r : Vin) : Vin :=
  {| Vin_ := Vin_ r; VehicleTokenID := v;
     SyntheticTokenID := SyntheticTokenID r; ExternalID := ExternalID r;
     ConnectionStatus := ConnectionStatus r;
     OnboardingStatus := OnboardingStatus r;
     DeviceDefinitionID := DeviceDefinitionID r;
     WalletIndex := WalletIndex r;
     DisconnectionStatus := DisconnectionStatus r;
     OperationErrorCode := OperationErrorCode r;
     OperationErrorType := OperationErrorType r;
     OperationErrorDescription := OperationErrorDescription r |}.

Definition withSyntheticTokenID (v : null.Int64) (r : Vin) : Vin :=
  {| Vin_ := Vin_ r; VehicleTokenID := VehicleTokenID r;
     SyntheticTokenID := v; ExternalID := ExternalID r;
     ConnectionStatus := ConnectionStatus r;
     OnboardingStatus := OnboardingStatus r;
     DeviceDefinitionID := DeviceDefinitionID r;
     WalletIndex := WalletIndex r;
     DisconnectionStatus := DisconnectionStatus r;
     OperationErrorCode := OperationErrorCode r;
     OperationErrorType := OperationErrorType r;
     OperationErrorDescription := OperationErrorDescription r |}.

Definition withDeviceDefinitionID (v : null.String) (r : Vin) : Vin :=
  {| Vin_ := Vin_ r; VehicleTokenID := VehicleTokenID r;
     SyntheticTokenID := SyntheticTokenID r; ExternalID := ExternalID r;
     ConnectionStatus := ConnectionStatus r;
     OnboardingStatus := OnboardingStatus r;
     DeviceDefinitionID := v;
     WalletIndex := WalletIndex r;
     DisconnectionStatus := DisconnectionStatus r;
     OperationErrorCode := OperationErrorCode r;
     OperationErrorType := OperationErrorType r;
     OperationErrorDescription := OperationErrorDescription r |}.

Definition withVIN (vin : string) (v : Vehicle) : Vehicle :=
  mkVehicle vin (TokenID v) (Owner v) (DefinitionID v) (SyntheticDeviceTokenID v).

(** [walletAddress] is the result of [getWalletAddress], [None] when the
    claim is missing, otherwise the address as printed by [String()];
    [FetchVehicleByTokenID] is the identity service. *)
Definition RegisterVehicle
    (FetchVehicleByTokenID : Z -> Vehicle + error)
    (getFaults upsFaults : faults)
    (walletAddress : option string) (reqBody : RegisterBody) (t : table)
    : Response * table :=
  match walletAddress with
  | None =>
      (mkResponse StatusInternalServerError
         (ErrorBody "Failed to get wallet address"), t)
  | Some walletAddress =>
      match rbVin reqBody, rbTokenID reqBody with
      | Some vinToRegister, Some tokenIDToRegister =>
          if negb (String.length vinToRegister =? 17)%nat then
            (mkResponse StatusBadRequest
               (ErrorBody "Missing or invalid VIN or Token ID"), t)
          else
            match FetchVehicleByTokenID tokenIDToRegister with
            | inr _ =>
                (mkResponse StatusInternalServerError
                   (ErrorBody "Failed to load vehicle from Identity API"), t)
            | inl identityVehicle =>
                if TokenID identityVehicle =? 0 then
                  (mkResponse StatusNotFound (ErrorBody "Vehicle not found"), t)
                else if negb (String.eqb (Owner identityVehicle) walletAddress) then
                  (mkResponse StatusUnauthorized
                     (ErrorBody "Vehicle not owned by wallet"), t)
                else
                  let newVin :=
                    withVehicleTokenID (null.Int64From tokenIDToRegister)
                      (newVin vinToRegister OnboardingStatusSubmitUnknown) in
                  let '(vin, err) := GetVehicleByExternalID getFaults t vinToRegister in
                  if match err with
                     | Some err => negb (IsVehicleNotFound err)
                     | None => false
                     end
                  then
                    (mkResponse StatusInternalServerError
                       (ErrorBody "Failed to load vehicle from Database"), t)
                  else if match vin with
                          | Some vin =>
                              negb (null.IIsZero (VehicleTokenID vin))
                              && negb (null.Int64_ (VehicleTokenID vin) =? tokenIDToRegister)
                          | None => false
                          end
                  then
                    (mkResponse StatusConflict
                       (ErrorBody "Vehicle VIN assigned to another TokenID"), t)
                  else
                    let newVin := match vin with Some vin => vin | None => newVin end in
                    let newVin :=
                      if negb (SyntheticDeviceTokenID identityVehicle =? 0)
                      then withSyntheticTokenID
                             (null.Int64From (SyntheticDeviceTokenID identityVehicle)) newVin
                      else newVin in
                    let newVin :=
                      if negb (String.eqb (DefinitionID identityVehicle) "")
                      then withDeviceDefinitionID
                             (null.StringFrom (DefinitionID identityVehicle)) newVin
                      else newVin in
                    match InsertOrUpdateVin upsFaults t newVin with
                    | (t, Some _) =>
                        (mkResponse StatusInternalServerError
                           (ErrorBody "Failed to register Vehicle"), t)
                    | (t, None) =>
                        (mkResponse StatusOK
                           (VehicleBody (withVIN vinToRegister identityVehicle)), t)
                    end
            end
      | _, _ =>
          (mkResponse StatusBadRequest
             (ErrorBody "Missing or invalid VIN or Token ID"), t)
      end
  end.

End controllers.

(** ** Worker runs

    A worker method runs against the struct behind its [*dbmodels.Vin]
    pointer, the [vins] table, the worker's mutex [w.m] and the transaction
    facility. A run ends by returning, by a panic (deferred calls still
    run) or by a fatal runtime error (the process stops at once and no
    deferred call runs). *)

Module run.
Import goerr dbmodels.

(** An opaque signed user operation, and the handle returned for it. *)
Definition UserOperation := Z.
Definition UserOperationResult := Z.

Record state := mkState {
  record : option Vin;              (* the pointed-to record, [None] for nil *)
  db : gmap string Vin;             (* the vins table *)
  locked : bool;                    (* w.m is held *)
  contended : bool;                 (* another job waits for w.m and takes it
                                       as soon as it is released *)
  submitted : list UserOperation;   (* operations handed to the facility *)
  dbBegin : option error;           (* failure of BeginTx *)
  dbWrite : option error;           (* failure of record.Update *)
  dbCommit : option error           (* failure of tx.Commit *)
}.

Inductive result (A : Type) :=
| Done (a : A) (s : state)
| Panic (msg : string) (s : state)
| Fatal (msg : string) (s : state).
Arguments Done {A} a s.
Arguments Panic {A} msg s.
Arguments Fatal {A} msg s.

Definition M (A : Type) : Type := state -> result A.

#[export] Instance M_ret : MRet M := fun A a s => Done a s.
#[export] Instance M_bind : MBind M := fun A B f m s =>
  match m s with
  | Done a s' => f a s'
  | Panic msg s' => Panic msg s'
  | Fatal msg s' => Fatal msg s'
  end.

Definition final {A} (r : result A) : state :=
  match r with Done _ s | Panic _ s | Fatal _ s => s end.

Definition panic {A} (msg : string) : M A := fun s => Panic msg s.

(** [defer d] around [body]: [d] runs when [body] returns or panics. *)
Definition defer {A} (d : M unit) (body : M A) : M A := fun s =>
  match body s with
  | Done a s' =>
      match d s' with
      | Done _ s'' => Done a s''
      | Panic msg s'' => Panic msg s''
      | Fatal msg s'' => Fatal msg s''
      end
  | Panic msg s' =>
      match d s' with
      | Done _ s'' => Panic msg s''
      | Panic msg' s'' => Panic msg' s''
      | Fatal msg' s'' => Fatal msg' s''
      end
  | Fatal msg s' => Fatal msg s'
  end.

Definition setLocked (b : bool) (s : state) : state :=
  mkState (record s) (db s) b (contended s) (submitted s)
          (dbBegin s) (dbWrite s) (dbCommit s).
Definition setRecord (r : option Vin) (s : state) : state :=
  mkState r (db s) (locked s) (contended s) (submitted s)
          (dbBegin s) (dbWrite s) (dbCommit s).
Definition setDb (t : gmap string Vin) (s : state) : state :=
  mkState (record s) t (locked s) (contended s) (submitted s)
          (dbBegin s) (dbWrite s) (dbCommit s).
Definition addSubmitted (op : UserOperation) (s : state) : state :=
  mkState (record s) (db s) (locked s) (contended s) (submitted s ++ [op])%list
          (dbBegin s) (dbWrite s) (dbCommit s).

(** [w.m.Lock()] returns with the mutex held. *)
Definition Lock : M unit := fun s => Done tt (setLocked true s).

(** [w.m.Unlock()]: unlocking a mutex nobody holds is the fatal error
    "sync: Unlock of unlocked RWMutex". *)
Definition Unlock : M unit := fun s =>
  if locked s then Done tt (setLocked (contended s) s)
  else Fatal "sync: Unlock of unlocked RWMutex" s.

(** An assignment through the record pointer. *)
Definition assign (f : Vin -> Vin) : M unit := fun s =>
  match record s with
  | Some r => Done tt (setRecord (Some (f r)) s)
  | None => Panic "invalid memory address or nil pointer dereference" s
  end.

Definition setOnboardingStatus (v : Z) (r : Vin) : Vin :=
  {| Vin_ := Vin_ r; VehicleTokenID := VehicleTokenID r;
     SyntheticTokenID := SyntheticTokenID r; ExternalID := ExternalID r;
     ConnectionStatus := ConnectionStatus r;
     OnboardingStatus := v;
     DeviceDefinitionID := DeviceDefinitionID r;
     WalletIndex := WalletIndex r;
     DisconnectionStatus := DisconnectionStatus r;
     OperationErrorCode := OperationErrorCode r;
     OperationErrorType := OperationErrorType r;
     OperationErrorDescription := OperationErrorDescription r |}.

Definition setWalletIndex (v : null.Int64) (r : Vin) : Vin :=
  {| Vin_ := Vin_ r; VehicleTokenID := VehicleTokenID r;
     SyntheticTokenID := SyntheticTokenID r; ExternalID := ExternalID r;
     ConnectionStatus := ConnectionStatus r;
     OnboardingStatus := OnboardingStatus r;
     DeviceDefinitionID := DeviceDefinitionID r;
     WalletIndex := v;
     DisconnectionStatus := DisconnectionStatus r;
     OperationErrorCode := OperationErrorCode r;
     OperationErrorType := OperationErrorType r;
     OperationErrorDescription := OperationErrorDescription r |}.

(** [record.Update(ctx, Writer, boil.Infer())] with the error only
    logged, as in [VerifyWorker.update]. *)
Definition updateInfer : M unit := fun s =>
  match record s with
  | None => Panic "invalid memory address or nil pointer dereference" s
  | Some r =>
      match dbWrite s with
      | Some _ => Done tt s
      | None => Done tt (setDb (Update allColumns r (db s)) s)
      end
  end.

(** [update] of the disconnect and delete workers: the write goes
    through the writer connection, not through the transaction that is
    opened and committed around it. *)
Definition update (columns : list Column) : M (option error) := fun s =>
  match dbBegin s with
  | Some e => Done (Some (Wrap "failed to begin transaction" e)) s
  | None =>
      match record s with
      | None => Panic "invalid memory address or nil pointer dereference" s
      | Some r =>
          let s := match dbWrite s with
                   | Some _ => s
                   | None => setDb (Update columns r (db s)) s
                   end in
          match dbCommit s with
          | Some e => Done (Some (Wrap "failed to commit transaction" e)) s
          | None => Done None s
          end
      end
  end.

(** The transaction facility ([go-transactions]), an outside
    collaborator: each call hands back a pointer and an error. *)
Class Client := {
  SendSignedUserOperation :
    UserOperation -> option UserOperationResult * option error;
  GetBurnSDByOwnerResult :
    option UserOperationResult -> option Z * option error;
  GetBurnVehicleByOwnerResult :
    option UserOperationResult -> option Z * option error
}.

(** [w.tr.SendSignedUserOperation(op, true)] *)
Definition send `{Client} (op : UserOperation)
    : M (option UserOperationResult * option error) := fun s =>
  Done (SendSignedUserOperation op) (addSubmitted op s).

End run.

(** ** The workers ([onboarding]: verify.go, the disconnect worker, delete.go) *)

Module onboarding.
Import goerr dbmodels onboarding_status run.

(** *** The vendor interface ([vendor.go]) *)

Record VendorCapabilityStatus := mkCapability { capVIN : string; capStatus : string }.
Record VendorConnectionStatus := mkConnection {
  conVIN : string; conExternalID : string; conStatus : string
}.

Class VendorOnboardingAPI := {
  Validate : list string -> list VendorCapabilityStatus * option error;
  Connect : list string -> list VendorConnectionStatus * option error;
  Disconnect : list string -> list VendorConnectionStatus * option error
}.

(** The implementation shipped in the repository. *)
Definition ExternalOnboardingService : VendorOnboardingAPI := {|
  Validate vins := (List.map (fun vin => mkCapability vin "capable") vins, None);
  Connect vins := (List.map (fun vin => mkConnection vin "" "succeeded") vins, None);
  Disconnect vins := (List.map (fun vin => mkConnection vin "" "succeeded") vins, None)
|}.

Record VerifyArgs := mkVerifyArgs { vaVIN : string; vaCountryCode : string }.
Record DisconnectArgs := mkDisconnectArgs { daVIN : string; daUserOperation : UserOperation }.
Record DeleteArgs := mkDeleteArgs { deVIN : string; deUserOperation : UserOperation }.

Definition get : M (option Vin) := fun s => Done (record s) s.

(** *** Verify worker: the vendor-validation stage *)
Definition ValidateWithExternalVendorAndUpdate `{VendorOnboardingAPI}
    (settings : config.Settings) (args : VerifyArgs) : M (option error) :=
  defer updateInfer
    (assign (setOnboardingStatus OnboardingStatusVendorValidationUnknown);;
     if config.EnableVendorCapabilityCheck settings then
       let '(validation, err) := Validate [vaVIN args] in
       match err with
       | Some err =>
           assign (setOnboardingStatus OnboardingStatusVendorValidationFailure);;
           mret (Some err)
       | None =>
           match validation with
           | [] => panic "index out of range [0] with length 0"
           | first :: _ =>
               if String.eqb (capStatus first) "notCapable "
                  || String.eqb (capStatus first) "noDataFound"
               then
                 assign (setOnboardingStatus OnboardingStatusVendorValidationFailure);;
                 mret (Some (New "vin validation failed"))
               else
                 assign (setOnboardingStatus OnboardingStatusVendorValidationSuccess);;
                 mret None
           end
       end
     else
       assign (setOnboardingStatus OnboardingStatusVendorValidationSuccess);;
       mret None).

(** *** Disconnect worker: the burn-SD stage *)
Definition BurnSDAndUpdate `{Client} (args : DisconnectArgs)
    : M (option Vin * option error) :=
  defer (update [ColOnboardingStatus; ColSyntheticTokenID; ColWalletIndex];; mret tt)
    (Lock;;
     '(opResult, err) ← send (daUserOperation args);
     match err with
     | Some err =>
         Unlock;;
         assign (setOnboardingStatus OnboardingStatusBurnSDFailure);;
         mret (None, Some err)
     | None =>
         let '(result, err) := GetBurnSDByOwnerResult opResult in
         match err with
         | Some _ =>
             Unlock;;
             assign (setOnboardingStatus OnboardingStatusBurnSDFailure)
         | None => mret tt
         end;;
         Unlock;;
         assign (setWalletIndex (null.NewInt64 0 false));;
         assign (controllers.withSyntheticTokenID (null.NewInt64 0 false));;
         assign (setOnboardingStatus OnboardingStatusBurnSDSuccess);;
         (* the log line reads result.SyntheticDeviceNode *)
         match result with
         | None => panic "invalid memory address or nil pointer dereference"
         | Some _ => record ← get; mret (record, None)
         end
     end).

(** *** Delete worker *)
Definition BurnVehicleAndUpdate `{Client} (args : DeleteArgs)
    : M (option Vin * option error) :=
  defer (update [ColOnboardingStatus; ColVehicleTokenID];; mret tt)
    (Lock;;
     '(opResult, err) ← send (deUserOperation args);
     match err with
     | Some err =>
         Unlock;;
         assign (setOnboardingStatus OnboardingStatusBurnVehicleFailure);;
         mret (None, Some err)
     | None =>
         let '(result, err) := GetBurnVehicleByOwnerResult opResult in
         match err with
         | Some _ =>
             Unlock;;
             assign (setOnboardingStatus OnboardingStatusBurnVehicleFailure)
         | None => mret tt
         end;;
         Unlock;;
         assign (controllers.withVehicleTokenID (null.NewInt64 0 false));;
         assign (setOnboardingStatus OnboardingStatusBurnVehicleSuccess);;
         (* the log line reads result.VehicleNode *)
         match result with
         | None => panic "invalid memory address or nil pointer dereference"
         | Some _ => record ← get; mret (record, None)
         end
     end).

(** [GetVinRecord]: the row with that key, read into a fresh struct. *)
Definition GetVinRecord (getErr : option error) (vinToSearch : string)
    : M (option error) := fun s =>
  match getErr with
  | Some e => Done (Some e) (setRecord None s)
  | None =>
      match db s !! vinToSearch with
      | Some vin => Done None (setRecord (Some vin) s)
      | None => Done (Some ErrNoRows) (setRecord None s)
      end
  end.

(** [DeleteWorker.Work] *)
Definition DeleteWorker_Work `{Client} (getErr : option error)
    (args : DeleteArgs) : M (option error) :=
  err ← GetVinRecord getErr (deVIN args);
  match err with
  | Some err => mret (Some err)
  | None =>
      record ← get;
      match record with
      | None => panic "invalid memory address or nil pointer dereference"
      | Some record =>
          if OnboardingStatus record <? OnboardingStatusBurnSDSuccess then
            mret (Some (New "insufficient disconnect status"))
          else if OnboardingStatus record =? OnboardingStatusBurnVehicleSuccess then
            mret None
          else if null.IValid (SyntheticTokenID record) then
            mret (Some (New "sd not empty"))
          else if null.IValid (VehicleTokenID record) then
            '(_, err) ← BurnVehicleAndUpdate args;
            match err with
            | Some err => mret (Some err)
            | None => mret None
            end
          else mret None
      end
  end.

(** *** Verify worker: decoding and the whole job *)

(** [service.DecodeVinResponse] and [models.DeviceDefinition]. *)
Record DecodeVinResponse := mkDecoded {
  dvDeviceDefinitionID : string; dvNewTransactionHash : string
}.
Record Manufacturer := mkManufacturer { mfTokenID : Z; mfName : string }.
Record DeviceDefinition := mkDefinition {
  ddDeviceDefinitionID : string;
  ddManufacturer : Manufacturer;
  ddModel : string;
  ddYear : Z
}.

(** The device-definitions service and the identity service, outside
    collaborators. The identity service is polled: its answer to the
    [i]-th call of a run (counted from 0) is [FetchDeviceDefinitionByID i]. *)
Class DeviceDefinitionsAPI := {
  DecodeVin : string -> string -> option DecodeVinResponse * option error
}.
Class IdentityAPI := {
  FetchDeviceDefinitionByID :
    nat -> string -> option DeviceDefinition * option error
}.

(** The answer that ends the wait: the loop retries when
    [err != nil || definition == nil || definition.DeviceDefinitionID == ""]. *)
Definition ready (answer : option DeviceDefinition * option error)
    : option DeviceDefinition :=
  match answer with
  | (Some definition, None) =>
      if String.eqb (ddDeviceDefinitionID definition) "" then None
      else Some definition
  | _ => None
  end.

(** The loop of [getOrWaitForDeviceDefinition] from attempt [i] on, with
    [attempts] attempts left; the second component counts the calls of
    [time.Sleep(5 * time.Second)]. *)
Fixpoint waitForDeviceDefinition `{IdentityAPI} (deviceDefinitionID : string)
    (i attempts : nat) : (option DeviceDefinition * option error) * nat :=
  match attempts with
  | O => ((None, Some (New "device definition not found")), O)
  | S attempts =>
      match ready (FetchDeviceDefinitionByID i deviceDefinitionID) with
      | Some definition => ((Some definition, None), O)
      | None =>
          let '(r, slept) :=
            waitForDeviceDefinition deviceDefinitionID (S i) attempts in
          (r, S slept)
      end
  end.

Definition getOrWaitForDeviceDefinition `{IdentityAPI}
    (deviceDefinitionID : string)
    : (option DeviceDefinition * option error) * nat :=
  waitForDeviceDefinition deviceDefinitionID 0 12.

(** [GetOrCreateVinRecord]: a read error other than "no rows" is
    returned; with no row a record at DecodingUnknown(10) is inserted. *)
Definition GetOrCreateVinRecord (getErr insertErr : option error)
    (args : VerifyArgs) : M (option error) := fun s =>
  let found :=
    match getErr with
    | Some e => inr e
    | None => match db s !! vaVIN args with
              | Some vin => inl vin
              | None => inr ErrNoRows
              end
    end in
  let create :=
    let vin := newVin (vaVIN args) OnboardingStatusDecodingUnknown in
    match insertErr with
    | Some e => Done (Some e) (setRecord None s)
    | None =>
        match db s !! vaVIN args with
        | Some _ => Done (Some (External 23505)) (setRecord None s)
        | None =>
            Done None (setDb (<[vaVIN args := vin]> (db s))
                         (setRecord (Some vin) s))
        end
    end in
  match found with
  | inl vin => Done None (setRecord (Some vin) s)
  | inr e => if negb (IsNoRows e) then Done (Some e) (setRecord None s) else create
  end.

(** [DecodeVinAndUpdate] *)
Definition DecodeVinAndUpdate `{DeviceDefinitionsAPI} `{IdentityAPI}
    (args : VerifyArgs) : M (option error) :=
  defer updateInfer
    (record ← get;
     match record with
     | None => panic "invalid memory address or nil pointer dereference"
     | Some record =>
         if (OnboardingStatus record <? OnboardingStatusDecodingSuccess)
            || null.SIsZero (DeviceDefinitionID record)
            || (String.length (null.String_ (DeviceDefinitionID record)) =? 0)%nat
         then
           assign (setOnboardingStatus OnboardingStatusDecodingPending);;
           updateInfer;;
           let '(decoded, err) := DecodeVin (vaVIN args) (vaCountryCode args) in
           match err with
           | Some err =>
               assign (setOnboardingStatus OnboardingStatusDecodingFailure);;
               mret (Some err)
           | None =>
               match decoded with
               | None => panic "invalid memory address or nil pointer dereference"
               | Some decoded =>
                   let '(dd, err) :=
                     fst (getOrWaitForDeviceDefinition (dvDeviceDefinitionID decoded)) in
                   match err with
                   | Some err =>
                       assign (setOnboardingStatus OnboardingStatusDecodingFailure);;
                       mret (Some err)
                   | None =>
                       match dd with
                       | None =>
                           panic "invalid memory address or nil pointer dereference"
                       | Some dd =>
                           assign (controllers.withDeviceDefinitionID
                                     (null.SetValid (ddDeviceDefinitionID dd)));;
                           assign (setOnboardingStatus OnboardingStatusDecodingSuccess);;
                           mret None
                       end
                   end
               end
           end
         else
           assign (setOnboardingStatus OnboardingStatusDecodingSuccess);;
           mret None
     end).

(** [VerifyWorker.Work] *)
Definition VerifyWorker_Work `{DeviceDefinitionsAPI} `{IdentityAPI}
    `{VendorOnboardingAPI} (settings : config.Settings)
    (getErr insertErr : option error) (args : VerifyArgs) : M (option error) :=
  err ← GetOrCreateVinRecord getErr insertErr args;
  match err with
  | Some err => mret (Some err)
  | None =>
      record ← get;
      match record with
      | None => panic "invalid memory address or nil pointer dereference"
      | Some record =>
          if OnboardingStatus record =? OnboardingStatusVendorValidationSuccess then
            mret None
          else
            err ← DecodeVinAndUpdate args;
            match err with
            | Some err => mret (Some err)
            | None =>
                err ← ValidateWithExternalVendorAndUpdate settings args;
                match err with
                | Some err => mret (Some err)
                | None => mret None
                end
            end
      end
  end.

(** *** Disconnect worker: the vendor stage and the whole job *)

(** The two assignments to [DisconnectionStatus] and [ConnectionStatus]. *)
Definition setLink (connection disconnection : null.String) (r : Vin) : Vin :=
  service.setConnection connection (ExternalID r) disconnection r.

(** [DisconnectFromVendorAndUpdate] *)
Definition DisconnectFromVendorAndUpdate `{VendorOnboardingAPI}
    (settings : config.Settings) (args : DisconnectArgs)
    : M (option Vin * option error) :=
  defer (update [ColOnboardingStatus];; mret tt)
    (assign (setOnboardingStatus OnboardingStatusDisconnectUnknown);;
     if config.EnableVendorConnection settings then
       let '(connection, err) := Disconnect [daVIN args] in
       match err with
       | Some err =>
           assign (setOnboardingStatus OnboardingStatusDisconnectFailure);;
           mret (None, Some err)
       | None =>
           assign (setLink (null.mkString "" false) (null.mkString "succeeded" true));;
           err ← update [ColConnectionStatus; ColDisconnectionStatus];
           match err with
           | Some err =>
               assign (setOnboardingStatus OnboardingStatusConnectFailure);;
               mret (None, Some err)
           | None =>
               assign (setOnboardingStatus OnboardingStatusDisconnectSuccess);;
               record ← get; mret (record, None)
           end
       end
     else
       assign (setLink (null.mkString "" false) (null.mkString "succeeded" true));;
       err ← update [ColConnectionStatus; ColDisconnectionStatus];
       match err with
       | Some err =>
           assign (setOnboardingStatus OnboardingStatusConnectFailure);;
           mret (None, Some err)
       | None =>
           assign (setOnboardingStatus OnboardingStatusDisconnectSuccess);;
           record ← get; mret (record, None)
       end).

(** [DisconnectWorker.Work]; [GetVinRecord] of this worker has the body
    of the delete worker's. *)
Definition DisconnectWorker_Work `{Client} `{VendorOnboardingAPI}
    (settings : config.Settings) (getErr : option error)
    (args : DisconnectArgs) : M (option error) :=
  err ← GetVinRecord getErr (daVIN args);
  match err with
  | Some err => mret (Some err)
  | None =>
      record ← get;
      match record with
      | None => panic "invalid memory address or nil pointer dereference"
      | Some record =>
          if OnboardingStatus record <? OnboardingStatusMintSuccess then
            mret (Some (New "insufficient verification status"))
          else if OnboardingStatus record =? OnboardingStatusBurnSDSuccess then
            mret None
          else
            '(record, err) ← DisconnectFromVendorAndUpdate settings args;
            match err with
            | Some err => mret (Some err)
            | None =>
                match record with
                | None => panic "invalid memory address or nil pointer dereference"
                | Some record =>
                    if null.IValid (SyntheticTokenID record) then
                      '(_, err) ← BurnSDAndUpdate args;
                      match err with
                      | Some err => mret (Some err)
                      | None => mret None
                      end
                    else mret None
                end
            end
      end
  end.

End onboarding.

(** ** Synthetic-device wallets ([internal/service/sd_wallets.go]) *)

Module sdwallets.
Import goerr.

(** A call returns a value, returns an error, panics, or the process
    exits inside [logger.Fatal]. *)
Inductive outcome (A : Type) :=
| Ok (a : A)
| Err (e : error)
| Panicked (msg : string)
| Exited.
Arguments Ok {A} a.
Arguments Err {A} e.
Arguments Panicked {A} msg.
Arguments Exited {A}.

(** The key libraries ([hdkeychain], [btcec], go-ethereum [crypto]),
    outside collaborators. Bytes are integers in [0, 256). *)
Class KeyLibrary := {
  ExtendedKey : Type;
  BtcecPrivateKey : Type;
  PrivateKey : Type;
  Derive : ExtendedKey -> Z -> ExtendedKey + error;      (* key.Derive(uint32) *)
  ECPrivKey : ExtendedKey -> BtcecPrivateKey + error;    (* childKey.ECPrivKey() *)
  Serialize : BtcecPrivateKey -> list Z;                 (* pk.Serialize() *)
  ToECDSA : list Z -> PrivateKey + error;                (* crypto.ToECDSA *)
  Sign : list Z -> PrivateKey -> list Z + error;         (* crypto.Sign *)
  PubkeyToAddress : PrivateKey -> list Z                 (* crypto.PubkeyToAddress *)
}.

(** The documented behaviour of the libraries that the wallet relies
    on: hardened derivation from a private master key and the
    conversions succeed; [crypto.Sign] accepts every 32-byte digest and
    produces [R || S || V], 65 bytes, with [V] the recovery id 0 or 1. *)
Class KeyLibraryLaws (L : KeyLibrary) := {
  Derive_hardened : forall key i, 2 ^ 31 <= i < 2 ^ 32 ->
    exists child, Derive key i = inl child;
  ECPrivKey_private : forall child, exists pk, ECPrivKey child = inl pk;
  ToECDSA_serialized : forall pk, exists k, ToECDSA (Serialize pk) = inl k;
  Sign_digest : forall hash k, length hash = 32%nat ->
    exists sig, Sign hash k = inl sig;
  Sign_format : forall hash k sig, Sign hash k = inl sig ->
    length sig = 65%nat /\
    exists v, sig !! 64%nat = Some v /\ (v = 0 \/ v = 1)
}.

Definition HardenedKeyStart : Z := 2147483648.  (* 0x80000000 *)

(** [uint32] arithmetic wraps modulo 2^32, [byte] arithmetic modulo 2^8. *)
Definition add32 (a b : Z) : Z := (a + b) mod 2 ^ 32.
Definition add8 (a b : Z) : Z := (a + b) mod 2 ^ 8.

Section Service.
Context `{L : KeyLibrary}.
Variable key : ExtendedKey.   (* s.key, derived from the seed at start-up *)

Definition getPrivateKey (index : Z) : outcome PrivateKey :=
  if HardenedKeyStart <=? index then
    Err (New ("child_number " +:+ pretty index +:+ " >= 2^31"))
  else
    match Derive key (add32 HardenedKeyStart index) with
    | inr _ => Exited
    | inl childKey =>
        match ECPrivKey childKey with
        | inr err => Err err
        | inl pk =>
            match ToECDSA (Serialize pk) with
            | inr err => Err err
            | inl ecPk => Ok ecPk
            end
        end
    end.

Definition GetAddress (index : Z) : outcome (list Z) :=
  match getPrivateKey index with
  | Ok pk => Ok (PubkeyToAddress pk)
  | Err err => Err err
  | Panicked msg => Panicked msg
  | Exited => Exited
  end.

Definition SignHash (hash : list Z) (index : Z) : outcome (list Z) :=
  match getPrivateKey index with
  | Ok pk =>
      match Sign hash pk with
      | inr err => Err err
      | inl sig =>
          (* sig[64] += 27 *)
          match sig !! 64%nat with
          | Some v => Ok (<[64%nat := add8 v 27]> sig)
          | None => Panicked "index out of range [64]"
          end
      end
  | Err err => Err err
  | Panicked msg => Panicked msg
  | Exited => Exited
  end.
End Service.

(** [SignTypedData]; [signer.TypedDataAndHash] is go-ethereum's EIP-712
    digest of the typed data, an outside collaborator. *)
Section TypedData.
Context `{L : KeyLibrary}.
Variable TypedData : Type.
Variable TypedDataAndHash : TypedData -> list Z + error.
Variable key : ExtendedKey.

Definition SignTypedData (data : TypedData) (index : Z) : outcome (list Z) :=
  match TypedDataAndHash data with
  | inr err => Err err
  | inl hash => SignHash key hash index
  end.
End TypedData.

End sdwallets.

(** ** The onboarding worker ([internal/onboarding/onboard.go]) *)

Module onboard.
Import goerr dbmodels onboarding_status run onboarding.

(** An opaque EIP-712 document. *)
Definition TypedData := Z.

Record OnboardingSacd := mkSacd {
  sacdGrantee : string; sacdPermissions : Z; sacdExpiration : Z; sacdSource : string
}.

Record OnboardingArgs := mkOnboardingArgs {
  oaOwner : string;
  oaVIN : string;
  oaTypedData : option TypedData;
  oaSignature : list Z;
  oaSacd : option OnboardingSacd
}.

(** The minting fields of [config.Settings]. *)
Record MintSettings := mkMintSettings {
  EnableMintingWithConnectionTokenID : bool;
  ConnectionTokenID : string;
  IntegrationTokenID : string
}.

(** [new(big.Int).SetString(s, 10)]: an optional sign followed by one or
    more decimal digits, nothing else; [None] is the pair [(nil, false)]. *)
Definition digit (c : Ascii.ascii) : option Z :=
  let n := Z.of_N (Ascii.N_of_ascii c) in
  if (48 <=? n) && (n <=? 57) then Some (n - 48) else None.

Fixpoint digits (s : string) (acc : Z) : option Z :=
  match s with
  | EmptyString => Some acc
  | String c rest =>
      match digit c with
      | Some d => digits rest (10 * acc + d)
      | None => None
      end
  end.

Definition SetString10 (s : string) : option Z :=
  match s with
  | EmptyString => None
  | String c rest =>
      if Z.of_N (Ascii.N_of_ascii c) =? 45 then        (* '-' *)
        match rest with
        | EmptyString => None
        | _ => Z.opp <$> digits rest 0
        end
      else if Z.of_N (Ascii.N_of_ascii c) =? 43 then   (* '+' *)
        match rest with
        | EmptyString => None
        | _ => digits rest 0
        end
      else digits s 0
  end.

(** The inputs and results of the registry calls ([go-transactions]). *)
Record AttributeInfoPair := mkPair { Attribute : string; Info : string }.

Record MintVehicleAndSdWithDdInput := mkMintInput {
  miOwner : string;
  miVehicleOwnerSig : list Z;
  miManufacturerNode : Z;
  miIntegrationNode : option Z;
  miDeviceDefinitionId : string;
  miSyntheticDeviceAddr : list Z;
  miSyntheticDeviceSig : list Z;
  miAttrInfoPairsDevice : list AttributeInfoPair;
  miAttrInfoPairsVehicle : list AttributeInfoPair
}.

Record SacdInput := mkSacdInput {
  siGrantee : string; siPermissions : Z; siExpiration : Z
}.

Record MintSyntheticDeviceInput := mkMintSDInput {
  msVehicleOwnerSig : list Z;
  msSyntheticDeviceAddr : list Z;
  msSyntheticDeviceSig : list Z;
  msAttrInfoPairs : list AttributeInfoPair;
  msIntegrationNode : option Z;
  msVehicleNode : Z
}.

(** The two nodes of a mint event, each as its [Int64()]. *)
Record Minted := mkMinted { VehicleId : Z; SyntheticDeviceNode : Z }.

(** The collaborators of the worker: the transaction facility, the
    wallet service behind [service.SDWalletsAPI] and the sequence
    [sd_wallet_index_seq] read with [SELECT nextval(...)]. *)
Class MintClient := {
  GetMintVehicleAndSDTypedData : option Z -> option TypedData;
  GetMintVehicleAndSDTypedDataV2 : option Z -> option TypedData;
  GetMintSDTypedData : option Z -> Z -> option TypedData;
  GetMintSDTypedDataV2 : option Z -> Z -> option TypedData;
  MintVehicleAndSDWithDD :
    MintVehicleAndSdWithDdInput -> option Minted * option error;
  MintVehicleAndSDWithDDAndSACD :
    MintVehicleAndSdWithDdInput -> SacdInput -> option Minted * option error;
  MintSD : MintSyntheticDeviceInput -> option Z * option error
}.

Class SDWalletsAPI := {
  GetAddress : Z -> sdwallets.outcome (list Z);
  SignTypedData : TypedData -> Z -> sdwallets.outcome (list Z)
}.

Class Sequence := {
  nextval : Z + error
}.

(** The wallet service shipped in the repository
    ([service.SDWalletsService]). *)
Definition SDWalletsService `{L : sdwallets.KeyLibrary}
    (TypedDataAndHash : TypedData -> list Z + error)
    (key : sdwallets.ExtendedKey) : SDWalletsAPI := {|
  GetAddress := sdwallets.GetAddress key;
  SignTypedData := sdwallets.SignTypedData TypedData TypedDataAndHash key
|}.

(** A call of the wallet service from a worker: an exit inside
    [logger.Fatal] stops the process, no deferred call runs. *)
Definition call {A} (o : sdwallets.outcome A) : M (A + error) := fun s =>
  match o with
  | sdwallets.Ok a => Done (inl a) s
  | sdwallets.Err e => Done (inr e) s
  | sdwallets.Panicked msg => Panic msg s
  | sdwallets.Exited => Fatal "os.Exit(1)" s
  end.

(** [GetNextSDWalletIndex]: the value is read on the reader connection,
    inside no transaction. *)
Definition GetNextSDWalletIndex `{Sequence} : M (option Z * option error) := fun s =>
  match dbBegin s with
  | Some e => Done (None, Some (Wrap "failed to begin transaction" e)) s
  | None =>
      match nextval with
      | inr e => Done (None, Some e) s
      | inl index =>
          match dbCommit s with
          | Some e => Done (None, Some (Wrap "failed to commit transaction" e)) s
          | None => Done (Some index, None) s
          end
      end
  end.

Definition nilDeref {A} : M A :=
  panic "invalid memory address or nil pointer dereference".

Definition fail (code : Z) (err : option error) : M (option Vin * option error) :=
  assign (setOnboardingStatus code);; mret (None, err).

(** [ConnectToVendorAndUpdate] *)
Definition ConnectToVendorAndUpdate `{VendorOnboardingAPI}
    (settings : config.Settings) (args : OnboardingArgs)
    : M (option Vin * option error) :=
  defer (update [ColOnboardingStatus];; mret tt)
    (assign (setOnboardingStatus OnboardingStatusConnectUnknown);;
     if config.EnableVendorConnection settings then
       let '(connection, err) := Connect [oaVIN args] in
       match err with
       | Some err => fail OnboardingStatusConnectFailure (Some err)
       | None =>
           assign (setLink (null.mkString "succeeded" true) (null.mkString "" false));;
           err ← update [ColConnectionStatus; ColDisconnectionStatus];
           match err with
           | Some err => fail OnboardingStatusConnectFailure (Some err)
           | None =>
               assign (setOnboardingStatus OnboardingStatusConnectSuccess);;
               record ← get; mret (record, None)
           end
       end
     else
       assign (setLink (null.mkString "succeeded" true) (null.mkString "" false));;
       err ← update [ColConnectionStatus; ColDisconnectionStatus];
       match err with
       | Some err => fail OnboardingStatusConnectFailure (Some err)
       | None =>
           assign (setOnboardingStatus OnboardingStatusConnectSuccess);;
           record ← get; mret (record, None)
       end).

(** The [registry.MintVehicleAndSdWithDdInput] built by the worker. *)
Definition mintInput (args : OnboardingArgs) (deviceDefinition : DeviceDefinition)
    (integrationOrConnectionID : option Z) (sdAddress sdSignature : list Z)
    : MintVehicleAndSdWithDdInput :=
  {| miOwner := oaOwner args;
     miVehicleOwnerSig := oaSignature args;
     miManufacturerNode := mfTokenID (ddManufacturer deviceDefinition);
     miIntegrationNode := integrationOrConnectionID;
     miDeviceDefinitionId := ddDeviceDefinitionID deviceDefinition;
     miSyntheticDeviceAddr := sdAddress;
     miSyntheticDeviceSig := sdSignature;
     miAttrInfoPairsDevice := [];
     miAttrInfoPairsVehicle :=
       [mkPair "Make" (mfName (ddManufacturer deviceDefinition));
        mkPair "Model" (ddModel deviceDefinition);
        mkPair "Year" (pretty (ddYear deviceDefinition))] |}.

(** The assignments after a successful mint of vehicle and device; the
    wallet index is assigned before the result is read. *)
Definition recordMinted (sdIndex : Z) (result : option Minted)
    : M (option Vin * option error) :=
  assign (setWalletIndex (null.Int64From sdIndex));;
  match result with
  | None => nilDeref
  | Some result =>
      assign (controllers.withVehicleTokenID (null.Int64From (VehicleId result)));;
      assign (controllers.withSyntheticTokenID
                (null.Int64From (SyntheticDeviceNode result)));;
      assign (setOnboardingStatus OnboardingStatusMintSuccess);;
      record ← get; mret (record, None)
  end.

(** [MintVehicleWithSDAndUpdate] *)
Definition MintVehicleWithSDAndUpdate `{IdentityAPI} `{Sequence} `{SDWalletsAPI}
    `{MintClient} (ms : MintSettings) (args : OnboardingArgs)
    : M (option Vin * option error) :=
  defer (update [ColOnboardingStatus; ColVehicleTokenID; ColSyntheticTokenID;
                 ColWalletIndex];; mret tt)
    (record ← get;
     match record with
     | None => nilDeref
     | Some record =>
     let '(deviceDefinition, err) :=
       FetchDeviceDefinitionByID 0 (null.String_ (DeviceDefinitionID record)) in
     match err with
     | Some err => fail OnboardingStatusMintFailure (Some err)
     | None =>
     '(sdIndex, err) ← GetNextSDWalletIndex;
     match err with
     | Some err => fail OnboardingStatusMintFailure (Some err)
     | None =>
     match sdIndex with
     | None => nilDeref
     | Some sdIndex =>
     sdAddress ← call (GetAddress sdIndex);
     match sdAddress with
     | inr err => fail OnboardingStatusMintFailure (Some err)
     | inl sdAddress =>
     let '(integrationOrConnectionID, sdTypedData) :=
       if EnableMintingWithConnectionTokenID ms then
         let id := SetString10 (ConnectionTokenID ms) in
         (id, GetMintVehicleAndSDTypedDataV2 id)
       else
         let id := SetString10 (IntegrationTokenID ms) in
         (id, GetMintVehicleAndSDTypedData id) in
     match integrationOrConnectionID with
     | None =>
         (* [return nil, err] with the nil [err] of the last call *)
         fail OnboardingStatusMintFailure None
     | Some _ =>
     match sdTypedData with
     | None => nilDeref
     | Some sdTypedData =>
     sdSignature ← call (SignTypedData sdTypedData sdIndex);
     match sdSignature with
     | inr err => fail OnboardingStatusMintFailure (Some err)
     | inl sdSignature =>
     match deviceDefinition with
     | None => nilDeref
     | Some deviceDefinition =>
     let mintInput :=
       mintInput args deviceDefinition integrationOrConnectionID
         sdAddress sdSignature in
     match oaSacd args with
     | None =>
         Lock;;
         let '(result, err) := MintVehicleAndSDWithDD mintInput in
         match err with
         | Some err => Unlock;; fail OnboardingStatusMintFailure (Some err)
         | None => Unlock;; recordMinted sdIndex result
         end
     | Some sacd =>
         let sacdInput :=
           mkSacdInput (sacdGrantee sacd) (sacdPermissions sacd)
             (sacdExpiration sacd) in
         Lock;;
         let '(result, err) := MintVehicleAndSDWithDDAndSACD mintInput sacdInput in
         match err with
         | Some err => Unlock;; fail OnboardingStatusMintFailure (Some err)
         | None => Unlock;; recordMinted sdIndex result
         end
     end end end end end end end end end end).

(** [MintSDAndUpdate] *)
Definition MintSDAndUpdate `{Sequence} `{SDWalletsAPI} `{MintClient}
    (ms : MintSettings) (args : OnboardingArgs)
    : M (option Vin * option error) :=
  defer (update [ColOnboardingStatus; ColSyntheticTokenID; ColWalletIndex];; mret tt)
    ('(sdIndex, err) ← GetNextSDWalletIndex;
     match err with
     | Some err => fail OnboardingStatusMintFailure (Some err)
     | None =>
     match sdIndex with
     | None => nilDeref
     | Some sdIndex =>
     sdAddress ← call (GetAddress sdIndex);
     match sdAddress with
     | inr err => fail OnboardingStatusMintFailure (Some err)
     | inl sdAddress =>
     record ← get;
     match record with
     | None => nilDeref
     | Some record =>
     let vehicleNode := null.Int64_ (VehicleTokenID record) in
     let '(integrationOrConnectionID, sdTypedData) :=
       if EnableMintingWithConnectionTokenID ms then
         let id := SetString10 (ConnectionTokenID ms) in
         (id, GetMintSDTypedDataV2 id vehicleNode)
       else
         let id := SetString10 (IntegrationTokenID ms) in
         (id, GetMintSDTypedData id vehicleNode) in
     match integrationOrConnectionID with
     | None => fail OnboardingStatusMintFailure None
     | Some _ =>
     match sdTypedData with
     | None => nilDeref
     | Some sdTypedData =>
     sdSignature ← call (SignTypedData sdTypedData sdIndex);
     match sdSignature with
     | inr err => fail OnboardingStatusMintFailure (Some err)
     | inl sdSignature =>
     let mintInput :=
       mkMintSDInput (oaSignature args) sdAddress sdSignature []
         integrationOrConnectionID vehicleNode in
     Lock;;
     let '(result, err) := MintSD mintInput in
     match err with
     | Some err => Unlock;; fail OnboardingStatusMintFailure (Some err)
     | None =>
         Unlock;;
         assign (setWalletIndex (null.Int64From sdIndex));;
         match result with
         | None => nilDeref
         | Some syntheticDeviceNode =>
             assign (controllers.withSyntheticTokenID
                       (null.Int64From syntheticDeviceNode));;
             assign (setOnboardingStatus OnboardingStatusMintSuccess);;
             record ← get; mret (record, None)
         end
     end end end end end end end end).

(** [OnboardingWorker.Work]; [GetVinRecord] of this worker has the body
    of the delete worker's. *)
Definition OnboardingWorker_Work `{VendorOnboardingAPI} `{IdentityAPI}
    `{Sequence} `{SDWalletsAPI} `{MintClient}
    (settings : config.Settings) (ms : MintSettings) (getErr : option error)
    (args : OnboardingArgs) : M (option error) :=
  err ← GetVinRecord getErr (oaVIN args);
  match err with
  | Some err => mret (Some err)
  | None =>
  record ← get;
  match record with
  | None => nilDeref
  | Some record =>
  if OnboardingStatus record <? OnboardingStatusVendorValidationSuccess then
    mret (Some (New "insufficient verification status"))
  else if (OnboardingStatus record =? OnboardingStatusMintSuccess)
          && negb (String.eqb (null.String_ (ConnectionStatus record)) "failed")
  then mret None
  else
  '(record, err) ← ConnectToVendorAndUpdate settings args;
  match err with
  | Some err => mret (Some err)
  | None =>
  match record with
  | None => nilDeref
  | Some record =>
  minted ←
    (if negb (null.IValid (VehicleTokenID record)) then
       MintVehicleWithSDAndUpdate ms args
     else mret (Some record, None));
  let '(record, err) := minted in
  match err with
  | Some err => mret (Some err)
  | None =>
  match record with
  | None => nilDeref
  | Some record =>
  if negb (null.IValid (SyntheticTokenID record)) then
    '(_, err) ← MintSDAndUpdate ms args;
    match err with
    | Some err => mret (Some err)
    | None => mret None
    end
  else
    assign (setOnboardingStatus OnboardingStatusMintSuccess);;
    err ← update [ColOnboardingStatus];
    match err with
    | Some err => mret (Some err)
    | None => mret None
    end
  end end end end end end.

End onboard.

(** ** The other handlers of the API controller ([controllers]) *)

Module api.
Import goerr dbmodels onboarding_status service controllers.

(** *** The status endpoints

    The four status handlers differ in the view they apply to the
    stored code and in nothing else. *)
Definition statusForVins (view : Z -> string) (settings : config.Settings)
    (f : faults) (t : table) (params : parsed string)
    : Response * list effect :=
  match params with
  | ParseError => (mkResponse StatusBadRequest (ErrorBody "Failed to parse VINs"), [])
  | Parsed paramsVins =>
      let validVins :=
        List.filter (isValidVin settings) (List.map TrimSpace paramsVins) in
      if negb (length validVins =? length paramsVins)%nat then
        (mkResponse StatusBadRequest (ErrorBody "Invalid VINs provided"), [])
      else
        let compactedVins := Compact validVins in
        if negb (length validVins =? length compactedVins)%nat then
          (mkResponse StatusBadRequest (ErrorBody "Duplicated VINs"), [])
        else if (0 <? length validVins)%nat then
          match GetVehiclesByVins f t validVins with
          | (_, Some err) =>
              if IsVehicleNotFound err
              then (mkResponse StatusNotFound (ErrorBody "Could not find Vehicles"),
                    [StoreLookup validVins])
              else (mkResponse StatusInternalServerError
                      (ErrorBody "Failed to load vehicles from Database"),
                    [StoreLookup validVins])
          | (dbVins, None) =>
              let indexedVins := indexVins dbVins in
              let statuses :=
                List.map (fun vin =>
                  match indexedVins !! vin with
                  | None => mkVinStatus vin "Unknown" "Unknown"
                  | Some dbVin =>
                      mkVinStatus vin
                        (view (OnboardingStatus dbVin))
                        (GetDetailedStatus (OnboardingStatus dbVin))
                  end) validVins in
              (mkResponse StatusOK (StatusesBody statuses), [StoreLookup validVins])
          end
        else (mkResponse StatusOK (StatusesBody []), [])
  end.

Definition GetMintStatusForVins := statusForVins GetMintStatus.
Definition GetDisconnectStatusForVins := statusForVins GetDisconnectStatus.
Definition GetDeleteStatusForVins := statusForVins GetBurnStatus.

(** *** Requests and calls of the submit endpoints *)

(** A handler replies, or panics (the recover middleware then answers
    for it). *)
Inductive outcome :=
| Replies (r : Response)
| Panics (msg : string).

(** A typed-data document of a request: its primary type, the value of
    [Message["deviceDefinitionId"]] when that is a string, and the
    document itself. *)
Record TypedDataDoc := mkDoc {
  PrimaryType : string;
  deviceDefinitionId : option string;
  document : onboard.TypedData
}.

Record VinTransactionData := mkTransactionData {
  tdVin : string;
  tdTypedData : option TypedDataDoc;
  tdSignature : list Z
}.

Record SacdInput := mkSacdInput {
  Grantee : string; Permissions : Z; Expiration : Z; Source : string
}.

Record MintDataForVins := mkMintData {
  VinMintingData : list VinTransactionData;
  Sacd : SacdInput
}.

(** [zerodev.UserOperation], reached through a pointer: its signature
    field and the rest of it. *)
Record UserOperation := mkUserOperation {
  opCall : Z;
  opSignature : list Z
}.

Record VinUserOperationData := mkOperationData {
  odVin : string;
  odUserOperation : option UserOperation;     (* [None] is nil *)
  odHash : list Z;
  odSignature : list Z
}.

(** The calls a submit or data handler makes, in order. *)
Inductive call :=
| Lookup (vins : list string)                      (* vs.GetVehiclesByVins *)
| LookupStatus (vins : list string) (status : Z)   (* vs.GetVehiclesByVinsAndOnboardingStatus *)
| LookupRange (vins : list string) (minStatus maxStatus : Z)
| InsertOnboard (args : onboard.OnboardingArgs)    (* riverClient.Insert(OnboardingArgs) *)
| InsertDisconnect (vin : string) (op : UserOperation)
| InsertDelete (vin : string) (op : UserOperation)
| Upsert (r : Vin).                                (* vs.InsertOrUpdateVin *)

(** Failures of the collaborators of a submit handler; [render] is the
    [%v] of the request item in the error text. *)
Record env := mkEnv {
  lookupFaults : faults;
  mintedFaults : faults;
  insertErr : string -> option error;
  upsertFaults : Vin -> faults;
  GetDeviceDefinitionByID : string -> option error;
  render : string -> string
}.

Definition quiet : env :=
  mkEnv noFaults noFaults (fun _ => None) (fun _ => noFaults) (fun _ => None)
    (fun vin => vin).

Definition reply (code : Z) (msg : string) : outcome :=
  Replies (mkResponse code (ErrorBody msg)).

(** *** [SubmitMintDataForVins] *)

(** [getValidatedMintingData]: [inl] the validated item, [inr None] an
    error, [inr (Some msg)] a panic of the type assertion on the message
    field. *)
Definition getValidatedMintingData (settings : config.Settings) (e : env)
    (data : VinTransactionData) : VinTransactionData + option string :=
  let strippedVin := TrimSpace (tdVin data) in
  if negb (isValidVin settings strippedVin) then inr None
  else
    let result := mkTransactionData strippedVin (tdTypedData data) (tdSignature data) in
    match tdTypedData data with
    | Some doc =>
        if String.eqb (PrimaryType doc) "MintVehicleWithDeviceDefinitionSign" then
          match deviceDefinitionId doc with
          | None => inr (Some "interface conversion: interface {} is not string")
          | Some id =>
              match GetDeviceDefinitionByID e id with
              | Some _ => inr None
              | None => inl result
              end
          end
        else inl result
    | None => inl result
    end.

Fixpoint validateAll {A} (validate : A -> A + option string) (items : list A)
    : list A + option string :=
  match items with
  | [] => inl []
  | item :: rest =>
      match validate item with
      | inr stop => inr stop
      | inl valid =>
          match validateAll validate rest with
          | inr stop => inr stop
          | inl valids => inl (valid :: valids)
          end
      end
  end.

Definition sacdOf (sacd : SacdInput) : option onboard.OnboardingSacd :=
  if negb (Expiration sacd =? 0) && negb (Permissions sacd =? 0)
  then Some (onboard.mkSacd (Grantee sacd) (Permissions sacd) (Expiration sacd)
               (Source sacd))
  else None.

Fixpoint mintEach (e : env) (walletAddress : string) (sacd : SacdInput)
    (indexedDbVins : gmap string Vin) (items : list VinTransactionData)
    (t : table) (calls : list call) (statuses : list VinStatus)
    : outcome * table * list call :=
  match items with
  | [] => (Replies (mkResponse StatusOK (StatusesBody statuses)), t, calls)
  | mint :: rest =>
      let dbVin :=
        match indexedDbVins !! tdVin mint with
        | Some r => r
        | None => newVin (tdVin mint) OnboardingStatusMintSubmitUnknown
        end in
      let '(st, calls) :=
        if canSubmitMintingJob (Some dbVin) then
          let job :=
            onboard.mkOnboardingArgs walletAddress (tdVin mint)
              (document <$> tdTypedData mint) (tdSignature mint) (sacdOf sacd) in
          match insertErr e (tdVin mint) with
          | Some _ =>
              (mkVinStatus (tdVin mint) "Failure"
                 (GetDetailedStatus OnboardingStatusMintSubmitFailure),
               (calls ++ [InsertOnboard job])%list)
          | None =>
              (mkVinStatus (tdVin mint) "Pending"
                 (GetDetailedStatus OnboardingStatusMintSubmitPending),
               (calls ++ [InsertOnboard job])%list)
          end
        else
          (mkVinStatus (tdVin mint)
             (GetVerificationStatus (OnboardingStatus dbVin))
             (GetDetailedStatus (OnboardingStatus dbVin)), calls) in
      match InsertOrUpdateVin (upsertFaults e dbVin) t dbVin with
      | (t, Some _) =>
          (reply StatusInternalServerError
             ("Failed to submit verification for mint: " +:+ render e (tdVin mint)),
           t, (calls ++ [Upsert dbVin])%list)
      | (t, None) =>
          mintEach e walletAddress sacd indexedDbVins rest t
            (calls ++ [Upsert dbVin])%list (statuses ++ [st])%list
      end
  end.

Definition SubmitMintDataForVins (settings : config.Settings) (e : env)
    (walletAddress : option string) (params : option MintDataForVins)
    (t : table) : outcome * table * list call :=
  match walletAddress with
  | None => (reply StatusInternalServerError "Failed to get wallet address", t, [])
  | Some walletAddress =>
  match params with
  | None => (reply StatusBadRequest "Failed to parse minting data", t, [])
  | Some params =>
  match validateAll (getValidatedMintingData settings e) (VinMintingData params) with
  | inr (Some msg) => (Panics msg, t, [])
  | inr None => (reply StatusBadRequest "Invalid minting data", t, [])
  | inl validVinsMintingData =>
  let validVins := List.map tdVin validVinsMintingData in
  if negb (length validVins =? length (VinMintingData params))%nat then
    (reply StatusBadRequest "Invalid minting data provided", t, [])
  else if negb (length validVins =? length (Compact validVins))%nat then
    (reply StatusBadRequest "Duplicated VINs", t, [])
  else if (0 <? length validVins)%nat then
    match GetVehiclesByVins (lookupFaults e) t validVins with
    | (_, Some err) =>
        if IsNoRows err
        then (reply StatusNotFound "Could not find Vehicles", t, [Lookup validVins])
        else (reply StatusInternalServerError "Failed to load vehicles from Database",
              t, [Lookup validVins])
    | (dbVins, None) =>
        let calls := [Lookup validVins; LookupStatus validVins OnboardingStatusMintSuccess] in
        match GetVehiclesByVinsAndOnboardingStatus (mintedFaults e) t validVins
                OnboardingStatusMintSuccess with
        | (mintedVins, err) =>
            if match err with
               | Some err => negb (IsVehicleNotFound err)
               | None => false
               end
            then (reply StatusInternalServerError
                    "Failed to load vehicles from Database", t, calls)
            else
              let vendorFailedMintedVins :=
                List.filter (fun vin => String.eqb (null.String_ (ConnectionStatus vin))
                                          "failed") mintedVins in
              let dbVins := (dbVins ++ vendorFailedMintedVins)%list in
              mintEach e walletAddress (Sacd params) (indexVins dbVins)
                validVinsMintingData t calls []
        end
    end
  else (Replies (mkResponse StatusOK (StatusesBody [])), t, [])
  end end end.

(** *** [SubmitDisconnectDataForVins] and [SubmitDeleteDataForVins] *)

(** [getValidatedUserOperationData] *)
Definition getValidatedUserOperationData (settings : config.Settings)
    (data : VinUserOperationData) : VinUserOperationData + option string :=
  let strippedVin := TrimSpace (odVin data) in
  if negb (isValidVin settings strippedVin) then inr None
  else inl (mkOperationData strippedVin (odUserOperation data) (odHash data)
              (odSignature data)).

(** [op := item.UserOperation; op.Signature = item.Signature]: the
    assignment goes through the pointer, so the operation the job is
    built from afterwards carries the signature. *)
Definition signed (item : VinUserOperationData) : option UserOperation :=
  match odUserOperation item with
  | None => None
  | Some op => Some (mkUserOperation (opCall op) (odSignature item))
  end.

Fixpoint disconnectEach (e : env) (indexedDbVins : gmap string Vin)
    (items : list VinUserOperationData)
    (t : table) (calls : list call) (statuses : list VinStatus)
    : outcome * table * list call :=
  match items with
  | [] => (Replies (mkResponse StatusOK (StatusesBody statuses)), t, calls)
  | disconnect :: rest =>
      let dbVin :=
        match indexedDbVins !! odVin disconnect with
        | Some r => r
        | None => newVin (odVin disconnect) OnboardingStatusDisconnectSubmitUnknown
        end in
      let continue st calls :=
        match InsertOrUpdateVin (upsertFaults e dbVin) t dbVin with
        | (t, Some _) =>
            (reply StatusInternalServerError
               ("Failed to submit disconnect: " +:+ render e (odVin disconnect)),
             t, (calls ++ [Upsert dbVin])%list)
        | (t, None) =>
            disconnectEach e indexedDbVins rest t
              (calls ++ [Upsert dbVin])%list (statuses ++ [st])%list
        end in
      if canSubmitDisconnectJob (Some dbVin) then
        match signed disconnect with
        | None => (Panics "invalid memory address or nil pointer dereference", t, calls)
        | Some op =>
            match insertErr e (odVin disconnect) with
            | Some _ =>
                continue
                  (mkVinStatus (odVin disconnect) "Failure"
                     (GetDetailedStatus OnboardingStatusDisconnectSubmitFailure))
                  (calls ++ [InsertDisconnect (odVin disconnect) op])%list
            | None =>
                continue
                  (mkVinStatus (odVin disconnect) "Pending"
                     (GetDetailedStatus OnboardingStatusDisconnectSubmitPending))
                  (calls ++ [InsertDisconnect (odVin disconnect) op])%list
            end
        end
      else
        continue
          (mkVinStatus (odVin disconnect)
             (GetVerificationStatus (OnboardingStatus dbVin))
             (GetDetailedStatus (OnboardingStatus dbVin)))
          calls
  end.

Definition SubmitDisconnectDataForVins (settings : config.Settings) (e : env)
    (walletAddress : option string) (params : option (list VinUserOperationData))
    (t : table) : outcome * table * list call :=
  match walletAddress with
  | None => (reply StatusInternalServerError "Failed to get wallet address", t, [])
  | Some walletAddress =>
  match params with
  | None => (reply StatusBadRequest "Failed to parse disconnection data", t, [])
  | Some VinDisconnectData =>
  match validateAll (getValidatedUserOperationData settings) VinDisconnectData with
  | inr (Some msg) => (Panics msg, t, [])
  | inr None => (reply StatusBadRequest "Invalid disconnect data", t, [])
  | inl validVinsDisconnectData =>
  let validVins := List.map odVin validVinsDisconnectData in
  if negb (length validVins =? length VinDisconnectData)%nat then
    (reply StatusBadRequest "Invalid disconnect data provided", t, [])
  else if negb (length validVins =? length (Compact validVins))%nat then
    (reply StatusBadRequest "Duplicated VINs", t, [])
  else if (0 <? length validVins)%nat then
    match GetVehiclesByVins (lookupFaults e) t validVins with
    | (_, Some err) =>
        if IsNoRows err
        then (reply StatusNotFound "Could not find Vehicles", t, [Lookup validVins])
        else (reply StatusInternalServerError "Failed to load vehicles from Database",
              t, [Lookup validVins])
    | (dbVins, None) =>
        disconnectEach e (indexVins dbVins) validVinsDisconnectData t
          [Lookup validVins] []
    end
  else (Replies (mkResponse StatusOK (StatusesBody [])), t, [])
  end end end.

Fixpoint deleteEach (e : env) (indexedDbVins : gmap string Vin)
    (items : list VinUserOperationData)
    (t : table) (calls : list call) (statuses : list VinStatus)
    : outcome * table * list call :=
  match items with
  | [] => (Replies (mkResponse StatusOK (StatusesBody statuses)), t, calls)
  | deleteVehicle :: rest =>
      let dbVin :=
        match indexedDbVins !! odVin deleteVehicle with
        | Some r => r
        | None => newVin (odVin deleteVehicle) OnboardingStatusDeleteSubmitUnknown
        end in
      let continue st calls :=
        match InsertOrUpdateVin (upsertFaults e dbVin) t dbVin with
        | (t, Some _) =>
            (reply StatusInternalServerError
               ("Failed to submit deleteVehicle: " +:+ render e (odVin deleteVehicle)),
             t, (calls ++ [Upsert dbVin])%list)
        | (t, None) =>
            deleteEach e indexedDbVins rest t
              (calls ++ [Upsert dbVin])%list (statuses ++ [st])%list
        end in
      if canSubmitDeleteJob (Some dbVin) then
        match signed deleteVehicle with
        | None => (Panics "invalid memory address or nil pointer dereference", t, calls)
        | Some op =>
            match insertErr e (odVin deleteVehicle) with
            | Some _ =>
                continue
                  (mkVinStatus (odVin deleteVehicle) "Failure"
                     (GetDetailedStatus OnboardingStatusDeleteSubmitFailure))
                  (calls ++ [InsertDelete (odVin deleteVehicle) op])%list
            | None =>
                continue
                  (mkVinStatus (odVin deleteVehicle) "Pending"
                     (GetDetailedStatus OnboardingStatusDeleteSubmitPending))
                  (calls ++ [InsertDelete (odVin deleteVehicle) op])%list
            end
        end
      else
        continue
          (mkVinStatus (odVin deleteVehicle)
             (GetBurnStatus (OnboardingStatus dbVin))
             (GetDetailedStatus (OnboardingStatus dbVin)))
          calls
  end.

Definition SubmitDeleteDataForVins (settings : config.Settings) (e : env)
    (walletAddress : option string) (params : option (list VinUserOperationData))
    (t : table) : outcome * table * list call :=
  match walletAddress with
  | None => (reply StatusInternalServerError "Failed to get wallet address", t, [])
  | Some walletAddress =>
  match params with
  | None => (reply StatusBadRequest "Failed to parse delete data", t, [])
  | Some VinDeleteData =>
  match validateAll (getValidatedUserOperationData settings) VinDeleteData with
  | inr (Some msg) => (Panics msg, t, [])
  | inr None => (reply StatusBadRequest "Invalid delete data", t, [])
  | inl validVinsDeleteData =>
  let validVins := List.map odVin validVinsDeleteData in
  if negb (length validVins =? length VinDeleteData)%nat then
    (reply StatusBadRequest "Invalid delete data provided", t, [])
  else if negb (length validVins =? length (Compact validVins))%nat then
    (reply StatusBadRequest "Duplicated VINs", t, [])
  else if (0 <? length validVins)%nat then
    match GetVehiclesByVins (lookupFaults e) t validVins with
    | (_, Some err) =>
        if IsNoRows err
        then (reply StatusNotFound "Could not find Vehicles", t, [Lookup validVins])
        else (reply StatusInternalServerError "Failed to load vehicles from Database",
              t, [Lookup validVins])
    | (dbVins, None) =>
        deleteEach e (indexVins dbVins) validVinsDeleteData t
          [Lookup validVins] []
    end
  else (Replies (mkResponse StatusOK (StatusesBody [])), t, [])
  end end end.

(** *** The data endpoints of the disconnect and delete phases *)

(** [models.Vehicle] as the identity service lists it for a wallet. *)
Definition indexIdentity (identityVehicles : list Vehicle) : gmap Z Vehicle :=
  foldl (fun m vehicle => <[TokenID vehicle := vehicle]> m) ∅ identityVehicles.

(** The collaborators of a data handler: the identity service and the
    builder of the burn operation ([go-transactions]), which hands back
    two pointers and an error. *)
Record chain := mkChain {
  FetchVehiclesByWalletAddress : string -> list Vehicle + error;
  GetBurnSDByOwnerUserOperationAndHash :
    string -> Z -> option UserOperation * option (list Z) * option error;
  GetBurnVehicleByOwnerUserOperationAndHash :
    string -> Z -> option UserOperation * option (list Z) * option error
}.

Inductive dataReply :=
| DataError (code : Z) (msg : string)
| Data (items : list VinUserOperationData)
| DataPanic (msg : string).

(** The body of [for _, dbVin := range dbVins] of
    [GetDisconnectDataForVins]. *)
Fixpoint disconnectData (c : chain) (walletAddress : string)
    (indexedIdentityVehicles : gmap Z Vehicle) (dbVins : list Vin)
    (disconnectionData : list VinUserOperationData) : dataReply :=
  match dbVins with
  | [] => Data disconnectionData
  | dbVin :: rest =>
      match indexedIdentityVehicles !! null.Int64_ (VehicleTokenID dbVin) with
      | None => DataError StatusBadRequest "VIN not owned"
      | Some identityVehicle =>
          let fullyConnected :=
            negb (null.IIsZero (VehicleTokenID dbVin))
            && negb (null.IIsZero (SyntheticTokenID dbVin)) in
          if negb fullyConnected then DataError StatusBadRequest "VIN not minted"
          else
            let fullyConnectedIdentity :=
              (TokenID identityVehicle =? null.Int64_ (VehicleTokenID dbVin))
              && (SyntheticDeviceTokenID identityVehicle
                  =? null.Int64_ (SyntheticTokenID dbVin)) in
            if negb fullyConnectedIdentity
            then DataError StatusBadRequest "TokenIDs mismatch"
            else
              match GetBurnSDByOwnerUserOperationAndHash c walletAddress
                      (null.Int64_ (SyntheticTokenID dbVin)) with
              | (_, _, Some _) =>
                  DataError StatusInternalServerError
                    "Failed to get Burn SD operation data"
              | (_, None, None) =>
                  DataPanic "invalid memory address or nil pointer dereference"
              | (op, Some hash, None) =>
                  disconnectData c walletAddress indexedIdentityVehicles rest
                    (disconnectionData
                     ++ [mkOperationData (Vin_ dbVin) op hash []])%list
              end
      end
  end.

Definition GetDisconnectDataForVins (settings : config.Settings) (c : chain)
    (f : faults) (t : table) (params : parsed string)
    (walletAddress : option string) : dataReply :=
  match params with
  | ParseError => DataError StatusBadRequest "Failed to parse VINs"
  | Parsed paramsVins =>
  match walletAddress with
  | None => DataError StatusInternalServerError "Failed to get wallet address"
  | Some walletAddress =>
  let validVins :=
    List.filter (isValidVin settings) (List.map TrimSpace paramsVins) in
  if negb (length validVins =? length paramsVins)%nat then
    DataError StatusBadRequest "Invalid VINs provided"
  else if negb (length validVins =? length (Compact validVins))%nat then
    DataError StatusBadRequest "Duplicated VINs"
  else if (0 <? length validVins)%nat then
    match GetVehiclesByVinsAndOnboardingStatusRange f t validVins
            OnboardingStatusMintSuccess OnboardingStatusBurnSDFailure [] with
    | (_, Some err) =>
        if IsVehicleNotFound err
        then DataError StatusBadRequest "Could not find Vehicles"
        else DataError StatusInternalServerError "Failed to load vehicles from Database"
    | (dbVins, None) =>
        if negb (length dbVins =? length validVins)%nat then
          DataError StatusBadRequest "Some of the VINs are not fully onboarded"
        else
          match FetchVehiclesByWalletAddress c walletAddress with
          | inr _ =>
              DataError StatusInternalServerError "Failed to fetch identity vehicles"
          | inl identityVehicles =>
              disconnectData c walletAddress (indexIdentity identityVehicles) dbVins []
          end
    end
  else Data []
  end end.

(** The body of [for _, dbVin := range dbVins] of [GetDeleteDataForVins]. *)
Fixpoint deleteData (c : chain) (walletAddress : string)
    (indexedIdentityVehicles : gmap Z Vehicle) (dbVins : list Vin)
    (deletionData : list VinUserOperationData) : dataReply :=
  match dbVins with
  | [] => Data deletionData
  | dbVin :: rest =>
      match indexedIdentityVehicles !! null.Int64_ (VehicleTokenID dbVin) with
      | None => DataError StatusBadRequest "VIN not owned"
      | Some identityVehicle =>
          let burnable :=
            negb (null.IIsZero (VehicleTokenID dbVin))
            && null.IIsZero (SyntheticTokenID dbVin) in
          if negb burnable then DataError StatusBadRequest "VIN cannot be burned"
          else
            let burnableIdentity :=
              (TokenID identityVehicle =? null.Int64_ (VehicleTokenID dbVin))
              && (SyntheticDeviceTokenID identityVehicle =? 0) in
            if negb burnableIdentity
            then DataError StatusBadRequest "TokenIDs mismatch"
            else
              match GetBurnVehicleByOwnerUserOperationAndHash c walletAddress
                      (null.Int64_ (VehicleTokenID dbVin)) with
              | (_, _, Some _) =>
                  DataError StatusInternalServerError
                    "Failed to get Burn Vehicle operation data"
              | (_, None, None) =>
                  DataPanic "invalid memory address or nil pointer dereference"
              | (op, Some hash, None) =>
                  deleteData c walletAddress indexedIdentityVehicles rest
                    (deletionData
                     ++ [mkOperationData (Vin_ dbVin) op hash []])%list
              end
      end
  end.

Definition GetDeleteDataForVins (settings : config.Settings) (c : chain)
    (f : faults) (t : table) (params : parsed string)
    (walletAddress : option string) : dataReply :=
  match params with
  | ParseError => DataError StatusBadRequest "Failed to parse VINs"
  | Parsed paramsVins =>
  match walletAddress with
  | None => DataError StatusInternalServerError "Failed to get wallet address"
  | Some walletAddress =>
  let validVins :=
    List.filter (isValidVin settings) (List.map TrimSpace paramsVins) in
  if negb (length validVins =? length paramsVins)%nat then
    DataError StatusBadRequest "Invalid VINs provided"
  else if negb (length validVins =? length (Compact validVins))%nat then
    DataError StatusBadRequest "Duplicated VINs"
  else if (0 <? length validVins)%nat then
    match GetVehiclesByVinsAndOnboardingStatusRange f t validVins
            OnboardingStatusBurnSDSuccess OnboardingStatusBurnVehicleFailure [] with
    | (_, Some err) =>
        if IsVehicleNotFound err
        then DataError StatusBadRequest "Could not find Vehicles"
        else DataError StatusInternalServerError "Failed to load vehicles from Database"
    | (dbVins, None) =>
        if negb (length dbVins =? length validVins)%nat then
          DataError StatusBadRequest "Some of the VINs are not disconnected"
        else
          match FetchVehiclesByWalletAddress c walletAddress with
          | inr _ =>
              DataError StatusInternalServerError "Failed to fetch identity vehicles"
          | inl identityVehicles =>
              deleteData c walletAddress (indexIdentity identityVehicles) dbVins []
          end
    end
  else Data []
  end end.

(** *** [GetVehicleByExternalID] and [GetVehicles] *)

(** [vin.VehicleTokenID.Value()] is [(nil, nil)] for a null column, and
    the type assertion [tid.(int64)] on nil panics. *)
Definition GetVehicleByExternalID (c : chain) (f : faults)
    (walletAddress : option string) (externalID : string) (t : table)
    : outcome :=
  match walletAddress with
  | None => reply StatusInternalServerError "Failed to get wallet address"
  | Some walletAddress =>
      match FetchVehiclesByWalletAddress c walletAddress with
      | inr _ => reply StatusInternalServerError "Failed to load vehicles from Identity API"
      | inl identityVehicles =>
          match service.GetVehicleByExternalID f t externalID with
          | (_, Some err) =>
              if IsVehicleNotFound err
              then reply StatusNotFound "Could not find Vehicle"
              else reply StatusInternalServerError "Failed to load vehicle from Database"
          | (None, None) => Panics "invalid memory address or nil pointer dereference"
          | (Some vin, None) =>
              let vehiclesByTokenID := indexIdentity identityVehicles in
              if null.IValid (VehicleTokenID vin) then
                match vehiclesByTokenID !! null.Int64_ (VehicleTokenID vin) with
                | None => reply StatusNotFound "Could not find Vehicle"
                | Some vehicle =>
                    Replies (mkResponse StatusOK (VehicleBody (withVIN (Vin_ vin) vehicle)))
                end
              else Panics "interface conversion: interface {} is nil, not int64"
          end
      end
  end.

(** A vehicle of the reply of [GetVehicles]: the identity service's
    vehicle with the VIN and the two link states of the stored row. *)
Record ListedVehicle := mkListed {
  lvVehicle : Vehicle;
  lvConnectionStatus : string;
  lvDisconnectionStatus : string
}.

Inductive vehiclesReply :=
| VehiclesError (r : Response)
| Vehicles (vehicles : list ListedVehicle)
| VehiclesPanic (msg : string).

(** The body of [for _, vin := range vins] of [GetVehicles]. *)
Fixpoint listVehicles (vehiclesByTokenID : gmap Z Vehicle) (vins : list Vin)
    (returnVehicles : list ListedVehicle) : vehiclesReply :=
  match vins with
  | [] => Vehicles returnVehicles
  | vin :: rest =>
      if null.IValid (VehicleTokenID vin) then
        match vehiclesByTokenID !! null.Int64_ (VehicleTokenID vin) with
        | None => listVehicles vehiclesByTokenID rest returnVehicles
        | Some vehicle =>
            listVehicles vehiclesByTokenID rest
              (returnVehicles
               ++ [mkListed (withVIN (Vin_ vin) vehicle)
                     (null.String_ (ConnectionStatus vin))
                     (null.String_ (DisconnectionStatus vin))])%list
        end
      else VehiclesPanic "interface conversion: interface {} is nil, not int64"
  end.

Definition GetVehicles (c : chain) (f : faults)
    (walletAddress : option string) (t : table) : vehiclesReply :=
  match walletAddress with
  | None =>
      VehiclesError
        (mkResponse StatusInternalServerError (ErrorBody "Failed to get wallet address"))
  | Some walletAddress =>
      match FetchVehiclesByWalletAddress c walletAddress with
      | inr _ =>
          VehiclesError
            (mkResponse StatusInternalServerError
               (ErrorBody "Failed to load vehicles from Identity API"))
      | inl identityVehicles =>
          let tokenIDsToCheck := List.map TokenID identityVehicles in
          let vehiclesByTokenID := indexIdentity identityVehicles in
          match GetVinsByTokenIDs f t tokenIDsToCheck with
          | (_, Some _) =>
              VehiclesError
                (mkResponse StatusInternalServerError
                   (ErrorBody "Failed to load vehicles from Vehicle Service"))
          | (vins, None) => listVehicles vehiclesByTokenID vins []
          end
      end
  end.

End api.

(** ** The telemetry forwarder ([service.OracleService], [convert]) *)

Module oracle.
Import goerr dbmodels.

(** A decoded JSON value ([interface{}] after [json.Unmarshal]). *)
#[local] Unset Elimination Schemes.
Inductive json :=
| JNull
| JBool (b : bool)
| JNumber (literal : string)
| JString (s : string)
| JArray (items : list json)
| JObject (fields : list (string * json)).
#[local] Set Elimination Schemes.

(** A byte string is represented by what [json.Unmarshal] makes of it:
    [json.RawMessage] by its decoding into [map[string]interface{}],
    the Kafka payload by its decoding into a CloudEvent. *)
Record RawMessage := mkRaw { decoded : gmap string json + error }.

Record CloudEvent := mkCloudEvent {
  ID : string;
  Type_ : string;
  Data : option RawMessage;     (* [None] is nil *)
  Producer : string;
  Subject : string
}.

Inductive message :=
| NotBytes                                   (* msg is not a []byte *)
| Bytes (unmarshal : CloudEvent + error).

(** A value of dynamic type, as returned by [SendToDimoNode]. *)
Inductive iface := IInt (n : Z) | IString (s : string).

(** Outside collaborators of the forwarder. *)
Class Env := {
  LoadSignalMap : list string + error;              (* defaultmodule.LoadSignalMap *)
  SendToDimoNode : CloudEvent -> iface * option error;  (* the ingest client *)
  dbFaults : service.faults                         (* failures of the database *)
}.

Record state := mkState {
  store : gmap string Vin;           (* the vins table *)
  cache : gmap string Vin;           (* live entries of the 10-minute cache *)
  forwarded : list CloudEvent;       (* events handed to the ingest client *)
  failedStatusEventCntr : nat;
  successStatusEventCntr : nat
}.

Definition ParseCloudEvent (msg : CloudEvent + error) : CloudEvent + error :=
  match msg with
  | inr err => inr err
  | inl telemetry =>
      if bool_decide (Data telemetry = None) || String.eqb (Type_ telemetry) ""
      then inr (New "invalid CloudEvent: missing required fields")
      else inl telemetry
  end.

(** [convert.CastToSliceOfMaps] *)
Fixpoint CastToSliceOfMaps (signals : list json)
    : list (list (string * json)) + error :=
  match signals with
  | [] => inl []
  | JObject castItem :: rest =>
      match CastToSliceOfMaps rest with
      | inl result => inl (castItem :: result)
      | inr err => inr err
      end
  | _ :: _ => inr (New "failed to cast item to map[string]interface{}")
  end.

(** [convert.ValidateSignals]; unknown names only produce warnings. *)
Definition ValidateSignals `{Env} (signals : json) : option error :=
  match signals with
  | JArray signalsArr =>
      match CastToSliceOfMaps signalsArr with
      | inr err => Some err
      | inl _ =>
          match LoadSignalMap with
          | inr err => Some err
          | inl _ => None
          end
      end
  | _ => Some (New "signals is not of type []interface{}")
  end.

Definition validateSignals `{Env} (data : gmap string json) (vin : string)
    : option error :=
  match data !! "signals" with
  | None => Some (New ("signals are missing in the message data for VIN: " +:+ vin))
  | Some signals => ValidateSignals signals
  end.

(** [cloudevent.NFTDID{...}.String()], [did:nft:<chain>:<contract>_<token>]. *)
Definition NFTDID_String (chainID : Z) (contract : string) (tokenID : Z) : string :=
  "did:nft:" +:+ pretty chainID +:+ ":" +:+ contract +:+ "_" +:+ pretty tokenID.

(** The conversion [uint32(x)] of an [int64]. *)
Definition uint32 (x : Z) : Z := x mod 2 ^ 32.

(** [convert.SetProducerAndSubject] *)
Definition SetProducerAndSubject (veh : Vin) (ce : CloudEvent)
    (settings : config.Settings) : CloudEvent :=
  let producer :=
    NFTDID_String (config.ChainID settings) (config.SyntheticNftAddress settings)
      (uint32 (null.Int64_ (SyntheticTokenID veh))) in
  let vehTokenId := uint32 (null.Int64_ (VehicleTokenID veh)) in
  let subject :=
    if negb (vehTokenId =? 0)
    then NFTDID_String (config.ChainID settings) (config.VehicleNftAddress settings)
           vehTokenId
    else "" in
  mkCloudEvent (ID ce) (Type_ ce) (Data ce) producer subject.

Definition StatusBadRequest : Z := 400.

Definition addForwarded (ce : CloudEvent) (s : state) : state :=
  mkState (store s) (cache s) (forwarded s ++ [ce])%list
          (failedStatusEventCntr s) (successStatusEventCntr s).
Definition incFailed (s : state) : state :=
  mkState (store s) (cache s) (forwarded s)
          (S (failedStatusEventCntr s)) (successStatusEventCntr s).
Definition incSuccess (s : state) : state :=
  mkState (store s) (cache s) (forwarded s)
          (failedStatusEventCntr s) (S (successStatusEventCntr s)).
Definition cacheSet (k : string) (v : Vin) (s : state) : state :=
  mkState (store s) (<[k := v]> (cache s)) (forwarded s)
          (failedStatusEventCntr s) (successStatusEventCntr s).

(** [HandleSendToDIS] *)
Definition HandleSendToDIS `{Env} (ce : CloudEvent) (s : state)
    : option error * state :=
  let s := addForwarded ce s in
  match SendToDimoNode ce with
  | (_, Some err) => (Some err, incFailed s)
  | (statusCode, None) =>
      match statusCode with
      | IInt 400 => (None, incFailed s)
      | _ => (None, incSuccess s)
      end
  end.

(** [HandleDeviceByVIN] *)
Definition HandleDeviceByVIN `{Env} (settings : config.Settings)
    (msg : message) (s : state) : option error * state :=
  match msg with
  | NotBytes => (Some (New "message is not of type []byte"), s)
  | Bytes msgBytes =>
      match ParseCloudEvent msgBytes with
      | inr err => (Some err, s)
      | inl cloudEvent =>
          match Data cloudEvent with
          | None => (Some (New "unexpected end of JSON input"), s)
          | Some raw =>
              match decoded raw with
              | inr err => (Some err, s)
              | inl data =>
                  match data !! "vin" with
                  | Some (JString vin) =>
                      match validateSignals data vin with
                      | Some err => (Some err, s)
                      | None =>
                          let vehicleID := vin in
                          let lookup :=
                            match cache s !! vehicleID with
                            | Some cachedResponse => inl (cachedResponse, s)
                            | None =>
                                match service.GetVehicleByVin dbFaults
                                        (store s) vehicleID with
                                | inl response =>
                                    inl (response, cacheSet vehicleID response s)
                                | inr err => inr (err, incFailed s)
                                end
                            end in
                          match lookup with
                          | inr (err, s) => (Some err, s)
                          | inl (vehicle, s) =>
                              if null.Int64_ (VehicleTokenID vehicle) =? 0 then
                                (None, s)
                              else
                                HandleSendToDIS
                                  (SetProducerAndSubject vehicle cloudEvent settings) s
                          end
                      end
                  | _ =>
                      (Some (New ("VIN is missing in the message data for CloudEvent ID: "
                                  +:+ ID cloudEvent)), s)
                  end
              end
          end
      end
  end.

(** [dimoNodeService.SendToDimoNode]: [marshalErr] is the outcome of
    [json.Marshal], [executed] what the HTTP client wrapper hands back, a
    response pointer and an error (the wrapper reports every 4xx and 5xx
    status as an error). *)
Record HTTPResponse := mkHTTPResponse { StatusCode : Z }.

Inductive sent :=
| Returns (v : iface) (err : option error)
| SendPanics (msg : string).

Definition StatusUnauthorized : Z := 401.
Definition StatusForbidden : Z := 403.
Definition StatusNotFound : Z := 404.

Definition dimoNodeSend (marshalErr : option error)
    (executed : option HTTPResponse * option error) : sent :=
  match marshalErr with
  | Some err => Returns (IString "") (Some err)
  | None =>
      match executed with
      | (None, _) => SendPanics "invalid memory address or nil pointer dereference"
      | (Some resp, Some err) =>
          if (StatusCode resp =? StatusUnauthorized)
             || (StatusCode resp =? StatusForbidden) then
            Returns (IInt (StatusCode resp))
              (Some (New ("received status code: " +:+ pretty (StatusCode resp))))
          else if StatusCode resp =? StatusNotFound then
            Returns (IInt (StatusCode resp))
              (Some (New ("received status code: " +:+ pretty (StatusCode resp))))
          else if (500 <=? StatusCode resp) && (StatusCode resp <? 600) then
            Returns (IInt (StatusCode resp))
              (Some (New ("received 5xx status code: " +:+ pretty (StatusCode resp))))
          else if StatusCode resp =? StatusBadRequest then
            Returns (IInt (StatusCode resp)) None
          else Returns (IString "") (Some err)
      | (Some resp, None) => Returns (IInt (StatusCode resp)) None
      end
  end.

End oracle.

(** ** The Kafka consumers ([kafka]) *)

Module kafka.
Import goerr dbmodels.

Definition OperationTypeEnrollment : string := "enrollment".
Definition ActionEnroll : string := "enroll".
Definition ActionUnenroll : string := "unenroll".
Definition OperationStatusInQueue : string := "inQueue".
Definition OperationStatusInProgress : string := "inProgress".
Definition OperationStatusSucceeded : string := "succeeded".
Definition OperationStatusFailed : string := "failed".

(** [models.OperationMessage], the fields the handler reads. *)
Record OperationMessage := mkOperation {
  opID : string;
  opType : string;
  opAction : string;
  opStatus : string;
  opVIN : string;
  opError : service.OperationError;
  opDataVehicleID : string         (* Data.VehicleID *)
}.

(** The enrollment channel is made with [make(chan ..., 100)]. *)
Definition EnrollmentChannelCapacity : nat := 100.

Record state := mkState {
  table : gmap string Vin;                (* the vins table *)
  EnrollmentChannel : list OperationMessage   (* messages buffered in the channel *)
}.

(** What became of a message: marked as processed, left unmarked
    ([continue]), or the handler is blocked in the channel send. *)
Inductive fate := Marked | Unmarked | Blocked.

(** [h.EnrollmentChannel <- operation] with no receiver waiting: the
    message is buffered, or the sender blocks when the buffer is full. *)
Definition sendEnrollment (operation : OperationMessage) (s : state) : option state :=
  if (length (EnrollmentChannel s) <? EnrollmentChannelCapacity)%nat
  then Some (mkState (table s) (EnrollmentChannel s ++ [operation])%list)
  else None.

(** The body of the loop of [MessageHandlerOperations.ConsumeClaim];
    [msg] is what [json.Unmarshal] makes of the message value. *)
Definition handleOperation (f : service.faults)
    (msg : OperationMessage + error) (s : state) : fate * state :=
  match msg with
  | inr _ => (Unmarked, s)
  | inl operation =>
      if String.eqb (opType operation) OperationTypeEnrollment then
        if String.eqb (opAction operation) ActionEnroll then
          let operationError :=
            if String.eqb (opStatus operation) OperationStatusFailed
            then Some (opError operation) else None in
          let vehicleId :=
            if String.eqb (opStatus operation) OperationStatusSucceeded
            then opDataVehicleID operation else opID operation in
          match sendEnrollment operation s with
          | None => (Blocked, s)
          | Some s =>
              match service.UpdateEnrollmentStatus f (table s) (opVIN operation)
                      (opStatus operation) vehicleId operationError with
              | (_, Some _) => (Unmarked, s)
              | (t, None) => (Marked, mkState t (EnrollmentChannel s))
              end
          end
        else if String.eqb (opAction operation) ActionUnenroll then
          match sendEnrollment operation s with
          | None => (Blocked, s)
          | Some s =>
              match service.UpdateUnenrollmentStatus f (table s) (opVIN operation)
                      (opStatus operation) None with
              | (_, Some _) => (Unmarked, s)
              | (t, None) => (Marked, mkState t (EnrollmentChannel s))
              end
          end
        else (Marked, s)
      else (Marked, s)
  end.

(** [for msg := range c.Messages()]: the fates of the messages, in
    order; nothing after a blocked send is reached. *)
Fixpoint ConsumeOperations (f : service.faults)
    (msgs : list (OperationMessage + error)) (s : state) : list fate * state :=
  match msgs with
  | [] => ([], s)
  | msg :: rest =>
      match handleOperation f msg s with
      | (Blocked, s) => ([Blocked], s)
      | (fate, s) =>
          let '(fates, s) := ConsumeOperations f rest s in
          (fate :: fates, s)
      end
  end.

(** The loop of [MessageHandlerUnbuffered.ConsumeClaim]: a message is
    marked exactly when the forwarder returned nil. *)
Fixpoint ConsumeTelemetry `{oracle.Env} (settings : config.Settings)
    (msgs : list oracle.message) (s : oracle.state) : list bool * oracle.state :=
  match msgs with
  | [] => ([], s)
  | msg :: rest =>
      let '(err, s) := oracle.HandleDeviceByVIN settings msg s in
      let '(marks, s) := ConsumeTelemetry settings rest s in
      (match err with Some _ => false | None => true end :: marks, s)
  end.

End kafka.

(** ** Vocabulary of the properties *)

Module props.
Import goerr dbmodels onboarding_status.

(** The verify gate in the words of the specification:
    [record = ∅ ∨ (¬is_verified ∧ (is_failure ∨ ¬is_pending))]. *)
Definition verifyGateAsSpecified (record : option Vin) : Prop :=
  record = None \/
  exists r, record = Some r /\
    OnboardingStatus r < 23 /\
    (Z.rem (OnboardingStatus r) 10 = 2 \/ ~ (0 < OnboardingStatus r < 53)).

(** The primary-key constraint of the [vins] table. *)
Definition keyed (t : gmap string Vin) : Prop :=
  forall k r, t !! k = Some r -> Vin_ r = k.

(** The columns the enrollment updates must not touch. *)
Definition sameIdentity (r r' : Vin) : Prop :=
  Vin_ r' = Vin_ r /\
  OnboardingStatus r' = OnboardingStatus r /\
  VehicleTokenID r' = VehicleTokenID r /\
  SyntheticTokenID r' = SyntheticTokenID r /\
  WalletIndex r' = WalletIndex r /\
  DeviceDefinitionID r' = DeviceDefinitionID r.

(** Every row of [t'] is a row of [t] with the same protected columns,
    no row appears or disappears, and rows other than [vin] are equal. *)
Definition framed (vin : string) (t t' : gmap string Vin) : Prop :=
  forall k,
    match t !! k, t' !! k with
    | None, None => True
    | Some r, Some r' => sameIdentity r r' /\ (k <> vin -> r' = r)
    | _, _ => False
    end.

Definition errorCleared (r : Vin) : Prop :=
  OperationErrorType r = null.mkString "" false /\
  OperationErrorCode r = null.mkString "" false /\
  OperationErrorDescription r = null.mkString "" false.

(** The state the vendor-validation stage leaves behind when it ends
    with status [code]: the record carries the code and, unless the
    write fails, so does its row. *)
Definition validated (s : run.state) (r : Vin) (code : Z) : run.state :=
  let r' := run.setOnboardingStatus code r in
  match run.dbWrite s with
  | Some _ => run.setRecord (Some r') s
  | None => run.setDb (Update allColumns r' (run.db s)) (run.setRecord (Some r') s)
  end.

(** The table the deferred update of the burn-vehicle stage leaves behind
    for the record [r']. *)
Definition written (s : run.state) (r' : Vin) : gmap string Vin :=
  match run.dbBegin s, run.dbWrite s with
  | None, None => Update [ColOnboardingStatus; ColVehicleTokenID] r' (run.db s)
  | _, _ => run.db s
  end.

(** The delete worker in the words of the specification, for a run in
    which the database answers: a record at or past BurnSDSuccess(83)
    and not yet at BurnVehicleSuccess(103) is refused when its synthetic
    token is present; otherwise the operation is submitted, any failure
    leaves BurnVehicleFailure(102) with the vehicle token unchanged, and
    success leaves BurnVehicleSuccess(103) with the vehicle token
    cleared. *)
Definition deleteWorkerAsSpecified : Prop :=
  forall (C : run.Client) (args : onboarding.DeleteArgs) (s : run.state) (r : Vin),
    run.db s !! onboarding.deVIN args = Some r ->
    Vin_ r = onboarding.deVIN args ->
    run.dbBegin s = None -> run.dbWrite s = None -> run.dbCommit s = None ->
    OnboardingStatusBurnSDSuccess <= OnboardingStatus r ->
    OnboardingStatus r <> OnboardingStatusBurnVehicleSuccess ->
    let out := onboarding.DeleteWorker_Work None args s in
    let op := onboarding.deUserOperation args in
    if null.IValid (SyntheticTokenID r) then
      (exists e s', out = run.Done (Some e) s') /\
      run.submitted (run.final out) = run.submitted s
    else
      run.submitted (run.final out) = (run.submitted s ++ [op])%list /\
      exists r', run.db (run.final out) !! onboarding.deVIN args = Some r' /\
        match run.SendSignedUserOperation op with
        | (opResult, None) =>
            match run.GetBurnVehicleByOwnerResult opResult with
            | (_, None) =>
                OnboardingStatus r' = OnboardingStatusBurnVehicleSuccess /\
                VehicleTokenID r' = null.NewInt64 0 false
            | (_, Some _) =>
                OnboardingStatus r' = OnboardingStatusBurnVehicleFailure /\
                VehicleTokenID r' = VehicleTokenID r
            end
        | (_, Some _) =>
            OnboardingStatus r' = OnboardingStatusBurnVehicleFailure /\
            VehicleTokenID r' = VehicleTokenID r
        end.

(** A CloudEvent that passes every check before the record lookup and
    carries [vin]. *)
Definition wellFormed `{oracle.Env} (msg : oracle.message) (vin : string) : Prop :=
  exists ce raw data,
    msg = oracle.Bytes (inl ce) /\
    oracle.Data ce = Some raw /\
    oracle.Type_ ce <> "" /\
    oracle.decoded raw = inl data /\
    data !! "vin" = Some (oracle.JString vin) /\
    oracle.validateSignals data vin = None.

(** The forwarder's cache holds copies of rows of the store only. *)
Definition cacheSound (s : oracle.state) : Prop :=
  forall vin r, oracle.cache s !! vin = Some r -> is_Some (oracle.store s !! vin).

(** The telemetry forwarder in the words of the specification: an error
    when the store has no record of the VIN, a silent drop when the stored
    record has vehicle_token_id 0; in every state whose cache holds copies
    of stored rows only. *)
Definition forwarderAsSpecified : Prop :=
  forall (E : oracle.Env) (settings : config.Settings)
         (msg : oracle.message) (vin : string) (s : oracle.state),
    wellFormed msg vin ->
    cacheSound s ->
    let out := oracle.HandleDeviceByVIN settings msg s in
    (oracle.store s !! vin = None -> exists e, fst out = Some e) /\
    (forall r, oracle.store s !! vin = Some r ->
               null.Int64_ (VehicleTokenID r) = 0 ->
               fst out = None /\ oracle.forwarded (snd out) = oracle.forwarded s).

(** The record the forwarder works with: the live cache entry when there
    is one, otherwise the stored row (read only if the database answers). *)
Definition lookedUp `{oracle.Env} (s : oracle.state) (vin : string) (r : Vin) : Prop :=
  oracle.cache s !! vin = Some r \/
  (oracle.cache s !! vin = None /\ oracle.dbFaults = service.noFaults /\
   oracle.store s !! vin = Some r).

(** The database answers every call of a worker run. *)
Definition answering (s : run.state) : Prop :=
  run.dbBegin s = None /\ run.dbWrite s = None /\ run.dbCommit s = None.

(** The vendor lets the VIN pass the capability check: the check is
    switched off, or the vendor answers with a status that is neither of
    the two literals the stage compares with. *)
Definition vendorPasses `{onboarding.VendorOnboardingAPI}
    (settings : config.Settings) (vin : string) : Prop :=
  if config.EnableVendorCapabilityCheck settings then
    exists first rest,
      onboarding.Validate [vin] = (first :: rest, None) /\
      String.eqb (onboarding.capStatus first) "notCapable " = false /\
      String.eqb (onboarding.capStatus first) "noDataFound" = false
  else True.

(** The vendor accepts the connection (or disconnection) of the VIN, or
    vendor connections are switched off. *)
Definition vendorConnects `{onboarding.VendorOnboardingAPI}
    (settings : config.Settings) (vin : string) : Prop :=
  if config.EnableVendorConnection settings then
    exists connection, onboarding.Connect [vin] = (connection, None)
  else True.

Definition vendorDisconnects `{onboarding.VendorOnboardingAPI}
    (settings : config.Settings) (vin : string) : Prop :=
  if config.EnableVendorConnection settings then
    exists connection, onboarding.Disconnect [vin] = (connection, None)
  else True.

(** The record a verify job starts from: the stored row, or the fresh
    record at DecodingUnknown(10) that the worker inserts when there is
    none. *)
Definition startsFrom (s : run.state) (insertErr : option goerr.error)
    (vin : string) (r : Vin) : Prop :=
  (run.db s !! vin = Some r /\ Vin_ r = vin) \/
  (run.db s !! vin = None /\ insertErr = None /\
   r = newVin vin OnboardingStatusDecodingUnknown).

(** A run that leaves the worker's mutex alone: it never ends in the
    fatal error of a second [Unlock] (the only fatal end is an exit inside
    the wallet service), and when it returns or panics the mutex is as it
    was found or has been released. *)
Definition mutexReleased {A} (s : run.state) (out : run.result A) : Prop :=
  match out with
  | run.Fatal msg _ => msg = "os.Exit(1)"
  | run.Done _ s' | run.Panic _ s' =>
      run.contended s' = run.contended s /\
      (run.locked s' = run.locked s \/ run.locked s' = run.contended s)
  end.

(** The collaborators of the mint of vehicle and device answer: the
    identity service has the definition [dd], the sequence hands out
    [sdIndex], the configured token id parses to [id], the wallet derives
    the address and signs the typed data, and the registry call made
    from these reports the event [minted]. *)
Definition mintsVehicleAndSD `{onboarding.IdentityAPI} `{onboard.Sequence}
    `{onboard.SDWalletsAPI} `{onboard.MintClient}
    (ms : onboard.MintSettings) (args : onboard.OnboardingArgs)
    (definitionID : string) (sdIndex : Z) (minted : onboard.Minted) : Prop :=
  exists dd id sdAddress sdTypedData sdSignature,
    onboarding.FetchDeviceDefinitionByID 0 definitionID = (Some dd, None) /\
    onboard.nextval = inl sdIndex /\
    onboard.GetAddress sdIndex = sdwallets.Ok sdAddress /\
    onboard.SetString10
      (if onboard.EnableMintingWithConnectionTokenID ms
       then onboard.ConnectionTokenID ms else onboard.IntegrationTokenID ms)
    = Some id /\
    (if onboard.EnableMintingWithConnectionTokenID ms
     then onboard.GetMintVehicleAndSDTypedDataV2 (Some id)
     else onboard.GetMintVehicleAndSDTypedData (Some id)) = Some sdTypedData /\
    onboard.SignTypedData sdTypedData sdIndex = sdwallets.Ok sdSignature /\
    let input := onboard.mintInput args dd (Some id) sdAddress sdSignature in
    match onboard.oaSacd args with
    | None => onboard.MintVehicleAndSDWithDD input
    | Some sacd =>
        onboard.MintVehicleAndSDWithDDAndSACD input
          (onboard.mkSacdInput (onboard.sacdGrantee sacd)
             (onboard.sacdPermissions sacd) (onboard.sacdExpiration sacd))
    end = (Some minted, None).

(** What a submit handler may do to the table [t]: every key keeps its
    row, or had none and holds the fresh record of status [code]. *)
Definition onlyFresh (code : Z) (t t' : gmap string Vin) : Prop :=
  forall k, t' !! k = t !! k \/ (t !! k = None /\ t' !! k = Some (newVin k code)).

(** The index a submit handler works with holds stored rows under their
    keys, and misses a requested VIN only when the table has no row for
    it. *)
Definition indexes (t : gmap string Vin) (ids : list string)
    (idx : gmap string Vin) : Prop :=
  (forall k r, idx !! k = Some r -> t !! k = Some r /\ Vin_ r = k) /\
  (forall k, k ∈ ids -> idx !! k = None -> t !! k = None).

(** The status of one VIN as a status endpoint reports it. *)
Definition statusOf (view : Z -> string) (t : gmap string Vin) (vin : string)
    : controllers.VinStatus :=
  match t !! vin with
  | None => controllers.mkVinStatus vin "Unknown" "Unknown"
  | Some r =>
      controllers.mkVinStatus vin (view (OnboardingStatus r))
        (GetDetailedStatus (OnboardingStatus r))
  end.

(** What [GetVehicles] lists for a stored row: the identity service's
    vehicle with the row's token, under the row's VIN and link states. *)
Definition listedFrom (identityVehicles : list controllers.Vehicle)
    (t : gmap string Vin) (lv : api.ListedVehicle) : Prop :=
  exists r v,
    r ∈ service.rows t /\ v ∈ identityVehicles /\
    null.IValid (VehicleTokenID r) = true /\
    controllers.TokenID v = null.Int64_ (VehicleTokenID r) /\
    lv = api.mkListed (controllers.withVIN (Vin_ r) v)
           (null.String_ (ConnectionStatus r))
           (null.String_ (DisconnectionStatus r)).

(** An item of the reply of [GetDisconnectDataForVins] for the row [r]:
    the burn-SD operation and hash built for the caller's wallet and the
    row's synthetic token, unsigned; both tokens of the row are set and
    are the tokens of a vehicle the identity service lists for the
    wallet. *)
Definition disconnectItem (c : api.chain) (w : string)
    (identityVehicles : list controllers.Vehicle)
    (r : Vin) (item : api.VinUserOperationData) : Prop :=
  api.odVin item = Vin_ r /\ api.odSignature item = [] /\
  null.IIsZero (VehicleTokenID r) = false /\
  null.IIsZero (SyntheticTokenID r) = false /\
  (exists v, v ∈ identityVehicles /\
     controllers.TokenID v = null.Int64_ (VehicleTokenID r) /\
     controllers.SyntheticDeviceTokenID v = null.Int64_ (SyntheticTokenID r)) /\
  api.GetBurnSDByOwnerUserOperationAndHash c w (null.Int64_ (SyntheticTokenID r))
  = (api.odUserOperation item, Some (api.odHash item), None).

(** An item of the reply of [GetDeleteDataForVins]: the burn-vehicle
    operation for the row's vehicle token; the row has no synthetic token
    and the identity service lists the vehicle without a synthetic
    device. *)
Definition deleteItem (c : api.chain) (w : string)
    (identityVehicles : list controllers.Vehicle)
    (r : Vin) (item : api.VinUserOperationData) : Prop :=
  api.odVin item = Vin_ r /\ api.odSignature item = [] /\
  null.IIsZero (VehicleTokenID r) = false /\
  null.IIsZero (SyntheticTokenID r) = true /\
  (exists v, v ∈ identityVehicles /\
     controllers.TokenID v = null.Int64_ (VehicleTokenID r) /\
     controllers.SyntheticDeviceTokenID v = 0) /\
  api.GetBurnVehicleByOwnerUserOperationAndHash c w (null.Int64_ (VehicleTokenID r))
  = (api.odUserOperation item, Some (api.odHash item), None).

(** The reply of a data endpoint, item by item: one item per requested
    VIN, each for a stored row of that VIN with its status inside the
    window of the phase. *)
Definition dataFor (item : Vin -> api.VinUserOperationData -> Prop) (lo hi : Z)
    (t : gmap string Vin) (requested : list string)
    (items : list api.VinUserOperationData) : Prop :=
  length items = length requested /\
  Forall (fun it => exists r,
            t !! api.odVin it = Some r /\ api.odVin it ∈ requested /\
            lo <= OnboardingStatus r <= hi /\ item r it) items.

(** The messages the operations handler passes on to the enrollment
    channel. *)
Definition sendsToChannel (msg : kafka.OperationMessage + goerr.error) : bool :=
  match msg with
  | inl operation =>
      String.eqb (kafka.opType operation) kafka.OperationTypeEnrollment
      && (String.eqb (kafka.opAction operation) kafka.ActionEnroll
          || String.eqb (kafka.opAction operation) kafka.ActionUnenroll)
  | inr _ => false
  end.

(** The operations among [msgs] that the handler sends into the
    enrollment channel, in order. *)
Definition enrollmentsOf (msgs : list (kafka.OperationMessage + goerr.error))
    : list kafka.OperationMessage :=
  omap (fun msg => match msg with
                   | inl operation =>
                       if sendsToChannel msg then Some operation else None
                   | inr _ => None
                   end) msgs.

(** The row [r] after a failed enrollment reported by [operation]. *)
Definition afterFailedEnroll (operation : kafka.OperationMessage) (r : Vin) : Vin :=
  mkVin (Vin_ r) (VehicleTokenID r) (SyntheticTokenID r)
    (null.StringFrom (kafka.opID operation)) (null.StringFrom "failed")
    (OnboardingStatus r) (DeviceDefinitionID r) (WalletIndex r)
    (DisconnectionStatus r)
    (null.StringFrom (service.Code (kafka.opError operation)))
    (null.StringFrom (service.Type_ (kafka.opError operation)))
    (null.StringFrom (service.Description (kafka.opError operation))).

(** The row [r] after a failed unenrollment: the error of the message is
    not kept. *)
Definition afterFailedUnenroll (r : Vin) : Vin :=
  mkVin (Vin_ r) (VehicleTokenID r) (SyntheticTokenID r)
    (ExternalID r) (ConnectionStatus r)
    (OnboardingStatus r) (DeviceDefinitionID r) (WalletIndex r)
    (null.StringFrom "failed")
    (null.mkString "" false) (null.mkString "" false) (null.mkString "" false).

(** The row a connected record [r] is left with by the onboarding worker:
    linked, at MintSuccess(53), with the given tokens and wallet index. *)
Definition onboarded (r : Vin) (vehicle synthetic wallet : null.Int64) : Vin :=
  mkVin (Vin_ r) vehicle synthetic (ExternalID r) (null.mkString "succeeded" true)
    OnboardingStatusMintSuccess (DeviceDefinitionID r) wallet
    (null.mkString "" false)
    (OperationErrorCode r) (OperationErrorType r) (OperationErrorDescription r).

(** The record a vendor-side disconnect starts with: DisconnectUnknown(70)
    and the link columns of a disconnected vehicle. *)
Definition unlinked (r : Vin) : Vin :=
  onboarding.setLink (null.mkString "" false) (null.mkString "succeeded" true)
    (run.setOnboardingStatus OnboardingStatusDisconnectUnknown r).

End props.

(** ** Concrete inputs used by the examples *)

Module sample.
Import goerr dbmodels onboarding_status.

Definition vinA : string := "ABCDEFG1234567811".
Definition vinB : string := "ABCDEFG1234567812".

Definition settings : config.Settings :=
  config.mkSettings false true true 137 "0xbA5738a18d83D41847dfFbDC6101d37C69c9B0cF"
    "0x4804e8D1661cd1a1e5dDdE1ff458A7f878c0aC6D".

(** A record that was verified, connected and minted. *)
Definition minted : Vin :=
  mkVin vinA (null.Int64From 101) (null.Int64From 202)
    (null.StringFrom "ffbf0b52") (null.StringFrom "succeeded")
    OnboardingStatusMintSuccess (null.StringFrom "dd-1") (null.Int64From 5)
    null.zeroString null.zeroString null.zeroString null.zeroString.

(** The same record after the vendor-side disconnect. *)
Definition disconnected : Vin :=
  mkVin vinA (null.Int64From 101) (null.Int64From 202)
    (null.StringFrom "ffbf0b52") (null.mkString "" false)
    OnboardingStatusDisconnectSuccess (null.StringFrom "dd-1") (null.Int64From 5)
    (null.StringFrom "succeeded") null.zeroString null.zeroString null.zeroString.

(** After the synthetic device was burned. *)
Definition burnedSD : Vin :=
  mkVin vinA (null.Int64From 101) (null.NewInt64 0 false)
    (null.StringFrom "ffbf0b52") (null.mkString "" false)
    OnboardingStatusBurnSDSuccess (null.StringFrom "dd-1") (null.NewInt64 0 false)
    (null.StringFrom "succeeded") null.zeroString null.zeroString null.zeroString.

(** A record at BurnSDSuccess that never had a vehicle token. *)
Definition burnedSDNoVehicle : Vin :=
  mkVin vinA (null.NewInt64 0 false) (null.NewInt64 0 false)
    null.zeroString null.zeroString
    OnboardingStatusBurnSDSuccess null.zeroString (null.NewInt64 0 false)
    null.zeroString null.zeroString null.zeroString null.zeroString.

(** After the vehicle was burned as well. *)
Definition burnedVehicle : Vin :=
  mkVin vinA (null.NewInt64 0 false) (null.NewInt64 0 false)
    (null.StringFrom "ffbf0b52") (null.mkString "" false)
    OnboardingStatusBurnVehicleSuccess (null.StringFrom "dd-1") (null.NewInt64 0 false)
    (null.StringFrom "succeeded") null.zeroString null.zeroString null.zeroString.

(** A decoded record waiting for vendor validation. *)
Definition decoded : Vin :=
  mkVin vinA null.zeroInt64 null.zeroInt64 null.zeroString null.zeroString
    OnboardingStatusDecodingSuccess (null.StringFrom "dd-1") null.zeroInt64
    null.zeroString null.zeroString null.zeroString null.zeroString.

(** A worker holding [r], with [r] stored, the mutex free and the
    database answering. *)
Definition holding (r : Vin) (contended : bool) : run.state :=
  run.mkState (Some r) {[Vin_ r := r]} false contended [] None None None.

(** A vendor whose capability check answers [status] for every VIN. *)
Definition vendorAnswering (status : string) : onboarding.VendorOnboardingAPI := {|
  onboarding.Validate vins :=
    (List.map (fun vin => onboarding.mkCapability vin status) vins, None);
  onboarding.Connect vins :=
    (List.map (fun vin => onboarding.mkConnection vin "" "succeeded") vins, None);
  onboarding.Disconnect vins :=
    (List.map (fun vin => onboarding.mkConnection vin "" "succeeded") vins, None)
|}.

(** A transaction facility that accepts the operation ([sendOk]) and
    reports its result ([readOk]), or fails at that step with a nil
    pointer and an error. *)
Definition facility (sendOk readOk : bool) : run.Client := {|
  run.SendSignedUserOperation op :=
    if sendOk then (Some op, None) else (None, Some (External 1));
  run.GetBurnSDByOwnerResult opResult :=
    if readOk then (Some 202, None) else (None, Some (External 2));
  run.GetBurnVehicleByOwnerResult opResult :=
    if readOk then (Some 101, None) else (None, Some (External 2))
|}.

(** The identity service confirming that every token belongs to one
    wallet. *)
Definition wallet : string := "0x7B4ee3cE0b4b9f9b3a1c2f4aD9d6b0E5a91C33f2".
Definition identity (tokenID : Z) : controllers.Vehicle + error :=
  inl (controllers.mkVehicle "" tokenID wallet "dd-1" 0).

(** A row for [vinA] already linked to token 5, as a verify submission
    followed by a mint leaves it (no vendor id yet). *)
Definition linkedTo5 : Vin :=
  mkVin vinA (null.Int64From 5) null.zeroInt64 null.zeroString null.zeroString
    OnboardingStatusMintSuccess (null.StringFrom "dd-1") null.zeroInt64
    null.zeroString null.zeroString null.zeroString null.zeroString.

(** The forwarder's collaborators: the signal map loads, the ingest
    endpoint answers 200, the database answers. *)
Definition ingest : oracle.Env := {|
  oracle.LoadSignalMap := inl ["speed"; "powertrainFuelSystemRelativeLevel"];
  oracle.SendToDimoNode ce := (oracle.IInt 200, None);
  oracle.dbFaults := service.noFaults
|}.

(** A telemetry CloudEvent for [vinA] with one signal. *)
Definition telemetry : oracle.message :=
  oracle.Bytes (inl (oracle.mkCloudEvent "evt-1" "dimo.status"
    (Some (oracle.mkRaw (inl (
       <["vin" := oracle.JString vinA]>
         (<["signals" :=
              oracle.JArray [oracle.JObject [("name", oracle.JString "speed");
                                             ("value", oracle.JNumber "12.5")]]]> ∅)))))
    "" "")).

(** The forwarder starts with an empty cache while [vinA] is minted. *)
Definition forwarderStart : oracle.state :=
  oracle.mkState {[vinA := minted]} ∅ [] 0 0.

(** The state after one telemetry event was handled ... *)
Definition afterTelemetry : oracle.state :=
  snd (@oracle.HandleDeviceByVIN ingest settings telemetry forwarderStart).

(** ... and after the workers then burned both tokens of [vinA]: the
    stored row changes, the forwarder's cache does not. *)
Definition afterBurn : oracle.state :=
  oracle.mkState {[vinA := burnedVehicle]} (oracle.cache afterTelemetry)
    (oracle.forwarded afterTelemetry)
    (oracle.failedStatusEventCntr afterTelemetry)
    (oracle.successStatusEventCntr afterTelemetry).

(** A stand-in for the key libraries, enough to run the wallet code:
    keys carry the derivation path, a signature is the digest followed by
    32 zero bytes and the recovery id 1. *)
Definition paths : sdwallets.KeyLibrary := {|
  sdwallets.ExtendedKey := list Z;
  sdwallets.BtcecPrivateKey := list Z;
  sdwallets.PrivateKey := list Z;
  sdwallets.Derive key i := inl (key ++ [i])%list;
  sdwallets.ECPrivKey child := inl child;
  sdwallets.Serialize pk := pk;
  sdwallets.ToECDSA bytes := inl bytes;
  sdwallets.Sign hash k :=
    if (length hash =? 32)%nat
    then inl (hash ++ replicate 32 0 ++ [1])%list
    else inr (New "hash is required to be exactly 32 bytes");
  sdwallets.PubkeyToAddress k := replicate 20 0
|}.

Definition digest : list Z := replicate 32 171.

(** The device-definitions service decoding every VIN to one definition. *)
Definition decoder : onboarding.DeviceDefinitionsAPI := {|
  onboarding.DecodeVin vin countryCode :=
    (Some (onboarding.mkDecoded "dd-1" "0x5f1a"), None)
|}.

Definition definition : onboarding.DeviceDefinition :=
  onboarding.mkDefinition "dd-1" (onboarding.mkManufacturer 41 "Tesla") "Model 3" 2022.

(** An identity service that knows the definition from its third answer
    on, and one that knows it at once. *)
Definition identityLate : onboarding.IdentityAPI := {|
  onboarding.FetchDeviceDefinitionByID i id :=
    if (2 <=? i)%nat then (Some definition, None) else (None, Some (External 404))
|}.

Definition identityNow : onboarding.IdentityAPI := {|
  onboarding.FetchDeviceDefinitionByID i id := (Some definition, None)
|}.

(** The sequence handing out [next]. *)
Definition sequence (next : Z) : onboard.Sequence := {|
  onboard.nextval := inl next
|}.

(** The repository's wallet service over the stand-in key library; every
    typed-data document hashes to [digest]. *)
Definition walletService : onboard.SDWalletsAPI :=
  @onboard.SDWalletsService paths (fun _ => inl digest) [].

(** A registry that mints vehicle 101 with synthetic device 202. *)
Definition registry : onboard.MintClient := {|
  onboard.GetMintVehicleAndSDTypedData id := Some 1;
  onboard.GetMintVehicleAndSDTypedDataV2 id := Some 2;
  onboard.GetMintSDTypedData id node := Some 3;
  onboard.GetMintSDTypedDataV2 id node := Some 4;
  onboard.MintVehicleAndSDWithDD input := (Some (onboard.mkMinted 101 202), None);
  onboard.MintVehicleAndSDWithDDAndSACD input sacd :=
    (Some (onboard.mkMinted 101 202), None);
  onboard.MintSD input := (Some 202, None)
|}.

Definition mintSettings : onboard.MintSettings :=
  onboard.mkMintSettings true "12" "3".

(** A verified record waiting for the mint. *)
Definition verified : Vin :=
  mkVin vinA null.zeroInt64 null.zeroInt64 null.zeroString null.zeroString
    OnboardingStatusVendorValidationSuccess (null.StringFrom "dd-1") null.zeroInt64
    null.zeroString null.zeroString null.zeroString null.zeroString.

(** The identity service listing one vehicle of [wallet], token 101, with
    the synthetic device [synthetic] (0 for none), and the builder of the
    burn operations. *)
Definition ledger (synthetic : Z) : api.chain := {|
  api.FetchVehiclesByWalletAddress w :=
    inl [controllers.mkVehicle "" 101 wallet "dd-1" synthetic];
  api.GetBurnSDByOwnerUserOperationAndHash w token :=
    (Some (api.mkUserOperation token []), Some digest, None);
  api.GetBurnVehicleByOwnerUserOperationAndHash w token :=
    (Some (api.mkUserOperation token []), Some digest, None)
|}.

(** A minted record that the vendor has enrolled under an id of its own,
    and one whose vehicle token was never set. *)
Definition enrolled : Vin :=
  mkVin vinA (null.Int64From 101) (null.Int64From 202)
    (null.StringFrom "veh-1") (null.StringFrom "succeeded")
    OnboardingStatusMintSuccess (null.StringFrom "dd-1") (null.Int64From 5)
    null.zeroString null.zeroString null.zeroString null.zeroString.

Definition enrolledUnminted : Vin :=
  mkVin vinA (null.NewInt64 0 false) (null.NewInt64 0 false)
    (null.StringFrom "veh-1") (null.StringFrom "succeeded")
    OnboardingStatusVendorValidationSuccess (null.StringFrom "dd-1")
    (null.NewInt64 0 false)
    null.zeroString null.zeroString null.zeroString null.zeroString.

(** A row whose external id is the VIN itself. *)
Definition selfLinked : Vin :=
  mkVin vinA (null.Int64From 101) (null.NewInt64 0 false)
    (null.StringFrom vinA) null.zeroString
    OnboardingStatusVendorValidationSuccess null.zeroString
    (null.NewInt64 0 false)
    null.zeroString null.zeroString null.zeroString null.zeroString.

(** The minted record after a failed enrollment: the vendor's error is in
    the three operation_error columns. *)
Definition enrollmentFailed : Vin :=
  mkVin vinA (null.Int64From 101) (null.Int64From 202)
    (null.StringFrom "op-1") (null.StringFrom "failed")
    OnboardingStatusMintSuccess (null.StringFrom "dd-1") (null.Int64From 5)
    null.zeroString (null.StringFrom "E42") (null.StringFrom "vendor")
    (null.StringFrom "vehicle not reachable").

(** The operations message of a failed enrollment of [vinA]. *)
Definition failedEnrollment : kafka.OperationMessage :=
  kafka.mkOperation "op-1" "enrollment" "enroll" "failed" vinA
    (service.mkOperationError "E42" "vendor" "vehicle not reachable") "".

(** The parts of a telemetry CloudEvent for [vinA]. *)
Definition telemetryData : gmap string oracle.json :=
  <["vin" := oracle.JString vinA]>
    (<["signals" :=
         oracle.JArray [oracle.JObject [("name", oracle.JString "speed");
                                        ("value", oracle.JNumber "12.5")]]]> ∅).

Definition telemetryEvent : oracle.CloudEvent :=
  oracle.mkCloudEvent "evt-2" "dimo.status"
    (Some (oracle.mkRaw (inl telemetryData))) "" "".

(** A record whose vehicle token is 2^32. *)
Definition wideToken : Vin :=
  mkVin vinA (null.Int64From 4294967296) (null.Int64From 202)
    null.zeroString (null.StringFrom "succeeded")
    OnboardingStatusMintSuccess (null.StringFrom "dd-1") (null.Int64From 5)
    null.zeroString null.zeroString null.zeroString null.zeroString.

End sample.

(** * Properties *)

Import goerr dbmodels onboarding_status.

(** ** Gate predicates *)

(** Case analysis on every comparison a gate predicate evaluates. *)
Ltac gate_cases s :=
  unfold IsDisconnectPending, IsMintPending, IsPending, IsVerified,
    IsMinted, IsDisconnected, IsFailure in *;
  unfold OnboardingStatusVendorValidationSuccess, OnboardingStatusMintSuccess,
    OnboardingStatusBurnSDSuccess, OnboardingStatusMintSubmitUnknown,
    OnboardingStatusDisconnectSubmitUnknown in *;
  generalize (Z.rem s 10); intros m;
  repeat match goal with
         | |- context [?a =? ?b] => destruct (Z.eqb_spec a b)
         | |- context [?a <? ?b] => destruct (Z.ltb_spec a b)
         | |- context [?a <=? ?b] => destruct (Z.leb_spec a b)
         | |- context [String.eqb ?a ?b] => destruct (String.eqb_spec a b)
         end;
  cbn.

(** C1. The mint gate admits a record exactly when it is minted with a
    failed connection, or it is (not minted or disconnected) and (a failure
    or neither mint-pending nor disconnect-pending); nil is never
    admitted. *)
Theorem canSubmitMintingJob_spec :
  controllers.canSubmitMintingJob None = false /\
  forall r : Vin,
    let s := OnboardingStatus r in
    controllers.canSubmitMintingJob (Some r) = true <->
    (s = 53 /\ null.String_ (ConnectionStatus r) = "failed")
    \/ ((s <> 53 \/ s = 83)
        /\ (Z.rem s 10 = 2
            \/ (~ (30 < s < 53) /\ ~ ((60 < s < 83) /\ Z.rem s 10 <> 2)))).
Proof.
  split; [reflexivity |].
  intros r s. unfold controllers.canSubmitMintingJob. fold s.
  generalize (null.String_ (ConnectionStatus r)); intros c.
  gate_cases s; split; intros Hadm; try discriminate; try reflexivity;
    intuition (try lia; try congruence).
Qed.

(** C7 (as stated). The specification makes the predicate admit an absent
    record; on [nil] the predicate answers false. *)
Lemma canSubmitVerificationJob_nil_counterexample :
  ~ (controllers.canSubmitVerificationJob None = true
     <-> props.verifyGateAsSpecified None).
Proof.
  intros [_ Hspec].
  assert (Hnil : controllers.canSubmitVerificationJob None = true)
    by (apply Hspec; left; reflexivity).
  discriminate Hnil.
Qed.

(** C7 (amended). The verify gate admits exactly the records that exist,
    are not verified and are a failure or not pending; nil is never
    admitted, and the fresh status-0 record that the submit handler builds
    for an unknown VIN is admitted. *)
Theorem canSubmitVerificationJob_spec :
  controllers.canSubmitVerificationJob None = false /\
  (forall r : Vin,
     let s := OnboardingStatus r in
     controllers.canSubmitVerificationJob (Some r) = true <->
     s < 23 /\ (Z.rem s 10 = 2 \/ ~ (0 < s < 53))) /\
  (forall vin : string,
     controllers.canSubmitVerificationJob
       (Some (newVin vin OnboardingStatusSubmitUnknown)) = true).
Proof.
  split; [reflexivity |]. split; [| reflexivity].
  intros r s. unfold controllers.canSubmitVerificationJob. fold s.
  gate_cases s; split; intros Hadm; try discriminate; try reflexivity;
    intuition (try lia; try congruence).
Qed.

(** ** The enrollment updates of the store *)

Section StoreFrame.
Import service props.

Lemma writeColumns_enrollment_identity mem row :
  sameIdentity row (writeColumns enrollmentColumns mem row).
Proof. repeat split. Qed.

Lemma Update_enrollment_framed vin (mem : Vin) (t : gmap string Vin) :
  Vin_ mem = vin -> framed vin t (Update enrollmentColumns mem t).
Proof.
  intros Hkey k. unfold Update.
  destruct (t !! Vin_ mem) as [row|] eqn:Hrow.
  - rewrite lookup_insert. case_decide as Hk.
    + subst k. rewrite Hrow. split.
      * apply writeColumns_enrollment_identity.
      * intros Hne. congruence.
    + destruct (t !! k); [| exact I]. split; [repeat split | reflexivity].
  - destruct (t !! k); [| exact I]. split; [repeat split | reflexivity].
Qed.

Lemma framed_refl vin (t : gmap string Vin) : framed vin t t.
Proof.
  intros k. destruct (t !! k); [| exact I].
  split; [repeat split | reflexivity].
Qed.

Lemma Update_enrollment_lookup k (mem row : Vin) (t : gmap string Vin) :
  Vin_ mem = k -> t !! k = Some row ->
  Update enrollmentColumns mem t !! k
    = Some (writeColumns enrollmentColumns mem row).
Proof.
  intros <- Hrow. unfold Update. rewrite Hrow. apply lookup_insert_eq.
Qed.

End StoreFrame.

Section EnrollmentUpdates.
Import service props.

Variable f : faults.
Variable t : gmap string Vin.
Variables vin status externalID : string.
Variable error : option OperationError.
Hypothesis Hkeyed : keyed t.

Lemma setOperationError_key (r : Vin) : Vin_ (setOperationError error r) = Vin_ r.
Proof. destruct error; reflexivity. Qed.

Lemma UpdateEnrollmentStatus_framed :
  framed vin t (fst (UpdateEnrollmentStatus f t vin status externalID error)).
Proof.
  unfold UpdateEnrollmentStatus.
  destruct (beginErr f); [apply framed_refl |].
  destruct (fetchErr f); [apply framed_refl |].
  destruct (t !! vin) as [r|] eqn:Hr; [| apply framed_refl].
  destruct (writeErr f); [apply framed_refl |].
  destruct (commitErr f); [apply framed_refl |].
  cbn [fst]. apply Update_enrollment_framed.
  rewrite setOperationError_key. cbn. eauto.
Qed.

Lemma UpdateUnenrollmentStatus_framed :
  framed vin t (fst (UpdateUnenrollmentStatus f t vin status error)).
Proof.
  unfold UpdateUnenrollmentStatus.
  destruct (beginErr f); [apply framed_refl |].
  destruct (fetchErr f); [apply framed_refl |].
  destruct (t !! vin) as [r|] eqn:Hr; [| apply framed_refl].
  destruct (writeErr f); [apply framed_refl |].
  destruct (commitErr f); [apply framed_refl |].
  cbn [fst]. apply Update_enrollment_framed.
  rewrite setOperationError_key. destruct (String.eqb status "succeeded"); cbn; eauto.
Qed.

Lemma UpdateEnrollmentStatus_clears :
  error = None ->
  snd (UpdateEnrollmentStatus f t vin status externalID error) = None ->
  exists r, fst (UpdateEnrollmentStatus f t vin status externalID error) !! vin = Some r
            /\ errorCleared r.
Proof.
  intros -> . unfold UpdateEnrollmentStatus.
  destruct (beginErr f); [discriminate |].
  destruct (fetchErr f); [discriminate |].
  destruct (t !! vin) as [r|] eqn:Hr; [| discriminate].
  destruct (writeErr f); [discriminate |].
  destruct (commitErr f); [discriminate |].
  intros _. cbn [fst].
  pose proof (Hkeyed _ _ Hr) as Hk.
  eexists. split.
  - apply Update_enrollment_lookup; [exact Hk | exact Hr].
  - repeat split.
Qed.

Lemma UpdateUnenrollmentStatus_clears :
  error = None ->
  snd (UpdateUnenrollmentStatus f t vin status error) = None ->
  exists r, fst (UpdateUnenrollmentStatus f t vin status error) !! vin = Some r
            /\ errorCleared r.
Proof.
  intros -> . unfold UpdateUnenrollmentStatus.
  destruct (beginErr f); [discriminate |].
  destruct (fetchErr f); [discriminate |].
  destruct (t !! vin) as [r|] eqn:Hr; [| discriminate].
  destruct (writeErr f); [discriminate |].
  destruct (commitErr f); [discriminate |].
  intros _. cbn [fst].
  pose proof (Hkeyed _ _ Hr) as Hk.
  destruct (String.eqb status "succeeded"); eexists;
    (split; [apply Update_enrollment_lookup; [exact Hk | exact Hr] | repeat split]).
Qed.

Lemma UpdateEnrollmentStatus_succeeds :
  snd (UpdateEnrollmentStatus f t vin status externalID error) = None <->
  f = noFaults /\ is_Some (t !! vin).
Proof.
  unfold UpdateEnrollmentStatus, noFaults. destruct f as [b q w c]. cbn. split.
  - destruct b; [discriminate |]. destruct q; [discriminate |].
    destruct (t !! vin) as [r|]; [| discriminate].
    destruct w; [discriminate |]. destruct c; [discriminate |].
    intros _. split; [reflexivity | eauto].
  - intros [[= -> -> -> ->] [r ->]]. reflexivity.
Qed.

Lemma UpdateUnenrollmentStatus_succeeds :
  snd (UpdateUnenrollmentStatus f t vin status error) = None <->
  f = noFaults /\ is_Some (t !! vin).
Proof.
  unfold UpdateUnenrollmentStatus, noFaults. destruct f as [b q w c]. cbn. split.
  - destruct b; [discriminate |]. destruct q; [discriminate |].
    destruct (t !! vin) as [r|]; [| discriminate].
    destruct w; [discriminate |]. destruct c; [discriminate |].
    intros _. split; [reflexivity | eauto].
  - intros [[= -> -> -> ->] [r ->]]. reflexivity.
Qed.

End EnrollmentUpdates.

(** C10. Both enrollment updates leave every other row as it was and keep
    the key, onboarding_status, vehicle_token_id, synthetic_token_id,
    wallet_index and device_definition_id of the VIN's row, whether the
    call fails or not. A call returns nil exactly when no database step
    fails and the VIN has a row, and a call that returns nil with a nil
    error argument leaves the three operation_error columns null. *)
Theorem enrollment_updates_frame
    (f : service.faults) (t : gmap string Vin)
    (vin status externalID : string) (error : option service.OperationError) :
  props.keyed t ->
  let en := service.UpdateEnrollmentStatus f t vin status externalID error in
  let un := service.UpdateUnenrollmentStatus f t vin status error in
  props.framed vin t (fst en) /\
  props.framed vin t (fst un) /\
  (error = None -> snd en = None ->
   exists r, fst en !! vin = Some r /\ props.errorCleared r) /\
  (error = None -> snd un = None ->
   exists r, fst un !! vin = Some r /\ props.errorCleared r) /\
  (snd en = None <-> f = service.noFaults /\ is_Some (t !! vin)) /\
  (snd un = None <-> f = service.noFaults /\ is_Some (t !! vin)).
Proof.
  intros Hkeyed en un. subst en un.
  split; [apply UpdateEnrollmentStatus_framed; assumption |].
  split; [apply UpdateUnenrollmentStatus_framed; assumption |].
  split; [apply UpdateEnrollmentStatus_clears; assumption |].
  split; [apply UpdateUnenrollmentStatus_clears; assumption |].
  split.
  - apply UpdateEnrollmentStatus_succeeds.
  - apply UpdateUnenrollmentStatus_succeeds.
Qed.

(** Witness of [enrollment_updates_frame] on a table whose one row, a
    minted record, holds the error of a failed enrollment: both calls
    return nil and the error columns, set before, are null afterwards. *)
Lemma enrollment_updates_frame_witness :
  let t : gmap string Vin := {[sample.vinA := sample.enrollmentFailed]} in
  let en := service.UpdateEnrollmentStatus service.noFaults t sample.vinA
              "succeeded" "veh-1" None in
  let un := service.UpdateUnenrollmentStatus service.noFaults t sample.vinA
              "succeeded" None in
  props.keyed t /\
  ~ props.errorCleared sample.enrollmentFailed /\
  props.framed sample.vinA t (fst en) /\
  props.framed sample.vinA t (fst un) /\
  snd en = None /\
  (exists r, fst en !! sample.vinA = Some r /\ props.errorCleared r) /\
  snd un = None /\
  (exists r, fst un !! sample.vinA = Some r /\ props.errorCleared r).
Proof.
  cbv zeta.
  assert (Hk : props.keyed {[sample.vinA := sample.enrollmentFailed]}).
  { intros k r Hl. apply lookup_singleton_Some in Hl as [<- <-]. reflexivity. }
  assert (Hrow : is_Some (({[sample.vinA := sample.enrollmentFailed]}
                            : gmap string Vin) !! sample.vinA))
    by (eexists; apply lookup_singleton_eq).
  pose proof (enrollment_updates_frame service.noFaults _ sample.vinA
                "succeeded" "veh-1" None Hk) as Hframe.
  cbv zeta in Hframe.
  destruct Hframe as (Hen & Hun & Hcleared & Hcleared' & Hnil & Hnil').
  assert (Hok : snd (service.UpdateEnrollmentStatus service.noFaults
                       {[sample.vinA := sample.enrollmentFailed]} sample.vinA
                       "succeeded" "veh-1" None) = None)
    by (apply Hnil; split; [reflexivity | exact Hrow]).
  assert (Hok' : snd (service.UpdateUnenrollmentStatus service.noFaults
                        {[sample.vinA := sample.enrollmentFailed]} sample.vinA
                        "succeeded" None) = None)
    by (apply Hnil'; split; [reflexivity | exact Hrow]).
  split; [exact Hk |].
  split; [intros (Htype & _); discriminate Htype |].
  split; [exact Hen |]. split; [exact Hun |].
  split; [exact Hok |]. split; [exact (Hcleared eq_refl Hok) |].
  split; [exact Hok' |]. exact (Hcleared' eq_refl Hok').
Defined.

(** ** Verify worker: vendor validation *)

Section VendorValidation.
Import run onboarding.
Context `{V : VendorOnboardingAPI}.
Variable settings : config.Settings.
Variable args : VerifyArgs.
Variables (s : state) (r : Vin).
Hypothesis Hrecord : record s = Some r.

Lemma validation_disabled :
  config.EnableVendorCapabilityCheck settings = false ->
  ValidateWithExternalVendorAndUpdate settings args s
  = Done None (props.validated s r OnboardingStatusVendorValidationSuccess).
Proof.
  intros Hoff. unfold ValidateWithExternalVendorAndUpdate, props.validated.
  rewrite Hoff. unfold defer, mbind, M_bind, mret, M_ret, assign, updateInfer.
  cbn. rewrite Hrecord. cbn. destruct (dbWrite s); reflexivity.
Qed.

(** With the check enabled the outcome is decided by the comparison
    that the source writes: against ["notCapable "], with a trailing
    blank, and against ["noDataFound"]. *)
Lemma validation_enabled first rest :
  config.EnableVendorCapabilityCheck settings = true ->
  Validate [vaVIN args] = (first :: rest, None) ->
  ValidateWithExternalVendorAndUpdate settings args s
  = if String.eqb (capStatus first) "notCapable "
       || String.eqb (capStatus first) "noDataFound"
    then Done (Some (New "vin validation failed"))
           (props.validated s r OnboardingStatusVendorValidationFailure)
    else Done None (props.validated s r OnboardingStatusVendorValidationSuccess).
Proof.
  intros Hon Hval. unfold ValidateWithExternalVendorAndUpdate, props.validated.
  rewrite Hon, Hval.
  unfold defer, mbind, M_bind, mret, M_ret, assign, updateInfer.
  cbn. rewrite Hrecord. cbn.
  destruct (String.eqb (capStatus first) "notCapable "
            || String.eqb (capStatus first) "noDataFound");
    cbn; destruct (dbWrite s); reflexivity.
Qed.

End VendorValidation.

(** C2. With the capability check enabled and the vendor answering
    "notCapable" for the VIN, the stage ends without error and both the
    record held by the worker and the stored row carry
    VendorValidationSuccess(23), not VendorValidationFailure(22). *)
Theorem validation_notCapable_succeeds :
  let out :=
    @onboarding.ValidateWithExternalVendorAndUpdate
      (sample.vendorAnswering "notCapable") sample.settings
      (onboarding.mkVerifyArgs sample.vinA "USA")
      (sample.holding sample.decoded false) in
  config.EnableVendorCapabilityCheck sample.settings = true /\
  (exists s', out = run.Done None s') /\
  OnboardingStatus <$> run.record (run.final out) = Some 23 /\
  OnboardingStatus <$> (run.db (run.final out) !! sample.vinA) = Some 23.
Proof.
  cbv zeta. split; [reflexivity |].
  split; [eexists; vm_compute; reflexivity |].
  split; vm_compute; reflexivity.
Qed.

(** ** Disconnect worker: burning the synthetic device *)

Ltac run_stage :=
  unfold run.defer, mbind, run.M_bind, mret, run.M_ret, run.assign, run.update,
    run.send, run.Lock, run.Unlock, run.panic, onboarding.get;
  cbn.

Section BurnSD.
Import run onboarding.
Context `{C : Client}.
Variable args : DisconnectArgs.
Variables (s : state) (r : Vin).
Hypothesis Hrecord : record s = Some r.

(** Submission fails: the stage returns the error, the record carries
    BurnSDFailure(82) and keeps its synthetic token and wallet index. *)
Lemma BurnSD_send_failure opResult e :
  SendSignedUserOperation (daUserOperation args) = (opResult, Some e) ->
  exists s',
    BurnSDAndUpdate args s = Done (None, Some e) s' /\
    record s' = Some (setOnboardingStatus OnboardingStatusBurnSDFailure r).
Proof.
  intros Hsend. unfold BurnSDAndUpdate. run_stage. rewrite Hsend. cbn.
  rewrite Hrecord. cbn.
  destruct (dbBegin s); cbn; [eauto |].
  destruct (dbWrite s); cbn; destruct (dbCommit s); cbn; eauto.
Qed.

(** Submission and result both succeed: the record leaves with the
    synthetic token and the wallet index cleared and BurnSDSuccess(83). *)
Lemma BurnSD_success opResult node :
  SendSignedUserOperation (daUserOperation args) = (opResult, None) ->
  GetBurnSDByOwnerResult opResult = (Some node, None) ->
  exists s' r',
    BurnSDAndUpdate args s = Done (Some r', None) s' /\
    record s' = Some r' /\
    OnboardingStatus r' = OnboardingStatusBurnSDSuccess /\
    SyntheticTokenID r' = null.NewInt64 0 false /\
    WalletIndex r' = null.NewInt64 0 false.
Proof.
  intros Hsend Hread. unfold BurnSDAndUpdate. run_stage. rewrite Hsend. cbn.
  rewrite Hread. cbn. rewrite Hrecord. cbn.
  destruct (dbBegin s); cbn; [eauto 10 |].
  destruct (dbWrite s); cbn; destruct (dbCommit s); cbn; eauto 10.
Qed.

(** Reading the result fails: the branch sets BurnSDFailure(82) but
    does not return. Either the second [Unlock] stops the process, or
    the run goes on and the record leaves with BurnSDSuccess(83) and
    its synthetic token and wallet index cleared. *)
Lemma BurnSD_result_failure opResult result e :
  SendSignedUserOperation (daUserOperation args) = (opResult, None) ->
  GetBurnSDByOwnerResult opResult = (result, Some e) ->
  match BurnSDAndUpdate args s with
  | Fatal _ s' =>
      contended s = false /\ db s' = db s /\
      record s' = Some (setOnboardingStatus OnboardingStatusBurnSDFailure r)
  | Done _ s' | Panic _ s' =>
      exists r', record s' = Some r' /\
        OnboardingStatus r' = OnboardingStatusBurnSDSuccess /\
        SyntheticTokenID r' = null.NewInt64 0 false /\
        WalletIndex r' = null.NewInt64 0 false
  end.
Proof.
  intros Hsend Hread. unfold BurnSDAndUpdate. run_stage. rewrite Hsend. cbn.
  rewrite Hread. cbn. rewrite Hrecord. cbn.
  destruct (contended s) eqn:Hc; cbn; [| auto].
  destruct result; cbn;
    (destruct (dbBegin s); cbn; [eauto 10 |]);
    destruct (dbWrite s); cbn; destruct (dbCommit s); cbn; eauto 10.
Qed.

End BurnSD.

(** C3. The facility accepts the burn-SD operation but reading its result
    fails. With the mutex uncontended the stage never exits: the second
    [Unlock] is a fatal error and the stored row keeps its old status.
    With another job taking the mutex in between, the record leaves with
    BurnSDSuccess(83) and its synthetic_token_id and wallet_index cleared,
    in memory and in the store. In neither run does the record exit with
    BurnSDFailure(82). *)
Theorem BurnSD_result_failure_is_not_82 :
  let stage contended :=
    @onboarding.BurnSDAndUpdate (sample.facility true false)
      (onboarding.mkDisconnectArgs sample.vinA 9)
      (sample.holding sample.disconnected contended) in
  (exists s',
     stage false = run.Fatal "sync: Unlock of unlocked RWMutex" s' /\
     run.db s' !! sample.vinA = Some sample.disconnected) /\
  (exists msg s',
     stage true = run.Panic msg s' /\
     run.record s' = Some sample.burnedSD /\
     run.db s' !! sample.vinA = Some sample.burnedSD).
Proof.
  cbv zeta. split.
  - eexists. split; vm_compute; reflexivity.
  - do 2 eexists. split; [vm_compute; reflexivity |].
    split; vm_compute; reflexivity.
Qed.

(** ** Delete worker *)

(** C4 (as stated). A record at BurnSDSuccess(83) with neither token: the
    worker returns without submitting anything, while the specification
    has it submit the burn-vehicle operation. *)
Lemma DeleteWorker_no_vehicle_counterexample : ~ props.deleteWorkerAsSpecified.
Proof.
  intros Hspec.
  specialize (Hspec (sample.facility true true)
                (onboarding.mkDeleteArgs sample.vinA 9)
                (sample.holding sample.burnedSDNoVehicle false)
                sample.burnedSDNoVehicle).
  cbv zeta in Hspec.
  destruct Hspec as [Hsub _]; try reflexivity; try (vm_compute; congruence).
  vm_compute in Hsub. discriminate Hsub.
Qed.

Section DeleteWorker.
Import run onboarding.
Context `{C : Client}.
Variable args : DeleteArgs.
Variables (s : state) (r : Vin).
Hypothesis Hrow : db s !! deVIN args = Some r.
Hypothesis Hmin : OnboardingStatusBurnSDSuccess <= OnboardingStatus r.
Hypothesis Hnot : OnboardingStatus r <> OnboardingStatusBurnVehicleSuccess.

Lemma DeleteWorker_guards :
  (OnboardingStatus r <? OnboardingStatusBurnSDSuccess) = false /\
  (OnboardingStatus r =? OnboardingStatusBurnVehicleSuccess) = false.
Proof. split; [apply Z.ltb_ge | apply Z.eqb_neq]; assumption. Qed.

(** The synthetic token is still present: refused, nothing submitted,
    nothing written. *)
Lemma DeleteWorker_refuses :
  null.IValid (SyntheticTokenID r) = true ->
  DeleteWorker_Work None args s = Done (Some (New "sd not empty")) (setRecord (Some r) s).
Proof.
  intros Hsd. destruct DeleteWorker_guards as [Hlt Heq].
  unfold DeleteWorker_Work, GetVinRecord. run_stage.
  rewrite Hrow. cbn. rewrite Hlt, Heq, Hsd. reflexivity.
Qed.

(** Neither token is present: the worker returns without submitting. *)
Lemma DeleteWorker_nothing_to_burn :
  null.IValid (SyntheticTokenID r) = false ->
  null.IValid (VehicleTokenID r) = false ->
  DeleteWorker_Work None args s = Done None (setRecord (Some r) s).
Proof.
  intros Hsd Hveh. destruct DeleteWorker_guards as [Hlt Heq].
  unfold DeleteWorker_Work, GetVinRecord. run_stage.
  rewrite Hrow. cbn. rewrite Hlt, Heq, Hsd, Hveh. reflexivity.
Qed.

(** Submission fails. *)
Lemma DeleteWorker_send_failure opResult e :
  null.IValid (SyntheticTokenID r) = false ->
  null.IValid (VehicleTokenID r) = true ->
  SendSignedUserOperation (deUserOperation args) = (opResult, Some e) ->
  let r' := setOnboardingStatus OnboardingStatusBurnVehicleFailure r in
  exists s',
    DeleteWorker_Work None args s = Done (Some e) s' /\
    submitted s' = (submitted s ++ [deUserOperation args])%list /\
    record s' = Some r' /\
    db s' = props.written s r'.
Proof.
  intros Hsd Hveh Hsend r'. destruct DeleteWorker_guards as [Hlt Heq].
  unfold DeleteWorker_Work, GetVinRecord, BurnVehicleAndUpdate, props.written.
  run_stage. rewrite Hrow. cbn. rewrite Hlt, Heq, Hsd, Hveh. cbn.
  rewrite Hsend. cbn.
  destruct (dbBegin s); cbn; [eauto 10 |].
  destruct (dbWrite s); cbn; destruct (dbCommit s); cbn; eauto 10.
Qed.

(** Submission and result both succeed. *)
Lemma DeleteWorker_success opResult node :
  null.IValid (SyntheticTokenID r) = false ->
  null.IValid (VehicleTokenID r) = true ->
  SendSignedUserOperation (deUserOperation args) = (opResult, None) ->
  GetBurnVehicleByOwnerResult opResult = (Some node, None) ->
  let r' := setOnboardingStatus OnboardingStatusBurnVehicleSuccess
              (controllers.withVehicleTokenID (null.NewInt64 0 false) r) in
  exists s',
    DeleteWorker_Work None args s = Done None s' /\
    submitted s' = (submitted s ++ [deUserOperation args])%list /\
    record s' = Some r' /\
    db s' = props.written s r'.
Proof.
  intros Hsd Hveh Hsend Hread r'. destruct DeleteWorker_guards as [Hlt Heq].
  unfold DeleteWorker_Work, GetVinRecord, BurnVehicleAndUpdate, props.written.
  run_stage. rewrite Hrow. cbn. rewrite Hlt, Heq, Hsd, Hveh. cbn.
  rewrite Hsend. cbn. rewrite Hread. cbn.
  destruct (dbBegin s); cbn; [eauto 10 |].
  destruct (dbWrite s); cbn; destruct (dbCommit s); cbn; eauto 10.
Qed.

End DeleteWorker.

(** C4 (amended). For a record at or past BurnSDSuccess(83) and not yet at
    BurnVehicleSuccess(103): with the synthetic token present the worker
    returns an error and submits and writes nothing; with neither token
    present it returns without submitting; with only the vehicle token
    present it submits the operation, a failed submission leaves
    BurnVehicleFailure(102) with the vehicle token unchanged, and a
    submission whose result is read leaves BurnVehicleSuccess(103) with
    the vehicle token cleared. *)
Theorem DeleteWorker_Work_spec `{C : run.Client}
    (args : onboarding.DeleteArgs) (s : run.state) (r : Vin) :
  run.db s !! onboarding.deVIN args = Some r ->
  OnboardingStatusBurnSDSuccess <= OnboardingStatus r ->
  OnboardingStatus r <> OnboardingStatusBurnVehicleSuccess ->
  let out := onboarding.DeleteWorker_Work None args s in
  let op := onboarding.deUserOperation args in
  (null.IValid (SyntheticTokenID r) = true ->
   out = run.Done (Some (New "sd not empty")) (run.setRecord (Some r) s)) /\
  (null.IValid (SyntheticTokenID r) = false ->
   null.IValid (VehicleTokenID r) = false ->
   out = run.Done None (run.setRecord (Some r) s)) /\
  (null.IValid (SyntheticTokenID r) = false ->
   null.IValid (VehicleTokenID r) = true ->
   (forall opResult e,
      run.SendSignedUserOperation op = (opResult, Some e) ->
      let r' := run.setOnboardingStatus OnboardingStatusBurnVehicleFailure r in
      exists s',
        out = run.Done (Some e) s' /\
        run.submitted s' = (run.submitted s ++ [op])%list /\
        run.record s' = Some r' /\
        run.db s' = props.written s r') /\
   (forall opResult node,
      run.SendSignedUserOperation op = (opResult, None) ->
      run.GetBurnVehicleByOwnerResult opResult = (Some node, None) ->
      let r' := run.setOnboardingStatus OnboardingStatusBurnVehicleSuccess
                  (controllers.withVehicleTokenID (null.NewInt64 0 false) r) in
      exists s',
        out = run.Done None s' /\
        run.submitted s' = (run.submitted s ++ [op])%list /\
        run.record s' = Some r' /\
        run.db s' = props.written s r')).
Proof.
  intros Hrow Hmin Hnot out op. subst out op.
  split; [| split].
  - intros Hsd. apply DeleteWorker_refuses; assumption.
  - intros Hsd Hveh. apply DeleteWorker_nothing_to_burn; assumption.
  - intros Hsd Hveh. split.
    + intros opResult e Hsend.
      eapply DeleteWorker_send_failure; eassumption.
    + intros opResult node Hsend Hread.
      eapply DeleteWorker_success; eassumption.
Qed.

(** Witness of [DeleteWorker_Work_spec]: the record whose synthetic device
    was burned, a facility that accepts and reports the operation. *)
Lemma DeleteWorker_Work_spec_witness :
  let C := sample.facility true true in
  let args := onboarding.mkDeleteArgs sample.vinA 9 in
  let s := sample.holding sample.burnedSD false in
  let r := sample.burnedSD in
  run.db s !! onboarding.deVIN args = Some r /\
  OnboardingStatusBurnSDSuccess <= OnboardingStatus r /\
  OnboardingStatus r <> OnboardingStatusBurnVehicleSuccess /\
  exists s',
    onboarding.DeleteWorker_Work None args s = run.Done None s' /\
    run.submitted s' = [9] /\
    run.record s' = Some sample.burnedVehicle /\
    run.db s' !! sample.vinA = Some sample.burnedVehicle.
Proof.
  cbv zeta.
  assert (Hrow : run.db (sample.holding sample.burnedSD false)
                   !! onboarding.deVIN (onboarding.mkDeleteArgs sample.vinA 9)
                 = Some sample.burnedSD) by (vm_compute; reflexivity).
  assert (Hmin : OnboardingStatusBurnSDSuccess <= OnboardingStatus sample.burnedSD)
    by (vm_compute; discriminate).
  assert (Hnot : OnboardingStatus sample.burnedSD <> OnboardingStatusBurnVehicleSuccess)
    by (vm_compute; discriminate).
  split; [exact Hrow |]. split; [exact Hmin |]. split; [exact Hnot |].
  destruct (@DeleteWorker_Work_spec (sample.facility true true) _ _ _ Hrow Hmin Hnot)
    as (_ & _ & Hburn).
  destruct (Hburn eq_refl eq_refl) as [_ Hok].
  destruct (Hok (Some 9) 101 eq_refl eq_refl) as (s' & Hout & Hsub & Hrec & Hdb).
  exists s'. split; [exact Hout |]. split; [exact Hsub |].
  split; [exact Hrec |]. rewrite Hdb. vm_compute. reflexivity.
Defined.

(** ** Register handler *)

(** The lookup by external id never reports the sentinel
    [ErrVehicleNotFound] when the database answers: its "not found" is a
    fresh error. *)
Lemma GetVehicleByExternalID_not_sentinel
    (t : gmap string Vin) (externalID : string) (vin : option Vin) (e : error) :
  service.GetVehicleByExternalID service.noFaults t externalID = (vin, Some e) ->
  vin = None /\ IsVehicleNotFound e = false.
Proof.
  unfold service.GetVehicleByExternalID. cbn.
  destruct (List.find _ (service.rows t)); intros Heq; inversion Heq; subst.
  split; reflexivity.
Qed.

(** Hence a well-formed request of the token's owner whose VIN matches no
    stored external id is answered 500 and the table is left as it was. *)
Lemma RegisterVehicle_unknown_is_500
    (fetch : Z -> controllers.Vehicle + error) (upsFaults : service.faults)
    (walletAddress vin : string) (tokenID : Z) (v : controllers.Vehicle)
    (t : gmap string Vin) (e : error) :
  String.length vin = 17%nat ->
  fetch tokenID = inl v ->
  controllers.TokenID v <> 0 ->
  controllers.Owner v = walletAddress ->
  service.GetVehicleByExternalID service.noFaults t vin = (None, Some e) ->
  controllers.RegisterVehicle fetch service.noFaults upsFaults (Some walletAddress)
    (controllers.mkRegisterBody (Some vin) (Some tokenID)) t
  = (controllers.mkResponse controllers.StatusInternalServerError
       (controllers.ErrorBody "Failed to load vehicle from Database"), t).
Proof.
  intros Hlen Hfetch Htok Howner Hget.
  destruct (GetVehicleByExternalID_not_sentinel _ _ _ _ Hget) as [_ Hne].
  unfold controllers.RegisterVehicle.
  cbn -[service.GetVehicleByExternalID].
  rewrite Hlen. cbn -[service.GetVehicleByExternalID]. rewrite Hfetch.
  destruct (Z.eqb_spec (controllers.TokenID v) 0) as [|_]; [contradiction |].
  rewrite Howner, String.eqb_refl. cbn -[service.GetVehicleByExternalID].
  rewrite Hget, Hne. reflexivity.
Qed.

(** C5. The caller owns token 7 and registers a VIN. With an empty store
    the handler answers 500 and upserts nothing, where the specification
    has it upsert and answer 200; with a stored row that links the VIN to
    token 5 the handler answers 500 as well, where the specification has
    409. *)
Theorem RegisterVehicle_unregistered_vin_is_500 :
  let request := controllers.mkRegisterBody (Some sample.vinA) (Some 7) in
  let failed t :=
    (controllers.mkResponse 500
       (controllers.ErrorBody "Failed to load vehicle from Database"), t) in
  controllers.RegisterVehicle sample.identity service.noFaults service.noFaults
    (Some sample.wallet) request ∅ = failed ∅ /\
  controllers.RegisterVehicle sample.identity service.noFaults service.noFaults
    (Some sample.wallet) request {[sample.vinA := sample.linkedTo5]}
  = failed {[sample.vinA := sample.linkedTo5]}.
Proof.
  cbv zeta. split.
  - eapply RegisterVehicle_unknown_is_500 with (e := New "vehicle not found");
      try reflexivity.
    cbn. discriminate.
  - eapply RegisterVehicle_unknown_is_500 with (e := New "vehicle not found");
      try reflexivity.
    cbn. discriminate.
Qed.

(** ** Duplicate detection in the VIN lists *)

Lemma Compact_length_le (l : list string) :
  (length (controllers.Compact l) <= length l)%nat.
Proof.
  induction l as [|x rest IH]; [reflexivity |].
  destruct rest as [|y rest']; [reflexivity |].
  change (controllers.Compact (x :: y :: rest'))
    with (if String.eqb x y then controllers.Compact (y :: rest')
          else x :: controllers.Compact (y :: rest')).
  destruct (String.eqb x y); cbn [length] in *; lia.
Qed.

(** Two equal neighbours always shorten the list... *)
Lemma Compact_adjacent_shorter (l1 l2 : list string) (x : string) :
  (length (controllers.Compact (l1 ++ x :: x :: l2))
   < length (l1 ++ x :: x :: l2))%nat.
Proof.
  induction l1 as [|a l1 IH].
  - change (controllers.Compact ([] ++ x :: x :: l2)%list)
      with (if String.eqb x x then controllers.Compact (x :: l2)
            else x :: controllers.Compact (x :: l2)).
    rewrite String.eqb_refl.
    pose proof (Compact_length_le (x :: l2)). cbn [length app] in *. lia.
  - destruct (l1 ++ x :: x :: l2)%list as [|b rest] eqn:Hrest.
    + destruct l1; discriminate.
    + change (controllers.Compact ((a :: l1) ++ x :: x :: l2)%list)
        with (controllers.Compact (a :: (l1 ++ x :: x :: l2)%list)).
      rewrite Hrest.
      change (controllers.Compact (a :: b :: rest))
        with (if String.eqb a b then controllers.Compact (b :: rest)
              else a :: controllers.Compact (b :: rest)).
      cbn [length app]. rewrite Hrest.
      destruct (String.eqb a b); cbn [length] in *; lia.
Qed.

(** ... so the status handler answers 400, and looks nothing up, for a
    list of valid VINs in which two NEIGHBOURS are equal. *)
Lemma GetVerificationStatus_adjacent_duplicates
    (settings : config.Settings) (f : service.faults) (t : gmap string Vin)
    (l1 l2 : list string) (x : string) :
  let vins := (l1 ++ x :: x :: l2)%list in
  List.map controllers.TrimSpace vins = vins ->
  List.forallb (controllers.isValidVin settings) vins = true ->
  controllers.GetVerificationStatusForVins settings f t (controllers.Parsed vins)
  = (controllers.mkResponse 400 (controllers.ErrorBody "Duplicated VINs"), []).
Proof.
  intros vins Htrim Hvalid. unfold controllers.GetVerificationStatusForVins.
  rewrite Htrim.
  assert (Hall : List.filter (controllers.isValidVin settings) vins = vins).
  { clear Htrim. induction vins as [|v rest IH]; [reflexivity |].
    cbn in Hvalid |- *. apply andb_true_iff in Hvalid as [Hv Hrest].
    rewrite Hv, (IH Hrest). reflexivity. }
  rewrite Hall, Nat.eqb_refl. cbn [negb].
  pose proof (Compact_adjacent_shorter l1 l2 x) as Hshort. fold vins in Hshort.
  destruct (Nat.eqb_spec (length vins) (length (controllers.Compact vins)));
    [lia | reflexivity].
Qed.

(** C6. The list [A; B; A] of valid VINs repeats [A] at positions that are
    not neighbours. The status handler answers 200 after a store lookup;
    the submit handler answers 200 after a store lookup, two enqueues for
    [A] and three upserts. *)
Theorem nonadjacent_duplicates_are_accepted :
  let A := sample.vinA in
  let B := sample.vinB in
  let get := controllers.GetVerificationStatusForVins sample.settings
               service.noFaults ∅
               (controllers.Parsed [A; B; A]) in
  let post := controllers.SubmitVerificationForVins sample.settings
                controllers.quiet ∅
                (controllers.Parsed
                   [controllers.mkVinCC A "USA"; controllers.mkVinCC B "USA";
                    controllers.mkVinCC A "USA"]) in
  controllers.code (fst get) = 200 /\
  snd get = [controllers.StoreLookup [A; B; A]] /\
  controllers.code (fst (fst post)) = 200 /\
  snd post =
    [controllers.StoreLookup [A; B; A];
     controllers.Enqueue A "USA"; controllers.StoreUpsert (newVin A 0);
     controllers.Enqueue B "USA"; controllers.StoreUpsert (newVin B 0);
     controllers.Enqueue A "USA"; controllers.StoreUpsert (newVin A 0)].
Proof.
  cbv zeta. repeat split; vm_compute; reflexivity.
Qed.

(** ** Telemetry forwarder *)

Lemma telemetry_wellFormed :
  @props.wellFormed sample.ingest sample.telemetry sample.vinA.
Proof.
  unfold props.wellFormed, sample.telemetry.
  do 3 eexists. split; [reflexivity |]. split; [reflexivity |].
  split; [discriminate |]. split; [reflexivity |].
  split; vm_compute; reflexivity.
Qed.

Section Forwarder.
Import oracle props.
Context `{E : Env}.
Variable settings : config.Settings.

(** The handler never writes the store, and the only entry it adds to the
    cache is a row it has just read. *)
Lemma HandleDeviceByVIN_cache (msg : message) (s : state) :
  let s' := snd (HandleDeviceByVIN settings msg s) in
  store s' = store s /\
  (cache s' = cache s \/
   exists vin r, store s !! vin = Some r /\ cache s' = <[vin := r]> (cache s)).
Proof.
  unfold HandleDeviceByVIN, HandleSendToDIS, service.GetVehicleByVin.
  repeat case_match; simplify_eq; cbn; eauto 10.
Qed.

Lemma HandleDeviceByVIN_cacheSound (msg : message) (s : state) :
  cacheSound s -> cacheSound (snd (HandleDeviceByVIN settings msg s)).
Proof.
  intros Hsound vin r.
  destruct (HandleDeviceByVIN_cache msg s) as [Hstore [Hcache | (v & row & Hrow & Hcache)]];
    rewrite Hstore, Hcache.
  - apply Hsound.
  - rewrite lookup_insert. case_decide as Hv.
    + subst v. intros _. rewrite Hrow. eauto.
    + apply Hsound.
Qed.

Variables (msg : message) (vin : string) (s : state).
Hypothesis Hmsg : wellFormed msg vin.

(** With no stored row, and a cache that holds copies of stored rows only,
    the handler returns the store's error and hands nothing to the ingest
    client. *)
Lemma forwarder_missing_record :
  cacheSound s ->
  store s !! vin = None ->
  exists e, fst (HandleDeviceByVIN settings msg s) = Some e /\
            forwarded (snd (HandleDeviceByVIN settings msg s)) = forwarded s.
Proof.
  intros Hsound Hstore.
  assert (Hcache : cache s !! vin = None).
  { destruct (cache s !! vin) as [r|] eqn:Hc; [| reflexivity].
    destruct (Hsound _ _ Hc) as [row Hrow]. congruence. }
  destruct Hmsg as (ce & raw & data & -> & Hdata & Htype & Hdec & Hvin & Hsig).
  unfold HandleDeviceByVIN, ParseCloudEvent.
  rewrite Hdata. rewrite bool_decide_eq_false_2 by discriminate.
  destruct (String.eqb_spec (Type_ ce) ""); [contradiction |].
  cbn [orb]. rewrite Hdata, Hdec, Hvin, Hsig, Hcache.
  unfold service.GetVehicleByVin. rewrite Hstore.
  destruct (service.beginErr dbFaults); cbn; [eauto |].
  destruct (service.fetchErr dbFaults) as [err|]; cbn; [| eauto].
  destruct (IsNoRows err); cbn; eauto.
Qed.

(** When the record the handler works with has vehicle_token_id 0 the
    handler returns nil and hands nothing to the ingest client. *)
Lemma forwarder_drops_unminted (r : Vin) :
  lookedUp s vin r ->
  null.Int64_ (VehicleTokenID r) = 0 ->
  fst (HandleDeviceByVIN settings msg s) = None /\
  forwarded (snd (HandleDeviceByVIN settings msg s)) = forwarded s.
Proof.
  intros Hlook Hzero.
  destruct Hmsg as (ce & raw & data & -> & Hdata & Htype & Hdec & Hvin & Hsig).
  unfold HandleDeviceByVIN, ParseCloudEvent.
  rewrite Hdata. rewrite bool_decide_eq_false_2 by discriminate.
  destruct (String.eqb_spec (Type_ ce) ""); [contradiction |].
  cbn [orb]. rewrite Hdata, Hdec, Hvin, Hsig.
  destruct Hlook as [Hhit | (Hmiss & Hdb & Hrow)].
  - rewrite Hhit, Hzero. cbn. split; reflexivity.
  - rewrite Hmiss. unfold service.GetVehicleByVin. rewrite Hdb. cbn.
    rewrite Hrow, Hzero. cbn. split; reflexivity.
Qed.

End Forwarder.




(** ** Synthetic-device wallets *)

Section Wallets.
Import sdwallets.
Context `{L : KeyLibrary} {Laws : KeyLibraryLaws L}.
Variable key : ExtendedKey.

(** Indices from 2^31 on are refused before any key is derived. *)
Lemma getPrivateKey_hardened_index (index : Z) :
  2 ^ 31 <= index ->
  getPrivateKey key index
  = Err (New ("child_number " +:+ pretty index +:+ " >= 2^31")).
Proof.
  intros Hidx. unfold getPrivateKey, HardenedKeyStart.
  destruct (Z.leb_spec 2147483648 index); [reflexivity | lia].
Qed.

(** Below 2^31 the child at the hardened offset is derived. *)
Lemma getPrivateKey_derives (index : Z) :
  0 <= index < 2 ^ 31 ->
  exists pk, getPrivateKey key index = Ok pk.
Proof.
  intros Hidx. unfold getPrivateKey, HardenedKeyStart, add32.
  destruct (Z.leb_spec 2147483648 index); [lia |].
  rewrite Z.mod_small by lia.
  destruct (Derive_hardened key (2147483648 + index)) as [child ->]; [lia |].
  destruct (ECPrivKey_private child) as [pk ->].
  destruct (ToECDSA_serialized pk) as [k ->]. eauto.
Qed.

End Wallets.


(** The stand-in library has the behaviour the wallet relies on. *)
Lemma paths_laws : sdwallets.KeyLibraryLaws sample.paths.
Proof.
  split.
  - intros key i _. eexists. reflexivity.
  - intros child. eexists. reflexivity.
  - intros pk. eexists. reflexivity.
  - intros hash k Hlen. cbn. rewrite Hlen. eexists. reflexivity.
  - intros hash k sig. cbn.
    destruct (Nat.eqb_spec (length hash) 32) as [Hlen|]; [| discriminate].
    intros [= <-]. split.
    + rewrite length_app, Hlen. reflexivity.
    + exists 1. split; [| right; reflexivity].
      rewrite lookup_app_r by lia. rewrite Hlen. reflexivity.
Qed.


(** * Further properties of the code *)

(** ** The gates of the later phases *)

Ltac status_cases :=
  unfold IsDisconnectFailed, IsBurnPending, IsDisconnectPending, IsMintPending,
    IsPending, IsVerified, IsMinted, IsDisconnected, IsFailure in *;
  repeat match goal with
         | |- context [?a =? ?b] => destruct (Z.eqb_spec a b)
         | |- context [?a <? ?b] => destruct (Z.ltb_spec a b)
         | |- context [?a <=? ?b] => destruct (Z.leb_spec a b)
         end;
  cbn.

(** X1. The verify gate and the verification view agree: the gate admits
    a stored record exactly when the status endpoint shows it as "Failure"
    or "Unknown"; a record shown as "Pending" or "Success" is never
    resubmitted. *)
Theorem verify_gate_reads_view (r : Vin) :
  controllers.canSubmitVerificationJob (Some r) = true <->
  GetVerificationStatus (OnboardingStatus r) = "Failure"
  \/ GetVerificationStatus (OnboardingStatus r) = "Unknown".
Proof.
  unfold controllers.canSubmitVerificationJob, GetVerificationStatus.
  generalize (OnboardingStatus r); intros s.
  status_cases; split; intros Hadm; try discriminate; try reflexivity;
    try (destruct Hadm; discriminate); auto.
Qed.

(** X2. The disconnect gate refuses nil and admits a record exactly at
    MintSuccess(53) and at the three failures of the disconnect phase,
    DisconnectSubmitFailure(62), DisconnectFailure(72) and
    BurnSDFailure(82). *)
Theorem canSubmitDisconnectJob_spec :
  controllers.canSubmitDisconnectJob None = false /\
  forall r : Vin,
    let s := OnboardingStatus r in
    controllers.canSubmitDisconnectJob (Some r) = true <->
    s = 53 \/ s = 62 \/ s = 72 \/ s = 82.
Proof.
  split; [reflexivity |]. intros r s. subst s.
  unfold controllers.canSubmitDisconnectJob.
  generalize (OnboardingStatus r); intros s. split.
  - intros Hadm. apply andb_true_iff in Hadm as [Hany _].
    unfold IsMinted, IsDisconnectFailed in Hany.
    repeat (apply orb_true_iff in Hany as [Hany | Hany]);
      apply Z.eqb_eq in Hany; vm_compute in Hany; lia.
  - intros [-> | [-> | [-> | ->]]]; reflexivity.
Qed.

(** X3. The delete gate refuses nil and admits a record exactly when it is
    at BurnSDSuccess(83) or a failure (status % 10 == 2) and not strictly
    between DeleteSubmitUnknown(90) and BurnVehicleSuccess(103). The two
    failures of the delete phase itself, DeleteSubmitFailure(92) and
    BurnVehicleFailure(102), lie inside that window: a failed delete is
    never admitted again. *)
Theorem canSubmitDeleteJob_spec :
  controllers.canSubmitDeleteJob None = false /\
  forall r : Vin,
    let s := OnboardingStatus r in
    (controllers.canSubmitDeleteJob (Some r) = true <->
     (s = 83 \/ Z.rem s 10 = 2) /\ ~ (90 < s < 103)) /\
    (s = 92 \/ s = 102 -> controllers.canSubmitDeleteJob (Some r) = false).
Proof.
  split; [reflexivity |]. intros r s. subst s.
  unfold controllers.canSubmitDeleteJob.
  generalize (OnboardingStatus r); intros s. split.
  - unfold IsDisconnected, IsBurnPending, IsFailure,
      OnboardingStatusBurnSDSuccess, OnboardingStatusDeleteSubmitUnknown,
      OnboardingStatusBurnVehicleSuccess.
    generalize (Z.rem s 10); intros m.
    destruct (Z.eqb_spec s 83), (Z.eqb_spec m 2), (Z.ltb_spec 90 s),
      (Z.ltb_spec s 103); cbn; split; intros Hadm; try discriminate;
      try reflexivity; intuition lia.
  - intros [-> | ->]; reflexivity.
Qed.

(** ** The vehicle store *)

Lemma elem_of_rows (t : gmap string Vin) (r : Vin) :
  r ∈ service.rows t <-> exists k, t !! k = Some r.
Proof.
  unfold service.rows. rewrite list_elem_of_fmap. split.
  - intros ([k r'] & -> & Hin). apply elem_of_map_to_list in Hin. eauto.
  - intros [k Hk]. exists (k, r). split; [reflexivity |].
    apply elem_of_map_to_list. exact Hk.
Qed.

Lemma elem_of_rows_keyed (t : gmap string Vin) (r : Vin) :
  props.keyed t -> r ∈ service.rows t <-> t !! Vin_ r = Some r.
Proof.
  intros Hkeyed. rewrite elem_of_rows. split.
  - intros [k Hk]. rewrite (Hkeyed _ _ Hk). exact Hk.
  - eauto.
Qed.

Lemma keyed_insert (t : gmap string Vin) (r : Vin) :
  props.keyed t -> props.keyed (<[Vin_ r := r]> t).
Proof.
  intros Hkeyed k r'. rewrite lookup_insert. case_decide as Hk.
  - intros [= <-]. exact Hk.
  - apply Hkeyed.
Qed.

Lemma keyed_empty : props.keyed ∅.
Proof. intros k r Hl. rewrite lookup_empty in Hl. discriminate Hl. Qed.

Lemma keyed_singleton (r : Vin) : props.keyed {[Vin_ r := r]}.
Proof. intros k r' Hl. apply lookup_singleton_Some in Hl as [<- <-]. reflexivity. Qed.

Lemma elem_of_List_filter {A} (p : A -> bool) (l : list A) (x : A) :
  x ∈ List.filter p l <-> x ∈ l /\ p x = true.
Proof. rewrite !list_elem_of_In. apply List.filter_In. Qed.

(** X4. An upsert that returns nil stores the record under its VIN, where
    the lookup by VIN finds it, leaves every other row alone and keeps the
    primary-key constraint; an upsert that returns an error leaves the
    table as it was. *)
Theorem InsertOrUpdateVin_roundtrip
    (f : service.faults) (t : gmap string Vin) (vin : Vin) :
  let out := service.InsertOrUpdateVin f t vin in
  match snd out with
  | None =>
      service.GetVehicleByVin service.noFaults (fst out) (Vin_ vin) = inl vin /\
      (forall k, k <> Vin_ vin -> fst out !! k = t !! k) /\
      (props.keyed t -> props.keyed (fst out))
  | Some _ => fst out = t
  end.
Proof.
  cbv zeta. unfold service.InsertOrUpdateVin.
  destruct (service.beginErr f); [reflexivity |].
  destruct (service.writeErr f); [reflexivity |].
  destruct (service.commitErr f); [reflexivity |].
  cbn [fst snd]. split; [| split].
  - unfold service.GetVehicleByVin. cbn. rewrite lookup_insert_eq. reflexivity.
  - intros k Hk. apply lookup_insert_ne. congruence.
  - apply keyed_insert.
Qed.

(** X5. With the database answering, the range query returns exactly the
    stored rows whose VIN is in the list and whose status lies in
    [lo, hi] or is one of the additional statuses; the query by one
    status is the range query on [status, status] with no additional
    status. *)
Theorem range_query_spec
    (t : gmap string Vin) (ids : list string) (lo hi : Z) (extra : list Z) :
  props.keyed t ->
  let range := service.GetVehiclesByVinsAndOnboardingStatusRange
                 service.noFaults t ids lo hi extra in
  snd range = None /\
  (forall r : Vin,
     r ∈ fst range <->
     t !! Vin_ r = Some r /\ Vin_ r ∈ ids /\
     (lo <= OnboardingStatus r <= hi \/ OnboardingStatus r ∈ extra)) /\
  (forall status : Z,
     service.GetVehiclesByVinsAndOnboardingStatus service.noFaults t ids status
     = service.GetVehiclesByVinsAndOnboardingStatusRange
         service.noFaults t ids status status []).
Proof.
  intros Hkeyed range. subst range.
  unfold service.GetVehiclesByVinsAndOnboardingStatusRange,
    service.GetVehiclesByVinsAndOnboardingStatus.
  split; [destruct extra; reflexivity |]. split.
  - intros r. destruct extra as [|x extra]; cbn.
    + rewrite elem_of_List_filter, (elem_of_rows_keyed _ _ Hkeyed).
      rewrite !andb_true_iff, bool_decide_eq_true, Z.leb_le, Z.leb_le.
      split.
      * intros (Hrow & (Hid & Hlo) & Hhi). auto.
      * intros (Hrow & Hid & [Hin | Hin]); [tauto |].
        apply elem_of_nil in Hin. contradiction.
    + rewrite elem_of_List_filter, (elem_of_rows_keyed _ _ Hkeyed).
      rewrite andb_true_iff, orb_true_iff, andb_true_iff,
        !bool_decide_eq_true, Z.leb_le, Z.leb_le.
      tauto.
  - intros status. cbn. f_equal. apply List.filter_ext. intros r.
    rewrite <- andb_assoc. f_equal.
    destruct (Z.eqb_spec (OnboardingStatus r) status) as [-> | Hne].
    + rewrite Z.leb_refl. reflexivity.
    + destruct (Z.leb_spec status (OnboardingStatus r)),
        (Z.leb_spec (OnboardingStatus r) status); cbn; try reflexivity; lia.
Qed.

(** Witness of [range_query_spec]: the window of the disconnect phase on a
    table holding one minted record. *)
Lemma range_query_spec_witness :
  props.keyed {[sample.vinA := sample.minted]} /\
  sample.minted
  ∈ fst (service.GetVehiclesByVinsAndOnboardingStatusRange service.noFaults
           {[sample.vinA := sample.minted]} [sample.vinA]
           OnboardingStatusMintSuccess OnboardingStatusBurnSDFailure []).
Proof.
  assert (Hk : props.keyed {[sample.vinA := sample.minted]})
    by exact (keyed_singleton sample.minted).
  split; [exact Hk |].
  destruct (range_query_spec _ [sample.vinA] OnboardingStatusMintSuccess
              OnboardingStatusBurnSDFailure [] Hk) as (_ & Hrows & _).
  apply Hrows. split; [vm_compute; reflexivity |].
  split; [apply list_elem_of_here |]. left. vm_compute. split; discriminate.
Defined.

(** X6. The two enrollment updates are all-or-nothing: a call that returns
    an error leaves the table unchanged, and a call for a VIN without a row
    always returns an error (the wrapped "no rows" error when the database
    answers), so neither function ever creates a row. *)
Theorem enrollment_updates_atomic
    (f : service.faults) (t : gmap string Vin)
    (vin status externalID : string) (error : option service.OperationError) :
  let en := service.UpdateEnrollmentStatus f t vin status externalID error in
  let un := service.UpdateUnenrollmentStatus f t vin status error in
  (snd en <> None -> fst en = t) /\
  (snd un <> None -> fst un = t) /\
  (t !! vin = None ->
   (exists e, snd en = Some e) /\ (exists e, snd un = Some e) /\
   (f = service.noFaults ->
    snd en = Some (Wrap "failed to fetch VIN record" ErrNoRows) /\
    snd un = Some (Wrap "failed to fetch VIN record" ErrNoRows))).
Proof.
  cbv zeta. unfold service.UpdateEnrollmentStatus, service.UpdateUnenrollmentStatus.
  split; [| split].
  - destruct (service.beginErr f); [reflexivity |].
    destruct (service.fetchErr f); [reflexivity |].
    destruct (t !! vin); [| reflexivity].
    destruct (service.writeErr f); [reflexivity |].
    destruct (service.commitErr f); [reflexivity |]. cbn. congruence.
  - destruct (service.beginErr f); [reflexivity |].
    destruct (service.fetchErr f); [reflexivity |].
    destruct (t !! vin); [| reflexivity].
    destruct (service.writeErr f); [reflexivity |].
    destruct (service.commitErr f); [reflexivity |]. cbn. congruence.
  - intros ->. split; [| split].
    + destruct (service.beginErr f); [eauto |].
      destruct (service.fetchErr f); cbn; eauto.
    + destruct (service.beginErr f); [eauto |].
      destruct (service.fetchErr f); cbn; eauto.
    + intros ->. cbn. split; reflexivity.
Qed.

(** X7. Enrollment followed by unenrollment, both reported as succeeded:
    after the first the row is linked (connection_status "succeeded", the
    vendor's id in external_id, disconnection_status null) and the lookup
    by external id finds a row with that id; after the second the link is
    gone (connection_status and external_id null, disconnection_status
    "succeeded") and the VIN, status, tokens, wallet index and definition
    are those of the row before both. *)
Theorem enroll_then_unenroll
    (t : gmap string Vin) (vin externalID : string) (r : Vin) :
  props.keyed t ->
  t !! vin = Some r ->
  let en := service.UpdateEnrollmentStatus service.noFaults t vin
              "succeeded" externalID None in
  let un := service.UpdateUnenrollmentStatus service.noFaults (fst en) vin
              "succeeded" None in
  snd en = None /\ snd un = None /\
  (exists r1,
     fst en !! vin = Some r1 /\
     ConnectionStatus r1 = null.StringFrom "succeeded" /\
     ExternalID r1 = null.StringFrom externalID /\
     DisconnectionStatus r1 = null.mkString "" false) /\
  (exists found,
     service.GetVehicleByExternalID service.noFaults (fst en) externalID
     = (Some found, None) /\
     ExternalID found = null.StringFrom externalID) /\
  (exists r2,
     fst un !! vin = Some r2 /\
     ConnectionStatus r2 = null.mkString "" false /\
     ExternalID r2 = null.mkString "" false /\
     DisconnectionStatus r2 = null.StringFrom "succeeded" /\
     props.sameIdentity r r2).
Proof.
  intros Hkeyed Hrow en un.
  pose proof (Hkeyed _ _ Hrow) as Hkey.
  set (r1 := writeColumns service.enrollmentColumns
               (service.setOperationError None
                  (service.setConnection (null.StringFrom "succeeded")
                     (null.StringFrom externalID) (null.mkString "" false) r)) r).
  assert (Hen : en = (<[vin := r1]> t, None)).
  { subst en. unfold service.UpdateEnrollmentStatus. cbn. rewrite Hrow. cbn.
    unfold Update. cbn. rewrite Hkey, Hrow. reflexivity. }
  clearbody en. subst en. cbn [fst snd] in *.
  assert (Hr1 : <[vin := r1]> t !! vin = Some r1) by apply lookup_insert_eq.
  set (r2 := writeColumns service.enrollmentColumns
               (service.setOperationError None
                  (service.setConnection (null.mkString "" false)
                     (null.mkString "" false) (null.StringFrom "succeeded") r1)) r1).
  assert (Hun : un = (<[vin := r2]> (<[vin := r1]> t), None)).
  { subst un. unfold service.UpdateUnenrollmentStatus.
    cbn -[insert]. rewrite Hr1. cbn -[insert].
    unfold Update. cbn -[insert]. rewrite Hkey, Hr1. reflexivity. }
  clearbody un. subst un. cbn [fst snd].
  split; [reflexivity |]. split; [reflexivity |].
  split; [exists r1; repeat split; exact Hr1 |]. split.
  - unfold service.GetVehicleByExternalID. cbn -[insert].
    destruct (List.find _ (service.rows (<[vin := r1]> t))) as [found|] eqn:Hfind.
    + exists found. split; [reflexivity |].
      apply List.find_some in Hfind as [_ Hp].
      apply andb_true_iff in Hp as [Hvalid Heq]. apply String.eqb_eq in Heq.
      destruct (ExternalID found) as [s v]. cbn in *. subst. reflexivity.
    + exfalso.
      assert (Hin : In r1 (service.rows (<[vin := r1]> t)))
        by (apply list_elem_of_In, elem_of_rows; eauto).
      pose proof (List.find_none _ _ Hfind r1 Hin) as Hp.
      cbn in Hp. rewrite String.eqb_refl in Hp. discriminate Hp.
  - exists r2. split; [apply lookup_insert_eq |]. repeat split.
Qed.

(** Witness of [enroll_then_unenroll] on a table holding one minted
    record. *)
Lemma enroll_then_unenroll_witness :
  props.keyed {[sample.vinA := sample.minted]} /\
  ({[sample.vinA := sample.minted]} : gmap string Vin) !! sample.vinA
  = Some sample.minted /\
  snd (service.UpdateEnrollmentStatus service.noFaults
         {[sample.vinA := sample.minted]} sample.vinA "succeeded" "veh-1" None)
  = None.
Proof.
  assert (Hk : props.keyed {[sample.vinA := sample.minted]})
    by exact (keyed_singleton sample.minted).
  assert (Hrow : ({[sample.vinA := sample.minted]} : gmap string Vin) !! sample.vinA
                 = Some sample.minted) by (vm_compute; reflexivity).
  split; [exact Hk |]. split; [exact Hrow |].
  exact (proj1 (enroll_then_unenroll _ sample.vinA "veh-1" sample.minted Hk Hrow)).
Defined.

(** ** Verify worker: decoding and the whole job *)

Lemma waitForDeviceDefinition_first `{I : onboarding.IdentityAPI}
    (id : string) (n i k : nat) (d : onboarding.DeviceDefinition) :
  (k < n)%nat ->
  (forall j, (j < k)%nat ->
     onboarding.ready (onboarding.FetchDeviceDefinitionByID (i + j) id) = None) ->
  onboarding.ready (onboarding.FetchDeviceDefinitionByID (i + k) id) = Some d ->
  onboarding.waitForDeviceDefinition id i n = ((Some d, None), k).
Proof.
  revert i k. induction n as [|n IH]; intros i k Hk Hbefore Hat; [lia |].
  cbn [onboarding.waitForDeviceDefinition].
  destruct k as [|k].
  - rewrite Nat.add_0_r in Hat. rewrite Hat. reflexivity.
  - pose proof (Hbefore 0%nat ltac:(lia)) as H0. rewrite Nat.add_0_r in H0.
    rewrite H0, (IH (S i) k); [reflexivity | lia | |].
    + intros j Hj. replace (S i + j)%nat with (i + S j)%nat by lia.
      apply Hbefore. lia.
    + replace (S i + k)%nat with (i + S k)%nat by lia. exact Hat.
Qed.

Lemma waitForDeviceDefinition_none `{I : onboarding.IdentityAPI}
    (id : string) (n i : nat) :
  (forall j, (j < n)%nat ->
     onboarding.ready (onboarding.FetchDeviceDefinitionByID (i + j) id) = None) ->
  onboarding.waitForDeviceDefinition id i n
  = ((None, Some (New "device definition not found")), n).
Proof.
  revert i. induction n as [|n IH]; intros i Hnone; [reflexivity |].
  cbn [onboarding.waitForDeviceDefinition].
  pose proof (Hnone 0%nat ltac:(lia)) as H0. rewrite Nat.add_0_r in H0.
  rewrite H0, IH; [reflexivity |].
  intros j Hj. replace (S i + j)%nat with (i + S j)%nat by lia.
  apply Hnone. lia.
Qed.

(** X8. The wait for a device definition polls the identity service at
    most 12 times: it returns the first answer that carries a definition
    with a non-empty id, after one 5-second sleep per earlier answer, and
    gives up with the error "device definition not found" after 12 sleeps
    when none of the first 12 answers does. *)
Theorem getOrWaitForDeviceDefinition_spec `{I : onboarding.IdentityAPI}
    (id : string) :
  let answer i := onboarding.ready (onboarding.FetchDeviceDefinitionByID i id) in
  (forall k d,
     (k < 12)%nat ->
     (forall j, (j < k)%nat -> answer j = None) ->
     answer k = Some d ->
     onboarding.getOrWaitForDeviceDefinition id = ((Some d, None), k)) /\
  ((forall j, (j < 12)%nat -> answer j = None) ->
   onboarding.getOrWaitForDeviceDefinition id
   = ((None, Some (New "device definition not found")), 12%nat)).
Proof.
  intros answer. subst answer. split.
  - intros k d Hk Hbefore Hat.
    apply waitForDeviceDefinition_first; [exact Hk | exact Hbefore | exact Hat].
  - intros Hnone. apply waitForDeviceDefinition_none. exact Hnone.
Qed.

(** *** Stepping through a run *)

Section Steps.
Import run.

Lemma bind_Done {A B} (m : run.M A) (f : A -> run.M B) (s s' : run.state) (a : A) :
  m s = run.Done a s' -> (m ≫= f) s = f a s'.
Proof. intros Hm. unfold mbind, run.M_bind. rewrite Hm. reflexivity. Qed.

Lemma defer_Done {A} (d : run.M unit) (body : run.M A) (s s' s'' : run.state) (a : A) :
  body s = run.Done a s' -> d s' = run.Done tt s'' ->
  run.defer d body s = run.Done a s''.
Proof. intros Hb Hd. unfold run.defer. rewrite Hb, Hd. reflexivity. Qed.

Lemma assign_Done (f : Vin -> Vin) (s : run.state) (r : Vin) :
  run.record s = Some r ->
  run.assign f s = run.Done tt (run.setRecord (Some (f r)) s).
Proof. intros Hr. unfold run.assign. rewrite Hr. reflexivity. Qed.

Lemma get_Done (s : run.state) : onboarding.get s = run.Done (run.record s) s.
Proof. reflexivity. Qed.

Lemma update_Done (cols : list Column) (s : run.state) (r : Vin) :
  props.answering s -> run.record s = Some r ->
  run.update cols s = run.Done None (run.setDb (Update cols r (run.db s)) s).
Proof.
  intros (Hb & Hw & Hc) Hr. unfold run.update. rewrite Hb, Hr, Hw. cbn.
  rewrite Hc. reflexivity.
Qed.

Lemma updateInfer_Done (s : run.state) (r : Vin) :
  run.dbWrite s = None -> run.record s = Some r ->
  run.updateInfer s = run.Done tt (run.setDb (Update allColumns r (run.db s)) s).
Proof. intros Hw Hr. unfold run.updateInfer. rewrite Hr, Hw. reflexivity. Qed.

Lemma Lock_Done (s : state) : Lock s = Done tt (setLocked true s).
Proof. reflexivity. Qed.

Lemma Unlock_Done (s : state) :
  locked s = true -> Unlock s = Done tt (setLocked (contended s) s).
Proof. intros Hl. unfold Unlock. rewrite Hl. reflexivity. Qed.

Lemma send_Done `{C : Client} (op : UserOperation) (s : state) :
  send op s = Done (SendSignedUserOperation op) (addSubmitted op s).
Proof. reflexivity. Qed.

Lemma GetVinRecord_Done (vin : string) (row : Vin) (s0 : state) :
  db s0 !! vin = Some row ->
  onboarding.GetVinRecord None vin s0 = Done None (setRecord (Some row) s0).
Proof. intros H0. unfold onboarding.GetVinRecord. rewrite H0. reflexivity. Qed.

Lemma writeColumns_all (mem row : Vin) :
  Vin_ mem = Vin_ row -> writeColumns allColumns mem row = mem.
Proof. destruct mem. cbn. intros ->. reflexivity. Qed.

Lemma Update_all_lookup (mem row : Vin) (t : gmap string Vin) :
  t !! Vin_ mem = Some row -> Vin_ row = Vin_ mem ->
  Update allColumns mem t = <[Vin_ mem := mem]> t.
Proof.
  intros Hrow Hkey. unfold Update. rewrite Hrow.
  rewrite writeColumns_all by congruence. reflexivity.
Qed.

Lemma Update_lookup (cols : list Column) (mem row : Vin) (t : gmap string Vin) :
  t !! Vin_ mem = Some row ->
  Update cols mem t !! Vin_ mem = Some (writeColumns cols mem row).
Proof. intros Hrow. unfold Update. rewrite Hrow. apply lookup_insert_eq. Qed.

End Steps.

Ltac deferred_write Hwrite :=
  unfold run.updateInfer;
  cbn [run.record run.setRecord run.setDb run.dbWrite run.db];
  rewrite Hwrite; reflexivity.

Ltac db_ok H :=
  first [ exact H
        | repeat split; cbn [run.dbBegin run.dbWrite run.dbCommit run.setRecord
                              run.setDb run.setLocked run.addSubmitted];
          apply H ].

Section VerifyStages.
Import run onboarding.
Context `{D : DeviceDefinitionsAPI} `{I : IdentityAPI}.
Variable args : VerifyArgs.
Variables (s : state) (r : Vin).
Hypothesis Hrec : record s = Some r.
Hypothesis Hwrite : dbWrite s = None.

Lemma DecodeVinAndUpdate_decoded :
  OnboardingStatusDecodingSuccess <= OnboardingStatus r ->
  null.SValid (DeviceDefinitionID r) = true ->
  null.String_ (DeviceDefinitionID r) <> "" ->
  let r' := setOnboardingStatus OnboardingStatusDecodingSuccess r in
  DecodeVinAndUpdate args s
  = Done None (setDb (Update allColumns r' (db s)) (setRecord (Some r') s)).
Proof.
  intros Hmin Hvalid Hid r'.
  unfold DecodeVinAndUpdate. eapply defer_Done.
  - rewrite (bind_Done _ _ s s (record s)) by reflexivity. rewrite Hrec.
    destruct (Z.ltb_spec (OnboardingStatus r) OnboardingStatusDecodingSuccess);
      [lia |].
    unfold null.SIsZero. rewrite Hvalid.
    destruct (null.String_ (DeviceDefinitionID r)) eqn:Hs; [contradiction |].
    cbn [negb orb String.length Nat.eqb].
    erewrite bind_Done by (apply assign_Done; exact Hrec). reflexivity.
  - deferred_write Hwrite.
Qed.

Lemma DecodeVinAndUpdate_decodes decoded dd slept :
  OnboardingStatus r < OnboardingStatusDecodingSuccess ->
  DecodeVin (vaVIN args) (vaCountryCode args) = (Some decoded, None) ->
  getOrWaitForDeviceDefinition (dvDeviceDefinitionID decoded)
  = ((Some dd, None), slept) ->
  let r11 := setOnboardingStatus OnboardingStatusDecodingPending r in
  let r' := setOnboardingStatus OnboardingStatusDecodingSuccess
              (controllers.withDeviceDefinitionID
                 (null.SetValid (ddDeviceDefinitionID dd)) r11) in
  DecodeVinAndUpdate args s
  = Done None (setDb (Update allColumns r' (Update allColumns r11 (db s)))
                 (setRecord (Some r') s)).
Proof.
  intros Hlt Hdec Hdd r11 r'.
  unfold DecodeVinAndUpdate. eapply defer_Done.
  - rewrite (bind_Done _ _ s s (record s)) by reflexivity. rewrite Hrec.
    destruct (Z.ltb_spec (OnboardingStatus r) OnboardingStatusDecodingSuccess);
      [| lia].
    cbn [orb].
    erewrite bind_Done by (apply assign_Done; exact Hrec).
    erewrite bind_Done by (apply updateInfer_Done; [exact Hwrite | reflexivity]).
    rewrite Hdec, Hdd. cbn [fst].
    erewrite bind_Done by (apply assign_Done; reflexivity).
    erewrite bind_Done by (apply assign_Done; reflexivity).
    reflexivity.
  - deferred_write Hwrite.
Qed.

Lemma DecodeVinAndUpdate_fails decoded e :
  OnboardingStatus r < OnboardingStatusDecodingSuccess ->
  DecodeVin (vaVIN args) (vaCountryCode args) = (decoded, Some e) ->
  let r11 := setOnboardingStatus OnboardingStatusDecodingPending r in
  let r' := setOnboardingStatus OnboardingStatusDecodingFailure r11 in
  DecodeVinAndUpdate args s
  = Done (Some e) (setDb (Update allColumns r' (Update allColumns r11 (db s)))
                     (setRecord (Some r') s)).
Proof.
  intros Hlt Hdec r11 r'.
  unfold DecodeVinAndUpdate. eapply defer_Done.
  - rewrite (bind_Done _ _ s s (record s)) by reflexivity. rewrite Hrec.
    destruct (Z.ltb_spec (OnboardingStatus r) OnboardingStatusDecodingSuccess);
      [| lia].
    cbn [orb].
    erewrite bind_Done by (apply assign_Done; exact Hrec).
    erewrite bind_Done by (apply updateInfer_Done; [exact Hwrite | reflexivity]).
    rewrite Hdec.
    erewrite bind_Done by (apply assign_Done; reflexivity).
    reflexivity.
  - deferred_write Hwrite.
Qed.

Lemma DecodeVinAndUpdate_gives_up decoded dd e slept :
  OnboardingStatus r < OnboardingStatusDecodingSuccess ->
  DecodeVin (vaVIN args) (vaCountryCode args) = (Some decoded, None) ->
  getOrWaitForDeviceDefinition (dvDeviceDefinitionID decoded)
  = ((dd, Some e), slept) ->
  let r11 := setOnboardingStatus OnboardingStatusDecodingPending r in
  let r' := setOnboardingStatus OnboardingStatusDecodingFailure r11 in
  DecodeVinAndUpdate args s
  = Done (Some e) (setDb (Update allColumns r' (Update allColumns r11 (db s)))
                     (setRecord (Some r') s)).
Proof.
  intros Hlt Hdec Hdd r11 r'.
  unfold DecodeVinAndUpdate. eapply defer_Done.
  - rewrite (bind_Done _ _ s s (record s)) by reflexivity. rewrite Hrec.
    destruct (Z.ltb_spec (OnboardingStatus r) OnboardingStatusDecodingSuccess);
      [| lia].
    cbn [orb].
    erewrite bind_Done by (apply assign_Done; exact Hrec).
    erewrite bind_Done by (apply updateInfer_Done; [exact Hwrite | reflexivity]).
    rewrite Hdec, Hdd. cbn [fst].
    erewrite bind_Done by (apply assign_Done; reflexivity).
    reflexivity.
  - deferred_write Hwrite.
Qed.

End VerifyStages.

Section VerifyWork.
Import run onboarding.
Context `{D : DeviceDefinitionsAPI} `{I : IdentityAPI} `{V : VendorOnboardingAPI}.
Variable settings : config.Settings.
Variable insertErr : option error.
Variable args : VerifyArgs.
Variables (s : state) (r : Vin).
Hypothesis Hstart : props.startsFrom s insertErr (vaVIN args) r.
Hypothesis Hwrite : dbWrite s = None.

Lemma startsFrom_key : Vin_ r = vaVIN args.
Proof. destruct Hstart as [[_ Hk] | (_ & _ & ->)]; [exact Hk | reflexivity]. Qed.

Lemma GetOrCreateVinRecord_Done :
  exists s0,
    GetOrCreateVinRecord None insertErr args s = Done None s0 /\
    record s0 = Some r /\
    dbWrite s0 = None /\
    db s0 !! vaVIN args = Some r /\
    (forall r', <[vaVIN args := r']> (db s0) = <[vaVIN args := r']> (db s)) /\
    (forall r', setDb (<[vaVIN args := r']> (db s0)) (setRecord (Some r') s0)
                = setDb (<[vaVIN args := r']> (db s)) (setRecord (Some r') s)).
Proof.
  unfold GetOrCreateVinRecord.
  destruct Hstart as [[Hrow Hk] | (Hrow & -> & ->)]; rewrite Hrow.
  - exists (setRecord (Some r) s). repeat split; assumption.
  - cbn [IsNoRows negb]. eexists. split; [reflexivity |].
    split; [reflexivity |]. split; [exact Hwrite |].
    split; [apply lookup_insert_eq |].
    split; intros r'; cbn [db setDb setRecord]; rewrite insert_insert_eq; reflexivity.
Qed.

Lemma vendor_passes (s1 : state) (r1 : Vin) :
  record s1 = Some r1 -> dbWrite s1 = None ->
  props.vendorPasses settings (vaVIN args) ->
  ValidateWithExternalVendorAndUpdate settings args s1
  = Done None
      (setDb (Update allColumns
                (setOnboardingStatus OnboardingStatusVendorValidationSuccess r1)
                (db s1))
         (setRecord
            (Some (setOnboardingStatus OnboardingStatusVendorValidationSuccess r1))
            s1)).
Proof.
  intros Hrec Hw Hpass. unfold props.vendorPasses in Hpass.
  destruct (config.EnableVendorCapabilityCheck settings) eqn:Hon.
  - destruct Hpass as (first & rest & Hval & Hn1 & Hn2).
    rewrite (validation_enabled settings args s1 r1 Hrec first rest Hon Hval).
    rewrite Hn1, Hn2. cbn [orb]. unfold props.validated. rewrite Hw. reflexivity.
  - rewrite (validation_disabled settings args s1 r1 Hrec Hon).
    unfold props.validated. rewrite Hw. reflexivity.
Qed.

Lemma Update_all_twice (r1 r2 : Vin) (t : gmap string Vin) :
  Vin_ r1 = vaVIN args -> Vin_ r2 = vaVIN args ->
  t !! vaVIN args = Some r ->
  Update allColumns r2 (Update allColumns r1 t) = <[vaVIN args := r2]> t.
Proof.
  intros H1 H2 Hrow. pose proof startsFrom_key as Hk.
  rewrite (Update_all_lookup r1 r t)
    by (first [rewrite H1; exact Hrow | congruence]).
  rewrite (Update_all_lookup r2 r1)
    by (first [rewrite H2, H1; apply lookup_insert_eq | congruence]).
  rewrite H1, H2. apply insert_insert_eq.
Qed.

Lemma Update_all_insert (mem row : Vin) (t : gmap string Vin) :
  Vin_ mem = vaVIN args -> Vin_ row = vaVIN args ->
  Update allColumns mem (<[vaVIN args := row]> t) = <[vaVIN args := mem]> t.
Proof.
  intros Hm Hr.
  rewrite (Update_all_lookup mem row)
    by (first [rewrite Hm; apply lookup_insert_eq | congruence]).
  rewrite Hm. apply insert_insert_eq.
Qed.

Lemma VerifyWork_resets :
  OnboardingStatus r <> OnboardingStatusVendorValidationSuccess ->
  OnboardingStatusDecodingSuccess <= OnboardingStatus r ->
  null.SValid (DeviceDefinitionID r) = true ->
  null.String_ (DeviceDefinitionID r) <> "" ->
  props.vendorPasses settings (vaVIN args) ->
  let r' := setOnboardingStatus OnboardingStatusVendorValidationSuccess r in
  VerifyWorker_Work settings None insertErr args s
  = Done None (setDb (<[vaVIN args := r']> (db s)) (setRecord (Some r') s)).
Proof.
  intros Hnot Hmin Hvalid Hid Hpass r'.
  destruct GetOrCreateVinRecord_Done as (s0 & Hget & Hrec0 & Hw0 & Hrow0 & _ & Hst).
  pose proof startsFrom_key as Hk.
  unfold VerifyWorker_Work.
  rewrite (bind_Done _ _ _ _ _ Hget).
  rewrite (bind_Done _ _ s0 s0 (record s0)) by reflexivity. rewrite Hrec0.
  destruct (Z.eqb_spec (OnboardingStatus r) OnboardingStatusVendorValidationSuccess)
    as [|_]; [contradiction |].
  rewrite (bind_Done _ _ _ _ _
             (DecodeVinAndUpdate_decoded args s0 r Hrec0 Hw0 Hmin Hvalid Hid)).
  erewrite bind_Done by (apply vendor_passes; [reflexivity | exact Hw0 | exact Hpass]).
  unfold mret, M_ret. f_equal.
  cbn [db setDb setRecord record].
  rewrite Update_all_twice by (try exact Hrow0; exact Hk).
  rewrite <- (Hst r'). reflexivity.
Qed.

Lemma VerifyWork_decodes decoded dd slept :
  OnboardingStatus r < OnboardingStatusDecodingSuccess ->
  DecodeVin (vaVIN args) (vaCountryCode args) = (Some decoded, None) ->
  getOrWaitForDeviceDefinition (dvDeviceDefinitionID decoded)
  = ((Some dd, None), slept) ->
  props.vendorPasses settings (vaVIN args) ->
  let r' := setOnboardingStatus OnboardingStatusVendorValidationSuccess
              (controllers.withDeviceDefinitionID
                 (null.SetValid (ddDeviceDefinitionID dd)) r) in
  VerifyWorker_Work settings None insertErr args s
  = Done None (setDb (<[vaVIN args := r']> (db s)) (setRecord (Some r') s)).
Proof.
  intros Hlt Hdec Hdd Hpass r'.
  destruct GetOrCreateVinRecord_Done as (s0 & Hget & Hrec0 & Hw0 & Hrow0 & _ & Hst).
  pose proof startsFrom_key as Hk.
  unfold VerifyWorker_Work.
  rewrite (bind_Done _ _ _ _ _ Hget).
  rewrite (bind_Done _ _ s0 s0 (record s0)) by reflexivity. rewrite Hrec0.
  destruct (Z.eqb_spec (OnboardingStatus r) OnboardingStatusVendorValidationSuccess)
    as [Heq|_]; [unfold OnboardingStatusVendorValidationSuccess,
                   OnboardingStatusDecodingSuccess in *; lia |].
  rewrite (bind_Done _ _ _ _ _
             (DecodeVinAndUpdate_decodes args s0 r Hrec0 Hw0 decoded dd slept
                Hlt Hdec Hdd)).
  erewrite bind_Done by (apply vendor_passes; [reflexivity | exact Hw0 | exact Hpass]).
  unfold mret, M_ret. f_equal.
  cbn [db setDb setRecord record].
  rewrite (Update_all_twice _ _ (db s0)) by (try exact Hrow0; exact Hk).
  rewrite Update_all_insert by exact Hk.
  rewrite <- (Hst r'). reflexivity.
Qed.

Lemma VerifyWork_decode_failure decoded e :
  OnboardingStatus r < OnboardingStatusDecodingSuccess ->
  DecodeVin (vaVIN args) (vaCountryCode args) = (decoded, Some e) ->
  let r' := setOnboardingStatus OnboardingStatusDecodingFailure r in
  VerifyWorker_Work settings None insertErr args s
  = Done (Some e) (setDb (<[vaVIN args := r']> (db s)) (setRecord (Some r') s)).
Proof.
  intros Hlt Hdec r'.
  destruct GetOrCreateVinRecord_Done as (s0 & Hget & Hrec0 & Hw0 & Hrow0 & _ & Hst).
  pose proof startsFrom_key as Hk.
  unfold VerifyWorker_Work.
  rewrite (bind_Done _ _ _ _ _ Hget).
  rewrite (bind_Done _ _ s0 s0 (record s0)) by reflexivity. rewrite Hrec0.
  destruct (Z.eqb_spec (OnboardingStatus r) OnboardingStatusVendorValidationSuccess)
    as [Heq|_]; [unfold OnboardingStatusVendorValidationSuccess,
                   OnboardingStatusDecodingSuccess in *; lia |].
  rewrite (bind_Done _ _ _ _ _
             (DecodeVinAndUpdate_fails args s0 r Hrec0 Hw0 decoded e Hlt Hdec)).
  unfold mret, M_ret. f_equal.
  cbn [db setDb setRecord record].
  rewrite (Update_all_twice _ _ (db s0)) by (try exact Hrow0; exact Hk).
  rewrite <- (Hst r'). reflexivity.
Qed.

Lemma VerifyWork_gives_up decoded dd e slept :
  OnboardingStatus r < OnboardingStatusDecodingSuccess ->
  DecodeVin (vaVIN args) (vaCountryCode args) = (Some decoded, None) ->
  getOrWaitForDeviceDefinition (dvDeviceDefinitionID decoded)
  = ((dd, Some e), slept) ->
  let r' := setOnboardingStatus OnboardingStatusDecodingFailure r in
  VerifyWorker_Work settings None insertErr args s
  = Done (Some e) (setDb (<[vaVIN args := r']> (db s)) (setRecord (Some r') s)).
Proof.
  intros Hlt Hdec Hdd r'.
  destruct GetOrCreateVinRecord_Done as (s0 & Hget & Hrec0 & Hw0 & Hrow0 & _ & Hst).
  pose proof startsFrom_key as Hk.
  unfold VerifyWorker_Work.
  rewrite (bind_Done _ _ _ _ _ Hget).
  rewrite (bind_Done _ _ s0 s0 (record s0)) by reflexivity. rewrite Hrec0.
  destruct (Z.eqb_spec (OnboardingStatus r) OnboardingStatusVendorValidationSuccess)
    as [Heq|_]; [unfold OnboardingStatusVendorValidationSuccess,
                   OnboardingStatusDecodingSuccess in *; lia |].
  rewrite (bind_Done _ _ _ _ _
             (DecodeVinAndUpdate_gives_up args s0 r Hrec0 Hw0 decoded dd e slept
                Hlt Hdec Hdd)).
  unfold mret, M_ret. f_equal.
  cbn [db setDb setRecord record].
  rewrite (Update_all_twice _ _ (db s0)) by (try exact Hrow0; exact Hk).
  rewrite <- (Hst r'). reflexivity.
Qed.

End VerifyWork.

(** X9. A verify job for a record that is not decoded yet (the stored row
    below DecodingSuccess(13), or the fresh record at DecodingUnknown(10)
    that the worker inserts for an unknown VIN), with the record write
    succeeding. When the VIN decodes, the identity service comes up with
    the definition and the vendor lets the VIN pass, the job returns nil
    and leaves the row at VendorValidationSuccess(23) with the
    definition's id. When decoding fails, or the wait for the definition
    ends with an error, the job returns that error and leaves the row at
    DecodingFailure(12). *)
Theorem verify_job_decodes `{D : onboarding.DeviceDefinitionsAPI}
    `{I : onboarding.IdentityAPI} `{V : onboarding.VendorOnboardingAPI}
    (settings : config.Settings) (insertErr : option error)
    (args : onboarding.VerifyArgs) (s : run.state) (r : Vin) :
  props.startsFrom s insertErr (onboarding.vaVIN args) r ->
  run.dbWrite s = None ->
  OnboardingStatus r < OnboardingStatusDecodingSuccess ->
  let out := onboarding.VerifyWorker_Work settings None insertErr args s in
  let stored r' :=
    run.setDb (<[onboarding.vaVIN args := r']> (run.db s))
      (run.setRecord (Some r') s) in
  let decoding :=
    onboarding.DecodeVin (onboarding.vaVIN args) (onboarding.vaCountryCode args) in
  (forall decoded dd slept,
     decoding = (Some decoded, None) ->
     onboarding.getOrWaitForDeviceDefinition (onboarding.dvDeviceDefinitionID decoded)
     = ((Some dd, None), slept) ->
     props.vendorPasses settings (onboarding.vaVIN args) ->
     out = run.Done None
             (stored (run.setOnboardingStatus OnboardingStatusVendorValidationSuccess
                        (controllers.withDeviceDefinitionID
                           (null.SetValid (onboarding.ddDeviceDefinitionID dd)) r)))) /\
  (forall decoded e,
     decoding = (decoded, Some e) ->
     out = run.Done (Some e)
             (stored (run.setOnboardingStatus OnboardingStatusDecodingFailure r))) /\
  (forall decoded dd e slept,
     decoding = (Some decoded, None) ->
     onboarding.getOrWaitForDeviceDefinition (onboarding.dvDeviceDefinitionID decoded)
     = ((dd, Some e), slept) ->
     out = run.Done (Some e)
             (stored (run.setOnboardingStatus OnboardingStatusDecodingFailure r))).
Proof.
  intros Hstart Hwrite Hlt out stored decoding. subst out stored decoding.
  split; [| split].
  - intros decoded dd slept Hdec Hdd Hpass.
    eapply VerifyWork_decodes; eassumption.
  - intros decoded e Hdec. eapply VerifyWork_decode_failure; eassumption.
  - intros decoded dd e slept Hdec Hdd. eapply VerifyWork_gives_up; eassumption.
Qed.

(** Witness of [verify_job_decodes]: a VIN without a row, a definition
    that the identity service knows from its third answer on, a vendor
    answering "capable". *)
Lemma verify_job_decodes_witness :
  let s := run.mkState None ∅ false false [] None None None in
  let args := onboarding.mkVerifyArgs sample.vinA "USA" in
  let r := newVin sample.vinA OnboardingStatusDecodingUnknown in
  props.startsFrom s None (onboarding.vaVIN args) r /\
  run.dbWrite s = None /\
  OnboardingStatus r < OnboardingStatusDecodingSuccess /\
  exists s',
    @onboarding.VerifyWorker_Work sample.decoder sample.identityLate
      (sample.vendorAnswering "capable") sample.settings None None args s
    = run.Done None s' /\
    OnboardingStatus <$> (run.db s' !! sample.vinA)
    = Some OnboardingStatusVendorValidationSuccess.
Proof.
  cbv zeta.
  assert (Hstart : props.startsFrom (run.mkState None ∅ false false [] None None None)
                     None (onboarding.vaVIN (onboarding.mkVerifyArgs sample.vinA "USA"))
                     (newVin sample.vinA OnboardingStatusDecodingUnknown)).
  { right. split; [reflexivity |]. split; reflexivity. }
  assert (Hlt : OnboardingStatus (newVin sample.vinA OnboardingStatusDecodingUnknown)
                < OnboardingStatusDecodingSuccess) by (vm_compute; reflexivity).
  split; [exact Hstart |]. split; [reflexivity |]. split; [exact Hlt |].
  destruct (@verify_job_decodes sample.decoder sample.identityLate
              (sample.vendorAnswering "capable") sample.settings None _ _ _
              Hstart eq_refl Hlt) as [Hok _].
  eexists. split.
  - apply (Hok (onboarding.mkDecoded "dd-1" "0x5f1a") sample.definition 2%nat).
    + reflexivity.
    + vm_compute. reflexivity.
    + exists (onboarding.mkCapability sample.vinA "capable"), [].
      split; [reflexivity |]. split; reflexivity.
  - vm_compute. reflexivity.
Defined.

(** X10. A verify job for a record that is decoded (status at or past
    DecodingSuccess(13), definition id present) and not at
    VendorValidationSuccess(23) runs the vendor check again and, when the
    vendor lets the VIN pass, leaves the row at
    VendorValidationSuccess(23) whatever its status was: a record past the
    verification phase, minted or disconnected, is set back to 23 with
    every other column kept. *)
Theorem verify_job_resets `{D : onboarding.DeviceDefinitionsAPI}
    `{I : onboarding.IdentityAPI} `{V : onboarding.VendorOnboardingAPI}
    (settings : config.Settings) (insertErr : option error)
    (args : onboarding.VerifyArgs) (s : run.state) (r : Vin) :
  props.startsFrom s insertErr (onboarding.vaVIN args) r ->
  run.dbWrite s = None ->
  OnboardingStatus r <> OnboardingStatusVendorValidationSuccess ->
  OnboardingStatusDecodingSuccess <= OnboardingStatus r ->
  null.SValid (DeviceDefinitionID r) = true ->
  null.String_ (DeviceDefinitionID r) <> "" ->
  props.vendorPasses settings (onboarding.vaVIN args) ->
  let r' := run.setOnboardingStatus OnboardingStatusVendorValidationSuccess r in
  onboarding.VerifyWorker_Work settings None insertErr args s
  = run.Done None
      (run.setDb (<[onboarding.vaVIN args := r']> (run.db s))
         (run.setRecord (Some r') s)).
Proof.
  intros Hstart Hwrite Hnot Hmin Hvalid Hid Hpass.
  eapply VerifyWork_resets; eassumption.
Qed.

(** Witness of [verify_job_resets]: the minted record is set back to 23. *)
Lemma verify_job_resets_witness :
  let s := sample.holding sample.minted false in
  let args := onboarding.mkVerifyArgs sample.vinA "USA" in
  props.startsFrom s None (onboarding.vaVIN args) sample.minted /\
  run.dbWrite s = None /\
  OnboardingStatus sample.minted <> OnboardingStatusVendorValidationSuccess /\
  OnboardingStatusDecodingSuccess <= OnboardingStatus sample.minted /\
  null.SValid (DeviceDefinitionID sample.minted) = true /\
  null.String_ (DeviceDefinitionID sample.minted) <> "" /\
  @props.vendorPasses (sample.vendorAnswering "capable") sample.settings
    (onboarding.vaVIN args) /\
  exists s',
    @onboarding.VerifyWorker_Work sample.decoder sample.identityNow
      (sample.vendorAnswering "capable") sample.settings None None args s
    = run.Done None s' /\
    OnboardingStatus <$> (run.db s' !! sample.vinA)
    = Some OnboardingStatusVendorValidationSuccess.
Proof.
  cbv zeta.
  assert (Hstart : props.startsFrom (sample.holding sample.minted false) None
                     (onboarding.vaVIN (onboarding.mkVerifyArgs sample.vinA "USA"))
                     sample.minted).
  { left. split; [vm_compute; reflexivity | reflexivity]. }
  assert (Hnot : OnboardingStatus sample.minted
                 <> OnboardingStatusVendorValidationSuccess)
    by (vm_compute; discriminate).
  assert (Hmin : OnboardingStatusDecodingSuccess <= OnboardingStatus sample.minted)
    by (vm_compute; discriminate).
  assert (Hid : null.String_ (DeviceDefinitionID sample.minted) <> "")
    by (vm_compute; discriminate).
  assert (Hpass : @props.vendorPasses (sample.vendorAnswering "capable")
                    sample.settings
                    (onboarding.vaVIN (onboarding.mkVerifyArgs sample.vinA "USA"))).
  { exists (onboarding.mkCapability sample.vinA "capable"), [].
    split; [reflexivity |]. split; reflexivity. }
  split; [exact Hstart |]. split; [reflexivity |]. split; [exact Hnot |].
  split; [exact Hmin |]. split; [reflexivity |]. split; [exact Hid |].
  split; [exact Hpass |].
  eexists. split.
  - exact (@verify_job_resets sample.decoder sample.identityNow
             (sample.vendorAnswering "capable") sample.settings None _ _ _
             Hstart eq_refl Hnot Hmin eq_refl Hid Hpass).
  - vm_compute. reflexivity.
Defined.

(** ** Disconnect worker: the vendor stage and the whole job *)

Section DisconnectStages.
Import run onboarding props.
Context `{V : VendorOnboardingAPI}.
Variable settings : config.Settings.
Variable args : DisconnectArgs.
Variables (s : state) (r : Vin).
Hypothesis Hrec : record s = Some r.

Lemma DisconnectFromVendor_success :
  answering s ->
  vendorDisconnects settings (daVIN args) ->
  let r' := setOnboardingStatus OnboardingStatusDisconnectSuccess (unlinked r) in
  DisconnectFromVendorAndUpdate settings args s
  = Done (Some r', None)
      (setDb (Update [ColOnboardingStatus] r'
                (Update [ColConnectionStatus; ColDisconnectionStatus]
                   (unlinked r) (db s)))
         (setRecord (Some r') s)).
Proof.
  intros Hdb Hvendor r'. unfold vendorDisconnects in Hvendor.
  unfold DisconnectFromVendorAndUpdate. eapply defer_Done.
  - erewrite bind_Done by (apply assign_Done; exact Hrec).
    destruct (config.EnableVendorConnection settings).
    + destruct Hvendor as [connection ->]. cbv beta iota.
      erewrite bind_Done by (apply assign_Done; reflexivity).
      erewrite bind_Done by (apply update_Done; [db_ok Hdb | reflexivity]); cbv beta iota.
      erewrite bind_Done by (apply assign_Done; reflexivity).
      erewrite bind_Done by apply get_Done. reflexivity.
    + erewrite bind_Done by (apply assign_Done; reflexivity).
      erewrite bind_Done by (apply update_Done; [db_ok Hdb | reflexivity]); cbv beta iota.
      erewrite bind_Done by (apply assign_Done; reflexivity).
      erewrite bind_Done by apply get_Done. reflexivity.
  - erewrite bind_Done by (apply update_Done; [db_ok Hdb | reflexivity]); cbv beta iota.
    reflexivity.
Qed.

Lemma DisconnectFromVendor_vendor_failure connection e :
  answering s ->
  config.EnableVendorConnection settings = true ->
  Disconnect [daVIN args] = (connection, Some e) ->
  let r' := setOnboardingStatus OnboardingStatusDisconnectFailure
              (setOnboardingStatus OnboardingStatusDisconnectUnknown r) in
  DisconnectFromVendorAndUpdate settings args s
  = Done (None, Some e)
      (setDb (Update [ColOnboardingStatus] r' (db s)) (setRecord (Some r') s)).
Proof.
  intros Hdb Hon Hvendor r'.
  unfold DisconnectFromVendorAndUpdate. eapply defer_Done.
  - erewrite bind_Done by (apply assign_Done; exact Hrec).
    rewrite Hon, Hvendor. cbv beta iota.
    erewrite bind_Done by (apply assign_Done; reflexivity). reflexivity.
  - erewrite bind_Done by (apply update_Done; [db_ok Hdb | reflexivity]); cbv beta iota.
    reflexivity.
Qed.

Lemma DisconnectFromVendor_commit_failure e :
  dbBegin s = None -> dbWrite s = None -> dbCommit s = Some e ->
  vendorDisconnects settings (daVIN args) ->
  let r' := setOnboardingStatus OnboardingStatusConnectFailure (unlinked r) in
  DisconnectFromVendorAndUpdate settings args s
  = Done (None, Some (Wrap "failed to commit transaction" e))
      (setDb (Update [ColOnboardingStatus] r'
                (Update [ColConnectionStatus; ColDisconnectionStatus]
                   (unlinked r) (db s)))
         (setRecord (Some r') s)).
Proof.
  intros Hb Hw Hc Hvendor r'. unfold vendorDisconnects in Hvendor.
  assert (Hupd : forall cols s1 r1,
            dbBegin s1 = None -> dbWrite s1 = None -> dbCommit s1 = Some e ->
            record s1 = Some r1 ->
            update cols s1
            = Done (Some (Wrap "failed to commit transaction" e))
                (setDb (Update cols r1 (db s1)) s1)).
  { intros cols s1 r1 Hb1 Hw1 Hc1 Hr1. unfold update.
    rewrite Hb1, Hr1, Hw1. cbn. rewrite Hc1. reflexivity. }
  unfold DisconnectFromVendorAndUpdate. eapply defer_Done.
  - erewrite bind_Done by (apply assign_Done; exact Hrec).
    destruct (config.EnableVendorConnection settings).
    + destruct Hvendor as [connection ->]. cbv beta iota.
      erewrite bind_Done by (apply assign_Done; reflexivity).
      erewrite bind_Done
        by (apply Hupd; [exact Hb | exact Hw | exact Hc | reflexivity]); cbv beta iota.
      erewrite bind_Done by (apply assign_Done; reflexivity). reflexivity.
    + erewrite bind_Done by (apply assign_Done; reflexivity).
      erewrite bind_Done
        by (apply Hupd; [exact Hb | exact Hw | exact Hc | reflexivity]); cbv beta iota.
      erewrite bind_Done by (apply assign_Done; reflexivity). reflexivity.
  - erewrite bind_Done
      by (apply Hupd; [exact Hb | exact Hw | exact Hc | reflexivity]); cbv beta iota.
    reflexivity.
Qed.

End DisconnectStages.

(** X11. The vendor stage of the disconnect worker. When the vendor
    disconnects and the database answers, the record leaves at
    DisconnectSuccess(73) with connection_status null and
    disconnection_status "succeeded", both written. When the vendor
    refuses, it leaves at DisconnectFailure(72) with the vendor's error.
    When the commit around the link update fails, the link columns are
    written all the same (the write does not go through the transaction)
    and the record leaves with ConnectFailure(42), a status of the
    onboarding phase. *)
Theorem disconnect_stage_outcomes `{V : onboarding.VendorOnboardingAPI}
    (settings : config.Settings) (args : onboarding.DisconnectArgs)
    (s : run.state) (r : Vin) :
  run.record s = Some r ->
  let out := onboarding.DisconnectFromVendorAndUpdate settings args s in
  let linkWritten r' :=
    run.setDb (Update [ColOnboardingStatus] r'
                 (Update [ColConnectionStatus; ColDisconnectionStatus]
                    (props.unlinked r) (run.db s)))
      (run.setRecord (Some r') s) in
  (props.answering s ->
   props.vendorDisconnects settings (onboarding.daVIN args) ->
   let r' := run.setOnboardingStatus OnboardingStatusDisconnectSuccess
               (props.unlinked r) in
   out = run.Done (Some r', None) (linkWritten r')) /\
  (forall connection e,
     props.answering s ->
     config.EnableVendorConnection settings = true ->
     onboarding.Disconnect [onboarding.daVIN args] = (connection, Some e) ->
     let r' := run.setOnboardingStatus OnboardingStatusDisconnectFailure
                 (run.setOnboardingStatus OnboardingStatusDisconnectUnknown r) in
     out = run.Done (None, Some e)
             (run.setDb (Update [ColOnboardingStatus] r' (run.db s))
                (run.setRecord (Some r') s))) /\
  (forall e,
     run.dbBegin s = None -> run.dbWrite s = None -> run.dbCommit s = Some e ->
     props.vendorDisconnects settings (onboarding.daVIN args) ->
     let r' := run.setOnboardingStatus OnboardingStatusConnectFailure
                 (props.unlinked r) in
     out = run.Done (None, Some (Wrap "failed to commit transaction" e))
             (linkWritten r')).
Proof.
  intros Hrec out linkWritten. subst out linkWritten. split; [| split].
  - intros Hdb Hvendor. apply DisconnectFromVendor_success; assumption.
  - intros connection e Hdb Hon Hvendor.
    eapply DisconnectFromVendor_vendor_failure; eassumption.
  - intros e Hb Hw Hc Hvendor.
    apply DisconnectFromVendor_commit_failure; assumption.
Qed.

(** Witness of [disconnect_stage_outcomes]: the minted record, a database
    whose commits fail. *)
Lemma disconnect_stage_outcomes_witness :
  let s := run.mkState (Some sample.minted) {[sample.vinA := sample.minted]}
             false false [] None None (Some (External 7)) in
  run.record s = Some sample.minted /\
  @props.vendorDisconnects (sample.vendorAnswering "capable") sample.settings
    sample.vinA /\
  exists s',
    @onboarding.DisconnectFromVendorAndUpdate (sample.vendorAnswering "capable")
      sample.settings (onboarding.mkDisconnectArgs sample.vinA 9) s
    = run.Done (None, Some (Wrap "failed to commit transaction" (External 7))) s' /\
    OnboardingStatus <$> run.record s' = Some OnboardingStatusConnectFailure /\
    DisconnectionStatus <$> (run.db s' !! sample.vinA)
    = Some (null.mkString "succeeded" true).
Proof.
  cbv zeta. split; [reflexivity |].
  split; [exists [onboarding.mkConnection sample.vinA "" "succeeded"]; reflexivity |].
  destruct (@disconnect_stage_outcomes (sample.vendorAnswering "capable")
              sample.settings (onboarding.mkDisconnectArgs sample.vinA 9)
              (run.mkState (Some sample.minted) {[sample.vinA := sample.minted]}
                 false false [] None None (Some (External 7)))
              sample.minted eq_refl) as (_ & _ & Hcommit).
  eexists. split.
  - apply (Hcommit (External 7)); try reflexivity.
    exists [onboarding.mkConnection sample.vinA "" "succeeded"]. reflexivity.
  - split; vm_compute; reflexivity.
Defined.

Section DisconnectWork.
Import run onboarding props.
Context `{C : Client} `{V : VendorOnboardingAPI}.
Variable settings : config.Settings.

Lemma BurnSDAndUpdate_Done (args : DisconnectArgs) (s : state) (r : Vin)
    opResult node :
  record s = Some r ->
  answering s ->
  SendSignedUserOperation (daUserOperation args) = (opResult, None) ->
  GetBurnSDByOwnerResult opResult = (Some node, None) ->
  let r' := setOnboardingStatus OnboardingStatusBurnSDSuccess
              (controllers.withSyntheticTokenID (null.NewInt64 0 false)
                 (setWalletIndex (null.NewInt64 0 false) r)) in
  BurnSDAndUpdate args s
  = Done (Some r', None)
      (mkState (Some r')
         (Update [ColOnboardingStatus; ColSyntheticTokenID; ColWalletIndex] r' (db s))
         (contended s) (contended s)
         (submitted s ++ [daUserOperation args])%list
         (dbBegin s) (dbWrite s) (dbCommit s)).
Proof.
  intros Hrec Hdb Hsend Hread r'.
  unfold BurnSDAndUpdate. eapply defer_Done.
  - erewrite bind_Done by apply Lock_Done.
    erewrite bind_Done by apply send_Done. rewrite Hsend. cbv beta iota.
    rewrite Hread. cbv beta iota.
    erewrite bind_Done by reflexivity.
    erewrite bind_Done by (apply Unlock_Done; reflexivity).
    erewrite bind_Done by (apply assign_Done; exact Hrec).
    erewrite bind_Done by (apply assign_Done; reflexivity).
    erewrite bind_Done by (apply assign_Done; reflexivity).
    erewrite bind_Done by apply get_Done. reflexivity.
  - erewrite bind_Done by (apply update_Done; [db_ok Hdb | reflexivity]).
    reflexivity.
Qed.

Variable args : DisconnectArgs.
Variables (s : state) (r : Vin).
Hypothesis Hrow : db s !! daVIN args = Some r.

Lemma DisconnectWork_guards :
  (OnboardingStatus r < OnboardingStatusMintSuccess ->
   DisconnectWorker_Work settings None args s
   = Done (Some (New "insufficient verification status")) (setRecord (Some r) s)) /\
  (OnboardingStatus r = OnboardingStatusBurnSDSuccess ->
   DisconnectWorker_Work settings None args s = Done None (setRecord (Some r) s)).
Proof.
  unfold DisconnectWorker_Work.
  rewrite (bind_Done _ _ _ _ _ (GetVinRecord_Done _ _ _ Hrow)).
  rewrite (bind_Done _ _ _ _ _ (get_Done _)). cbn [record setRecord].
  split.
  - intros Hlt.
    destruct (Z.ltb_spec (OnboardingStatus r) OnboardingStatusMintSuccess);
      [reflexivity | lia].
  - intros ->. reflexivity.
Qed.

Lemma DisconnectWork_success opResult node :
  answering s ->
  OnboardingStatusMintSuccess <= OnboardingStatus r ->
  OnboardingStatus r <> OnboardingStatusBurnSDSuccess ->
  vendorDisconnects settings (daVIN args) ->
  null.IValid (SyntheticTokenID r) = true ->
  SendSignedUserOperation (daUserOperation args) = (opResult, None) ->
  GetBurnSDByOwnerResult opResult = (Some node, None) ->
  let r73 := setOnboardingStatus OnboardingStatusDisconnectSuccess (unlinked r) in
  let r' := setOnboardingStatus OnboardingStatusBurnSDSuccess
              (controllers.withSyntheticTokenID (null.NewInt64 0 false)
                 (setWalletIndex (null.NewInt64 0 false) r73)) in
  DisconnectWorker_Work settings None args s
  = Done None
      (mkState (Some r')
         (Update [ColOnboardingStatus; ColSyntheticTokenID; ColWalletIndex] r'
            (Update [ColOnboardingStatus] r73
               (Update [ColConnectionStatus; ColDisconnectionStatus]
                  (unlinked r) (db s))))
         (contended s) (contended s)
         (submitted s ++ [daUserOperation args])%list
         (dbBegin s) (dbWrite s) (dbCommit s)).
Proof.
  intros Hdb Hmin Hnot Hvendor Hsd Hsend Hread r73 r'.
  unfold DisconnectWorker_Work.
  rewrite (bind_Done _ _ _ _ _ (GetVinRecord_Done _ _ _ Hrow)).
  rewrite (bind_Done _ _ _ _ _ (get_Done _)). cbn [record setRecord].
  destruct (Z.ltb_spec (OnboardingStatus r) OnboardingStatusMintSuccess); [lia |].
  destruct (Z.eqb_spec (OnboardingStatus r) OnboardingStatusBurnSDSuccess);
    [contradiction |].
  erewrite bind_Done
    by (apply DisconnectFromVendor_success; [reflexivity | db_ok Hdb | exact Hvendor]).
  cbv beta iota.
  cbn [SyntheticTokenID setOnboardingStatus setLink service.setConnection unlinked].
  rewrite Hsd.
  erewrite bind_Done
    by (eapply BurnSDAndUpdate_Done; [reflexivity | db_ok Hdb | exact Hsend | exact Hread]).
  reflexivity.
Qed.

End DisconnectWork.

(** X12. The guards of the disconnect job: a record below MintSuccess(53)
    is refused with "insufficient verification status", a record at
    BurnSDSuccess(83) is a no-op that returns nil; in both cases nothing
    is submitted to the transaction facility, the mutex is not touched
    and the table is not written. *)
Theorem disconnect_job_guards `{C : run.Client} `{V : onboarding.VendorOnboardingAPI}
    (settings : config.Settings) (args : onboarding.DisconnectArgs)
    (s : run.state) (r : Vin) :
  run.db s !! onboarding.daVIN args = Some r ->
  let out := onboarding.DisconnectWorker_Work settings None args s in
  (OnboardingStatus r < OnboardingStatusMintSuccess ->
   out = run.Done (Some (New "insufficient verification status"))
           (run.setRecord (Some r) s)) /\
  (OnboardingStatus r = OnboardingStatusBurnSDSuccess ->
   out = run.Done None (run.setRecord (Some r) s)).
Proof.
  intros Hrow out. subst out. apply DisconnectWork_guards. exact Hrow.
Qed.

(** Witness of [disconnect_job_guards]: a record that was only verified. *)
Lemma disconnect_job_guards_witness :
  let s := sample.holding sample.verified false in
  let args := onboarding.mkDisconnectArgs sample.vinA 9 in
  run.db s !! onboarding.daVIN args = Some sample.verified /\
  @onboarding.DisconnectWorker_Work (sample.facility true true)
    (sample.vendorAnswering "capable") sample.settings None args s
  = run.Done (Some (New "insufficient verification status")) s.
Proof.
  cbv zeta.
  assert (Hrow : run.db (sample.holding sample.verified false)
                   !! onboarding.daVIN (onboarding.mkDisconnectArgs sample.vinA 9)
                 = Some sample.verified) by (vm_compute; reflexivity).
  split; [exact Hrow |].
  apply (@disconnect_job_guards (sample.facility true true)
           (sample.vendorAnswering "capable") sample.settings _ _ _ Hrow).
  vm_compute. reflexivity.
Defined.

(** X13. Disconnect followed by delete. For a stored record at or past
    MintSuccess(53) with both tokens, a vendor that disconnects, a
    database that answers and a facility that accepts both operations and
    reports their results: the disconnect job returns nil, the delete job
    run on the state it leaves returns nil, exactly the two operations
    were submitted, burn-SD first, and the row ends at
    BurnVehicleSuccess(103) with both tokens and the wallet index null,
    connection_status null and disconnection_status "succeeded"; the
    external id, the definition and the error columns are those of the
    record before. *)
Theorem disconnect_then_delete `{C : run.Client} `{V : onboarding.VendorOnboardingAPI}
    (settings : config.Settings) (vin : string)
    (opSD opVehicle : run.UserOperation) (s : run.state) (r : Vin)
    (resSD resVehicle : option run.UserOperationResult) (nodeSD nodeVehicle : Z) :
  run.db s !! vin = Some r ->
  Vin_ r = vin ->
  props.answering s ->
  OnboardingStatusMintSuccess <= OnboardingStatus r ->
  OnboardingStatus r <> OnboardingStatusBurnSDSuccess ->
  null.IValid (SyntheticTokenID r) = true ->
  null.IValid (VehicleTokenID r) = true ->
  props.vendorDisconnects settings vin ->
  run.SendSignedUserOperation opSD = (resSD, None) ->
  run.GetBurnSDByOwnerResult resSD = (Some nodeSD, None) ->
  run.SendSignedUserOperation opVehicle = (resVehicle, None) ->
  run.GetBurnVehicleByOwnerResult resVehicle = (Some nodeVehicle, None) ->
  exists s1 s2,
    onboarding.DisconnectWorker_Work settings None
      (onboarding.mkDisconnectArgs vin opSD) s = run.Done None s1 /\
    onboarding.DeleteWorker_Work None (onboarding.mkDeleteArgs vin opVehicle) s1
    = run.Done None s2 /\
    run.submitted s2 = (run.submitted s ++ [opSD; opVehicle])%list /\
    run.db s2 !! vin
    = Some (mkVin vin (null.NewInt64 0 false) (null.NewInt64 0 false)
              (ExternalID r) (null.mkString "" false)
              OnboardingStatusBurnVehicleSuccess (DeviceDefinitionID r)
              (null.NewInt64 0 false) (null.mkString "succeeded" true)
              (OperationErrorCode r) (OperationErrorType r)
              (OperationErrorDescription r)).
Proof.
  intros Hrow Hkey Hdb Hmin Hnot Hsd Hveh Hvendor HsendSD HreadSD HsendV HreadV.
  pose proof (DisconnectWork_success settings
                (onboarding.mkDisconnectArgs vin opSD) s r Hrow resSD nodeSD
                Hdb Hmin Hnot Hvendor Hsd HsendSD HreadSD) as Hdis.
  cbv zeta in Hdis.
  match type of Hdis with _ = run.Done None ?st => set (s1 := st) in * end.
  exists s1.
  set (r70 := props.unlinked r) in *.
  set (r73 := run.setOnboardingStatus OnboardingStatusDisconnectSuccess r70) in *.
  set (r83 := run.setOnboardingStatus OnboardingStatusBurnSDSuccess
                (controllers.withSyntheticTokenID (null.NewInt64 0 false)
                   (run.setWalletIndex (null.NewInt64 0 false) r73))) in *.
  set (row1 := writeColumns [ColOnboardingStatus; ColSyntheticTokenID; ColWalletIndex] r83
                 (writeColumns [ColOnboardingStatus] r73
                    (writeColumns [ColConnectionStatus; ColDisconnectionStatus] r70 r))).
  assert (Hrow1 : run.db s1 !! vin = Some row1).
  { subst s1. cbn [run.db].
    change vin with (onboarding.daVIN (onboarding.mkDisconnectArgs vin opSD)) in Hrow.
    cbn [onboarding.daVIN] in Hrow.
    replace vin with (Vin_ r83) at 1 by exact Hkey.
    apply Update_lookup. replace (Vin_ r83) with (Vin_ r73) by reflexivity.
    apply Update_lookup. replace (Vin_ r73) with (Vin_ r70) by reflexivity.
    apply Update_lookup. cbn. rewrite Hkey. exact Hrow. }
  assert (Hdb1 : props.answering s1) by exact Hdb.
  destruct (DeleteWorker_success (onboarding.mkDeleteArgs vin opVehicle) s1 row1
              Hrow1 ltac:(cbn; discriminate) ltac:(cbn; discriminate)
              resVehicle nodeVehicle eq_refl Hveh HsendV HreadV)
    as (s2 & Hdel & Hsub & _ & Hdb2).
  exists s2. split; [exact Hdis |]. split; [exact Hdel |]. split.
  - rewrite Hsub. subst s1. cbn [run.submitted onboarding.deUserOperation
      onboarding.daUserOperation]. rewrite <- app_assoc. reflexivity.
  - rewrite Hdb2. unfold props.written.
    destruct Hdb1 as (-> & -> & _).
    match goal with |- Update _ ?m _ !! _ = _ =>
      replace vin with (Vin_ m) at 1 by (cbn; exact Hkey) end.
    rewrite (Update_lookup _ _ row1) by (cbn; rewrite Hkey; exact Hrow1).
    f_equal. destruct r. cbn in *. subst. reflexivity.
Qed.

(** Witness of [disconnect_then_delete]: the minted record ends burned. *)
Lemma disconnect_then_delete_witness :
  let s := sample.holding sample.minted false in
  run.db s !! sample.vinA = Some sample.minted /\
  Vin_ sample.minted = sample.vinA /\
  props.answering s /\
  OnboardingStatusMintSuccess <= OnboardingStatus sample.minted /\
  OnboardingStatus sample.minted <> OnboardingStatusBurnSDSuccess /\
  null.IValid (SyntheticTokenID sample.minted) = true /\
  null.IValid (VehicleTokenID sample.minted) = true /\
  @props.vendorDisconnects (sample.vendorAnswering "capable") sample.settings
    sample.vinA /\
  exists s1 s2,
    @onboarding.DisconnectWorker_Work (sample.facility true true)
      (sample.vendorAnswering "capable") sample.settings None
      (onboarding.mkDisconnectArgs sample.vinA 8) s = run.Done None s1 /\
    @onboarding.DeleteWorker_Work (sample.facility true true) None
      (onboarding.mkDeleteArgs sample.vinA 9) s1 = run.Done None s2 /\
    run.submitted s2 = [8; 9] /\
    OnboardingStatus <$> (run.db s2 !! sample.vinA)
    = Some OnboardingStatusBurnVehicleSuccess.
Proof.
  cbv zeta.
  assert (Hrow : run.db (sample.holding sample.minted false) !! sample.vinA
                 = Some sample.minted) by (vm_compute; reflexivity).
  assert (Hdb : props.answering (sample.holding sample.minted false))
    by (split; [| split]; reflexivity).
  assert (Hmin : OnboardingStatusMintSuccess <= OnboardingStatus sample.minted)
    by (vm_compute; discriminate).
  assert (Hnot : OnboardingStatus sample.minted <> OnboardingStatusBurnSDSuccess)
    by (vm_compute; discriminate).
  assert (Hvendor : @props.vendorDisconnects (sample.vendorAnswering "capable")
                      sample.settings sample.vinA).
  { exists [onboarding.mkConnection sample.vinA "" "succeeded"]. reflexivity. }
  split; [exact Hrow |]. split; [reflexivity |]. split; [exact Hdb |].
  split; [exact Hmin |]. split; [exact Hnot |]. split; [reflexivity |].
  split; [reflexivity |]. split; [exact Hvendor |].
  destruct (@disconnect_then_delete (sample.facility true true)
              (sample.vendorAnswering "capable") sample.settings sample.vinA 8 9
              (sample.holding sample.minted false) sample.minted
              (Some 8) (Some 9) 202 101
              Hrow eq_refl Hdb Hmin Hnot eq_refl eq_refl Hvendor
              eq_refl eq_refl eq_refl eq_refl)
    as (s1 & s2 & Hdis & Hdel & Hsub & Hfinal).
  exists s1, s2. split; [exact Hdis |]. split; [exact Hdel |].
  split; [exact Hsub |]. rewrite Hfinal. reflexivity.
Defined.

(** ** Onboarding worker *)

Section Mutex.
Import run onboarding onboard props.

Lemma mutexReleased_bind {A B} (m : M A) (f : A -> M B) :
  (forall s, mutexReleased s (m s)) ->
  (forall a s, mutexReleased s (f a s)) ->
  forall s, mutexReleased s ((m ≫= f) s).
Proof.
  intros Hm Hf s. unfold mbind, M_bind. specialize (Hm s).
  destruct (m s) as [a s1 | msg s1 | msg s1]; cbn in Hm |- *; try exact Hm.
  specialize (Hf a s1). destruct (f a s1) as [b s2 | msg s2 | msg s2];
    cbn in Hf |- *; try exact Hf;
    destruct Hm as [Hc1 Hl1], Hf as [Hc2 Hl2];
    (split; [rewrite Hc2; exact Hc1 |]);
    rewrite Hc1 in Hl2; destruct Hl1 as [Hl1 | Hl1], Hl2 as [Hl2 | Hl2];
    rewrite Hl2, ?Hl1; auto.
Qed.

Lemma mutexReleased_defer {A} (d : M unit) (body : M A) :
  (forall s, mutexReleased s (body s)) ->
  (forall s, mutexReleased s (d s)) ->
  forall s, mutexReleased s (defer d body s).
Proof.
  intros Hb Hd s. unfold defer. specialize (Hb s).
  destruct (body s) as [a s1 | msg s1 | msg s1]; cbn in Hb |- *; try exact Hb;
    specialize (Hd s1); destruct (d s1) as [b s2 | msg' s2 | msg' s2];
    cbn in Hd |- *; try exact Hd;
    destruct Hb as [Hc1 Hl1], Hd as [Hc2 Hl2];
    (split; [rewrite Hc2; exact Hc1 |]);
    rewrite Hc1 in Hl2; destruct Hl1 as [Hl1 | Hl1], Hl2 as [Hl2 | Hl2];
    rewrite Hl2, ?Hl1; auto.
Qed.

Lemma mutexReleased_ret {A} (a : A) (s : state) :
  mutexReleased s ((mret a : M A) s).
Proof. cbn. auto. Qed.

(** A call made between [Lock] and [Unlock], then the rest of the run. *)
Lemma mutexReleased_section {A} (k : M A) :
  (forall s, mutexReleased s (k s)) ->
  forall s, mutexReleased s ((Lock;; Unlock;; k) s).
Proof.
  intros Hk s. unfold mbind, M_bind, Lock, Unlock. cbn.
  specialize (Hk (setLocked (contended s) (setLocked true s))).
  destruct (k _) as [a s1 | msg s1 | msg s1]; cbn in Hk |- *; try exact Hk;
    destruct Hk as [Hc [Hl | Hl]]; auto.
Qed.

Lemma get_released (s : state) : mutexReleased s (get s).
Proof. cbn. auto. Qed.

Lemma nilDeref_released {A} (s : state) : mutexReleased s (@nilDeref A s).
Proof. cbn. auto. Qed.

Lemma assign_released (f : Vin -> Vin) (s : state) :
  mutexReleased s (assign f s).
Proof. unfold assign. destruct (record s); cbn; auto. Qed.

Lemma update_released (cols : list Column) (s : state) :
  mutexReleased s (update cols s).
Proof.
  unfold update. repeat (case_match; cbn in *; simplify_eq; auto).
Qed.

Lemma call_released {A} (o : sdwallets.outcome A) (s : state) :
  mutexReleased s (call o s).
Proof. destruct o; cbn; auto. Qed.

Lemma GetNextSDWalletIndex_released `{Q : Sequence} (s : state) :
  mutexReleased s (GetNextSDWalletIndex s).
Proof.
  unfold GetNextSDWalletIndex. repeat (case_match; cbn in *; simplify_eq; auto).
Qed.

Lemma GetVinRecord_released (getErr : option error) (vin : string) (s : state) :
  mutexReleased s (GetVinRecord getErr vin s).
Proof.
  unfold GetVinRecord. repeat (case_match; cbn in *; simplify_eq; auto).
Qed.

Ltac released_with tac :=
  repeat first
    [ tac
    | apply mutexReleased_section; intros ?
    | match goal with
      | |- mutexReleased _ ((Lock ≫= _) _) => case_match
      end
    | apply mutexReleased_ret
    | apply get_released
    | apply nilDeref_released
    | apply assign_released
    | apply update_released
    | apply call_released
    | apply GetNextSDWalletIndex_released
    | apply GetVinRecord_released
    | apply mutexReleased_defer; [intros ? | intros ?]
    | apply mutexReleased_bind; [intros ? | intros ? ?]
    | progress cbv beta
    | case_match ].

Context `{V : VendorOnboardingAPI} `{I : IdentityAPI} `{Q : Sequence}
  `{W : SDWalletsAPI} `{T : MintClient}.
Variable settings : config.Settings.
Variable ms : MintSettings.
Variable args : OnboardingArgs.

Lemma fail_released (code : Z) (err : option error) (s : state) :
  mutexReleased s (fail code err s).
Proof. unfold fail. revert s. released_with fail. Qed.

Lemma recordMinted_released (sdIndex : Z) (result : option Minted) (s : state) :
  mutexReleased s (recordMinted sdIndex result s).
Proof. unfold recordMinted. revert s. released_with fail. Qed.

Lemma ConnectToVendor_released (s : state) :
  mutexReleased s (ConnectToVendorAndUpdate settings args s).
Proof.
  unfold ConnectToVendorAndUpdate. revert s.
  released_with ltac:(apply fail_released).
Qed.

Lemma MintSD_released (s : state) :
  mutexReleased s (MintSDAndUpdate ms args s).
Proof.
  unfold MintSDAndUpdate. revert s.
  released_with ltac:(apply fail_released).
Qed.

Lemma MintVehicleWithSD_released (s : state) :
  mutexReleased s (MintVehicleWithSDAndUpdate ms args s).
Proof.
  unfold MintVehicleWithSDAndUpdate. revert s.
  released_with ltac:(first [apply fail_released | apply recordMinted_released]).
Qed.

Lemma Work_released (getErr : option error) (s : state) :
  mutexReleased s (OnboardingWorker_Work settings ms getErr args s).
Proof.
  unfold OnboardingWorker_Work. revert s.
  released_with ltac:(first
    [ apply ConnectToVendor_released
    | apply MintVehicleWithSD_released
    | apply MintSD_released ]).
Qed.

End Mutex.

(** X14. The onboarding job never leaves the worker's mutex held and never
    unlocks it twice, whatever the vendor, the identity service, the
    sequence, the wallet service, the registry and the database answer,
    from every starting state: the run never ends in the fatal error of
    an [Unlock] of an unlocked mutex (its only fatal end is an exit inside
    the wallet service), and when it returns or panics the mutex is as the
    job found it or as an unlock leaves it. *)
Theorem onboarding_job_releases_mutex `{V : onboarding.VendorOnboardingAPI}
    `{I : onboarding.IdentityAPI} `{Q : onboard.Sequence}
    `{W : onboard.SDWalletsAPI} `{T : onboard.MintClient}
    (settings : config.Settings) (ms : onboard.MintSettings)
    (getErr : option error) (args : onboard.OnboardingArgs) (s : run.state) :
  props.mutexReleased s (onboard.OnboardingWorker_Work settings ms getErr args s) /\
  (run.locked s = false -> run.contended s = false ->
   match onboard.OnboardingWorker_Work settings ms getErr args s with
   | run.Fatal msg _ => msg = "os.Exit(1)"
   | run.Done _ s' | run.Panic _ s' => run.locked s' = false
   end).
Proof.
  pose proof (Work_released settings ms args getErr s) as Hrel. split; [exact Hrel |].
  intros Hfree Hquiet.
  destruct (onboard.OnboardingWorker_Work settings ms getErr args s);
    cbn in Hrel |- *; try exact Hrel;
    destruct Hrel as [_ [Hl | Hl]]; congruence.
Qed.

Section OnboardingStages.
Import run onboarding onboard.
Context `{V : VendorOnboardingAPI} `{I : IdentityAPI} `{Q : Sequence}
  `{W : SDWalletsAPI} `{T : MintClient}.
Variable settings : config.Settings.
Variable ms : MintSettings.
Variable args : OnboardingArgs.

Lemma GetNextSDWalletIndex_Done (s : state) (i : Z) :
  props.answering s -> nextval = inl i ->
  GetNextSDWalletIndex s = Done (Some i, None) s.
Proof.
  intros (Hb & _ & Hc) Hi. unfold GetNextSDWalletIndex. rewrite Hb, Hi, Hc.
  reflexivity.
Qed.

Lemma ConnectToVendor_success (s : state) (r : Vin) :
  record s = Some r ->
  props.answering s ->
  props.vendorConnects settings (oaVIN args) ->
  let r40 := setLink (null.mkString "succeeded" true) (null.mkString "" false)
               (setOnboardingStatus OnboardingStatusConnectUnknown r) in
  let r' := setOnboardingStatus OnboardingStatusConnectSuccess r40 in
  ConnectToVendorAndUpdate settings args s
  = Done (Some r', None)
      (setDb (Update [ColOnboardingStatus] r'
                (Update [ColConnectionStatus; ColDisconnectionStatus] r40 (db s)))
         (setRecord (Some r') s)).
Proof.
  intros Hrec Hdb Hvendor r40 r'. unfold props.vendorConnects in Hvendor.
  unfold ConnectToVendorAndUpdate. eapply defer_Done.
  - erewrite bind_Done by (apply assign_Done; exact Hrec).
    destruct (config.EnableVendorConnection settings).
    + destruct Hvendor as [connection ->]. cbv beta iota.
      erewrite bind_Done by (apply assign_Done; reflexivity).
      erewrite bind_Done by (apply update_Done; [db_ok Hdb | reflexivity]); cbv beta iota.
      erewrite bind_Done by (apply assign_Done; reflexivity).
      erewrite bind_Done by apply get_Done. reflexivity.
    + erewrite bind_Done by (apply assign_Done; reflexivity).
      erewrite bind_Done by (apply update_Done; [db_ok Hdb | reflexivity]); cbv beta iota.
      erewrite bind_Done by (apply assign_Done; reflexivity).
      erewrite bind_Done by apply get_Done. reflexivity.
  - erewrite bind_Done by (apply update_Done; [db_ok Hdb | reflexivity]); cbv beta iota.
    reflexivity.
Qed.

Lemma MintVehicleWithSD_success (s : state) (r : Vin) sdIndex minted :
  record s = Some r ->
  props.answering s ->
  props.mintsVehicleAndSD ms args (null.String_ (DeviceDefinitionID r)) sdIndex minted ->
  let r' := setOnboardingStatus OnboardingStatusMintSuccess
              (controllers.withSyntheticTokenID
                 (null.Int64From (SyntheticDeviceNode minted))
                 (controllers.withVehicleTokenID (null.Int64From (VehicleId minted))
                    (setWalletIndex (null.Int64From sdIndex) r))) in
  MintVehicleWithSDAndUpdate ms args s
  = Done (Some r', None)
      (mkState (Some r')
         (Update [ColOnboardingStatus; ColVehicleTokenID; ColSyntheticTokenID;
                  ColWalletIndex] r' (db s))
         (contended s) (contended s) (submitted s)
         (dbBegin s) (dbWrite s) (dbCommit s)).
Proof.
  intros Hrec Hdb (dd & id & sdAddress & sdTypedData & sdSignature &
                   Hfetch & Hnext & Haddr & Hparse & Htyped & Hsign & Hmint) r'.
  unfold MintVehicleWithSDAndUpdate. eapply defer_Done.
  - erewrite bind_Done by apply get_Done. rewrite Hrec. cbv beta iota.
    rewrite Hfetch. cbv beta iota.
    erewrite bind_Done by (apply GetNextSDWalletIndex_Done; [exact Hdb | exact Hnext]).
    cbv beta iota. rewrite Haddr.
    erewrite bind_Done by reflexivity. cbv beta iota.
    assert (Hbranch :
      (if EnableMintingWithConnectionTokenID ms
       then (SetString10 (ConnectionTokenID ms),
             GetMintVehicleAndSDTypedDataV2 (SetString10 (ConnectionTokenID ms)))
       else (SetString10 (IntegrationTokenID ms),
             GetMintVehicleAndSDTypedData (SetString10 (IntegrationTokenID ms))))
      = (Some id, Some sdTypedData)).
    { destruct (EnableMintingWithConnectionTokenID ms);
        rewrite Hparse, Htyped; reflexivity. }
    rewrite Hbranch. cbv beta iota. rewrite Hsign.
    erewrite bind_Done by reflexivity. cbv beta iota zeta.
    cbv zeta in Hmint.
    destruct (oaSacd args) as [sacd|].
    + erewrite bind_Done by apply Lock_Done. rewrite Hmint. cbv beta iota.
      erewrite bind_Done by (apply Unlock_Done; reflexivity).
      unfold recordMinted.
      erewrite bind_Done by (apply assign_Done; exact Hrec).
      erewrite bind_Done by (apply assign_Done; reflexivity).
      erewrite bind_Done by (apply assign_Done; reflexivity).
      erewrite bind_Done by (apply assign_Done; reflexivity).
      erewrite bind_Done by apply get_Done. reflexivity.
    + erewrite bind_Done by apply Lock_Done. rewrite Hmint. cbv beta iota.
      erewrite bind_Done by (apply Unlock_Done; reflexivity).
      unfold recordMinted.
      erewrite bind_Done by (apply assign_Done; exact Hrec).
      erewrite bind_Done by (apply assign_Done; reflexivity).
      erewrite bind_Done by (apply assign_Done; reflexivity).
      erewrite bind_Done by (apply assign_Done; reflexivity).
      erewrite bind_Done by apply get_Done. reflexivity.
  - erewrite bind_Done by (apply update_Done; [db_ok Hdb | reflexivity]).
    reflexivity.
Qed.

Lemma OnboardingWork_mints (s : state) (r : Vin) sdIndex minted :
  db s !! oaVIN args = Some r ->
  Vin_ r = oaVIN args ->
  props.answering s ->
  OnboardingStatusVendorValidationSuccess <= OnboardingStatus r ->
  OnboardingStatus r <> OnboardingStatusMintSuccess ->
  null.IValid (VehicleTokenID r) = false ->
  props.vendorConnects settings (oaVIN args) ->
  props.mintsVehicleAndSD ms args (null.String_ (DeviceDefinitionID r)) sdIndex minted ->
  exists s',
    OnboardingWorker_Work settings ms None args s = Done None s' /\
    submitted s' = submitted s /\
    locked s' = contended s /\
    db s' = <[oaVIN args :=
               props.onboarded r (null.Int64From (VehicleId minted))
                 (null.Int64From (SyntheticDeviceNode minted))
                 (null.Int64From sdIndex)]> (db s).
Proof.
  intros Hrow Hkey Hdb Hmin Hnot Hveh Hvendor Hmint.
  unfold OnboardingWorker_Work.
  rewrite (bind_Done _ _ _ _ _ (GetVinRecord_Done _ _ _ Hrow)).
  rewrite (bind_Done _ _ _ _ _ (get_Done _)). cbn [record setRecord].
  destruct (Z.ltb_spec (OnboardingStatus r) OnboardingStatusVendorValidationSuccess);
    [lia |].
  destruct (Z.eqb_spec (OnboardingStatus r) OnboardingStatusMintSuccess);
    [contradiction |].
  cbv beta iota. rewrite andb_false_l.
  erewrite bind_Done
    by (apply ConnectToVendor_success; [reflexivity | db_ok Hdb | exact Hvendor]).
  cbv beta iota zeta.
  cbn [VehicleTokenID setOnboardingStatus setLink service.setConnection].
  rewrite Hveh. cbn [negb].
  erewrite bind_Done.
  2:{ eapply MintVehicleWithSD_success; [reflexivity | db_ok Hdb |].
      cbn [DeviceDefinitionID setOnboardingStatus setLink service.setConnection].
      exact Hmint. }
  cbv beta iota.
  cbn [SyntheticTokenID setOnboardingStatus controllers.withSyntheticTokenID
       null.IValid null.Int64From negb].
  erewrite bind_Done by (apply assign_Done; reflexivity).
  erewrite bind_Done by (apply update_Done; [db_ok Hdb | reflexivity]).
  cbv beta iota.
  eexists. split; [reflexivity |].
  split; [reflexivity |]. split; [reflexivity |].
  cbn [db setDb setRecord record contended].
  unfold Update at 4. cbn [Vin_ setOnboardingStatus setLink service.setConnection].
  rewrite Hkey, Hrow.
  unfold Update at 3. cbn [Vin_ setOnboardingStatus setLink service.setConnection].
  rewrite Hkey, lookup_insert_eq.
  unfold Update at 2.
  cbn [Vin_ setOnboardingStatus setLink service.setConnection
       controllers.withSyntheticTokenID controllers.withVehicleTokenID setWalletIndex].
  rewrite Hkey, lookup_insert_eq.
  unfold Update.
  cbn [Vin_ setOnboardingStatus setLink service.setConnection
       controllers.withSyntheticTokenID controllers.withVehicleTokenID setWalletIndex].
  rewrite Hkey, lookup_insert_eq.
  rewrite !insert_insert_eq.
  f_equal; unfold props.onboarded; destruct r; cbn in *; subst; reflexivity.
Qed.

Lemma OnboardingWork_reconnects (s : state) (r : Vin) :
  db s !! oaVIN args = Some r ->
  Vin_ r = oaVIN args ->
  props.answering s ->
  OnboardingStatusVendorValidationSuccess <= OnboardingStatus r ->
  (OnboardingStatus r = OnboardingStatusMintSuccess ->
   null.String_ (ConnectionStatus r) = "failed") ->
  null.IValid (VehicleTokenID r) = true ->
  null.IValid (SyntheticTokenID r) = true ->
  props.vendorConnects settings (oaVIN args) ->
  exists s',
    OnboardingWorker_Work settings ms None args s = Done None s' /\
    submitted s' = submitted s /\
    locked s' = locked s /\
    db s' = <[oaVIN args :=
               props.onboarded r (VehicleTokenID r) (SyntheticTokenID r)
                 (WalletIndex r)]> (db s).
Proof.
  intros Hrow Hkey Hdb Hmin Hfailed Hveh Hsd Hvendor.
  unfold OnboardingWorker_Work.
  rewrite (bind_Done _ _ _ _ _ (GetVinRecord_Done _ _ _ Hrow)).
  rewrite (bind_Done _ _ _ _ _ (get_Done _)). cbn [record setRecord].
  destruct (Z.ltb_spec (OnboardingStatus r) OnboardingStatusVendorValidationSuccess);
    [lia |].
  assert (Hgo : (OnboardingStatus r =? OnboardingStatusMintSuccess)
                && negb (String.eqb (null.String_ (ConnectionStatus r)) "failed")
                = false).
  { destruct (Z.eqb_spec (OnboardingStatus r) OnboardingStatusMintSuccess) as [Heq|];
      [| reflexivity].
    rewrite (Hfailed Heq). reflexivity. }
  rewrite Hgo. cbv beta iota.
  erewrite bind_Done
    by (apply ConnectToVendor_success; [reflexivity | db_ok Hdb | exact Hvendor]).
  cbv beta iota zeta.
  cbn [VehicleTokenID setOnboardingStatus setLink service.setConnection].
  rewrite Hveh. cbn [negb].
  erewrite bind_Done by reflexivity.
  cbv beta iota.
  cbn [SyntheticTokenID setOnboardingStatus setLink service.setConnection].
  rewrite Hsd. cbn [negb].
  erewrite bind_Done by (apply assign_Done; reflexivity).
  erewrite bind_Done by (apply update_Done; [db_ok Hdb | reflexivity]).
  cbv beta iota.
  eexists. split; [reflexivity |].
  split; [reflexivity |]. split; [reflexivity |].
  cbn [db setDb setRecord record].
  unfold Update at 3. cbn [Vin_ setOnboardingStatus setLink service.setConnection].
  rewrite Hkey, Hrow.
  unfold Update at 2. cbn [Vin_ setOnboardingStatus setLink service.setConnection].
  rewrite Hkey, lookup_insert_eq.
  unfold Update. cbn [Vin_ setOnboardingStatus setLink service.setConnection].
  rewrite Hkey, lookup_insert_eq.
  rewrite !insert_insert_eq.
  f_equal; unfold props.onboarded; destruct r; cbn in *; subst; reflexivity.
Qed.

End OnboardingStages.

(** The sample collaborators mint vehicle 101 with device 202 under wallet
    index 7. *)
Lemma sample_mints (args : onboard.OnboardingArgs) (definitionID : string) :
  @props.mintsVehicleAndSD sample.identityNow (sample.sequence 7)
    sample.walletService sample.registry sample.mintSettings args
    definitionID 7 (onboard.mkMinted 101 202).
Proof.
  exists sample.definition, 12.
  eexists. eexists. eexists.
  split; [reflexivity |]. split; [reflexivity |].
  split; [vm_compute; reflexivity |]. split; [vm_compute; reflexivity |].
  split; [reflexivity |]. split; [vm_compute; reflexivity |].
  cbv zeta. destruct (onboard.oaSacd args); reflexivity.
Qed.

Lemma sample_connects (vin : string) :
  @props.vendorConnects (sample.vendorAnswering "capable") sample.settings vin.
Proof. exists [onboarding.mkConnection vin "" "succeeded"]. reflexivity. Qed.

(** X15. The onboarding job for a stored record that is verified (status
    at or past VendorValidationSuccess(23), not MintSuccess(53)) and has
    no vehicle token, when the vendor connects, the database answers, and
    the identity service, the sequence, the wallet and the registry do
    their part: the job returns nil, submits nothing to the facility of
    the burn operations, releases the mutex, and leaves the row at
    MintSuccess(53) with the vehicle token and synthetic token the
    registry reported, the wallet index the sequence handed out,
    connection_status "succeeded" and disconnection_status null; the
    external id, the definition and the error columns are kept. *)
Theorem onboarding_job_mints `{V : onboarding.VendorOnboardingAPI}
    `{I : onboarding.IdentityAPI} `{Q : onboard.Sequence}
    `{W : onboard.SDWalletsAPI} `{T : onboard.MintClient}
    (settings : config.Settings) (ms : onboard.MintSettings)
    (args : onboard.OnboardingArgs) (s : run.state) (r : Vin)
    (sdIndex : Z) (minted : onboard.Minted) :
  run.db s !! onboard.oaVIN args = Some r ->
  Vin_ r = onboard.oaVIN args ->
  props.answering s ->
  OnboardingStatusVendorValidationSuccess <= OnboardingStatus r ->
  OnboardingStatus r <> OnboardingStatusMintSuccess ->
  null.IValid (VehicleTokenID r) = false ->
  props.vendorConnects settings (onboard.oaVIN args) ->
  props.mintsVehicleAndSD ms args (null.String_ (DeviceDefinitionID r)) sdIndex minted ->
  exists s',
    onboard.OnboardingWorker_Work settings ms None args s = run.Done None s' /\
    run.submitted s' = run.submitted s /\
    run.locked s' = run.contended s /\
    run.db s'
    = <[onboard.oaVIN args :=
          props.onboarded r (null.Int64From (onboard.VehicleId minted))
            (null.Int64From (onboard.SyntheticDeviceNode minted))
            (null.Int64From sdIndex)]> (run.db s).
Proof.
  intros Hrow Hkey Hdb Hmin Hnot Hveh Hvendor Hmint.
  eapply OnboardingWork_mints; eassumption.
Qed.

(** Witness of [onboarding_job_mints]: the verified record of [vinA]. *)
Lemma onboarding_job_mints_witness :
  let s := sample.holding sample.verified false in
  let args := onboard.mkOnboardingArgs sample.wallet sample.vinA None [] None in
  run.db s !! onboard.oaVIN args = Some sample.verified /\
  Vin_ sample.verified = onboard.oaVIN args /\
  props.answering s /\
  OnboardingStatusVendorValidationSuccess <= OnboardingStatus sample.verified /\
  OnboardingStatus sample.verified <> OnboardingStatusMintSuccess /\
  null.IValid (VehicleTokenID sample.verified) = false /\
  @props.vendorConnects (sample.vendorAnswering "capable") sample.settings
    (onboard.oaVIN args) /\
  @props.mintsVehicleAndSD sample.identityNow (sample.sequence 7)
    sample.walletService sample.registry sample.mintSettings args
    (null.String_ (DeviceDefinitionID sample.verified)) 7 (onboard.mkMinted 101 202) /\
  exists s',
    @onboard.OnboardingWorker_Work (sample.vendorAnswering "capable")
      sample.identityNow (sample.sequence 7) sample.walletService sample.registry
      sample.settings sample.mintSettings None args s = run.Done None s' /\
    run.db s' !! sample.vinA
    = Some (props.onboarded sample.verified (null.Int64From 101)
              (null.Int64From 202) (null.Int64From 7)).
Proof.
  cbv zeta.
  assert (Hrow : run.db (sample.holding sample.verified false)
                   !! onboard.oaVIN
                        (onboard.mkOnboardingArgs sample.wallet sample.vinA None [] None)
                 = Some sample.verified) by (vm_compute; reflexivity).
  assert (Hdb : props.answering (sample.holding sample.verified false))
    by (split; [| split]; reflexivity).
  assert (Hmin : OnboardingStatusVendorValidationSuccess
                 <= OnboardingStatus sample.verified) by (vm_compute; discriminate).
  assert (Hnot : OnboardingStatus sample.verified <> OnboardingStatusMintSuccess)
    by (vm_compute; discriminate).
  split; [exact Hrow |]. split; [reflexivity |]. split; [exact Hdb |].
  split; [exact Hmin |]. split; [exact Hnot |]. split; [reflexivity |].
  split; [exact (sample_connects _) |]. split; [exact (sample_mints _ _) |].
  destruct (@onboarding_job_mints (sample.vendorAnswering "capable")
              sample.identityNow (sample.sequence 7) sample.walletService
              sample.registry sample.settings sample.mintSettings _ _ _ 7
              (onboard.mkMinted 101 202) Hrow eq_refl Hdb Hmin Hnot eq_refl
              (sample_connects _) (sample_mints _ _))
    as (s' & Hout & _ & _ & Hfinal).
  exists s'. split; [exact Hout |]. rewrite Hfinal. apply lookup_insert_eq.
Defined.

(** X16. The onboarding job for a stored record that has both tokens and
    is verified, and is either not at MintSuccess(53) or at MintSuccess
    with connection_status "failed": when the vendor connects and the
    database answers, the job mints nothing, returns nil and leaves the
    row at MintSuccess(53) with connection_status "succeeded" and
    disconnection_status null. The tokens, the wallet index, the external
    id, the definition and the operation-error columns keep their values:
    the error of a failed enrollment stays in the row after the
    reconnection, and a disconnected record (status 73) is put back to
    53. *)
Theorem onboarding_job_reconnects `{V : onboarding.VendorOnboardingAPI}
    `{I : onboarding.IdentityAPI} `{Q : onboard.Sequence}
    `{W : onboard.SDWalletsAPI} `{T : onboard.MintClient}
    (settings : config.Settings) (ms : onboard.MintSettings)
    (args : onboard.OnboardingArgs) (s : run.state) (r : Vin) :
  run.db s !! onboard.oaVIN args = Some r ->
  Vin_ r = onboard.oaVIN args ->
  props.answering s ->
  OnboardingStatusVendorValidationSuccess <= OnboardingStatus r ->
  (OnboardingStatus r = OnboardingStatusMintSuccess ->
   null.String_ (ConnectionStatus r) = "failed") ->
  null.IValid (VehicleTokenID r) = true ->
  null.IValid (SyntheticTokenID r) = true ->
  props.vendorConnects settings (onboard.oaVIN args) ->
  exists s',
    onboard.OnboardingWorker_Work settings ms None args s = run.Done None s' /\
    run.submitted s' = run.submitted s /\
    run.locked s' = run.locked s /\
    run.db s'
    = <[onboard.oaVIN args :=
          props.onboarded r (VehicleTokenID r) (SyntheticTokenID r)
            (WalletIndex r)]> (run.db s).
Proof.
  intros Hrow Hkey Hdb Hmin Hfailed Hveh Hsd Hvendor.
  eapply OnboardingWork_reconnects; eassumption.
Qed.

(** Witness of [onboarding_job_reconnects]: the record after the
    vendor-side disconnect (status 73) is put back to 53. *)
Lemma onboarding_job_reconnects_witness :
  let s := sample.holding sample.disconnected false in
  let args := onboard.mkOnboardingArgs sample.wallet sample.vinA None [] None in
  run.db s !! onboard.oaVIN args = Some sample.disconnected /\
  Vin_ sample.disconnected = onboard.oaVIN args /\
  props.answering s /\
  OnboardingStatusVendorValidationSuccess <= OnboardingStatus sample.disconnected /\
  (OnboardingStatus sample.disconnected = OnboardingStatusMintSuccess ->
   null.String_ (ConnectionStatus sample.disconnected) = "failed") /\
  null.IValid (VehicleTokenID sample.disconnected) = true /\
  null.IValid (SyntheticTokenID sample.disconnected) = true /\
  @props.vendorConnects (sample.vendorAnswering "capable") sample.settings
    (onboard.oaVIN args) /\
  exists s',
    @onboard.OnboardingWorker_Work (sample.vendorAnswering "capable")
      sample.identityNow (sample.sequence 7) sample.walletService sample.registry
      sample.settings sample.mintSettings None args s = run.Done None s' /\
    OnboardingStatus <$> (run.db s' !! sample.vinA) = Some OnboardingStatusMintSuccess.
Proof.
  cbv zeta.
  assert (Hrow : run.db (sample.holding sample.disconnected false)
                   !! onboard.oaVIN
                        (onboard.mkOnboardingArgs sample.wallet sample.vinA None [] None)
                 = Some sample.disconnected) by (vm_compute; reflexivity).
  assert (Hdb : props.answering (sample.holding sample.disconnected false))
    by (split; [| split]; reflexivity).
  assert (Hmin : OnboardingStatusVendorValidationSuccess
                 <= OnboardingStatus sample.disconnected)
    by (vm_compute; discriminate).
  assert (Hfailed : OnboardingStatus sample.disconnected = OnboardingStatusMintSuccess ->
                    null.String_ (ConnectionStatus sample.disconnected) = "failed")
    by (vm_compute; discriminate).
  split; [exact Hrow |]. split; [reflexivity |]. split; [exact Hdb |].
  split; [exact Hmin |]. split; [exact Hfailed |]. split; [reflexivity |].
  split; [reflexivity |]. split; [exact (sample_connects _) |].
  destruct (@onboarding_job_reconnects (sample.vendorAnswering "capable")
              sample.identityNow (sample.sequence 7) sample.walletService
              sample.registry sample.settings sample.mintSettings _ _ _
              Hrow eq_refl Hdb Hmin Hfailed eq_refl eq_refl (sample_connects _))
    as (s' & Hout & _ & _ & Hfinal).
  exists s'. split; [exact Hout |]. rewrite Hfinal.
  rewrite lookup_insert_eq. reflexivity.
Defined.

Section WalletIndex.
Import run onboarding onboard.
Context `{L : sdwallets.KeyLibrary}.
Context `{I : IdentityAPI} `{Q : Sequence} `{T : MintClient}.
Variable TypedDataAndHash : TypedData -> list Z + error.
Variable key : sdwallets.ExtendedKey.
Variable ms : MintSettings.
Variable args : OnboardingArgs.

Lemma MintVehicleWithSD_index_refused (s : state) (r : Vin) dd (index : Z) :
  record s = Some r ->
  props.answering s ->
  FetchDeviceDefinitionByID 0 (null.String_ (DeviceDefinitionID r)) = (dd, None) ->
  nextval = inl index ->
  2 ^ 31 <= index ->
  let r' := setOnboardingStatus OnboardingStatusMintFailure r in
  @MintVehicleWithSDAndUpdate I Q (SDWalletsService TypedDataAndHash key) T ms args s
  = Done (None, Some (New ("child_number " +:+ pretty index +:+ " >= 2^31")))
      (setDb (Update [ColOnboardingStatus; ColVehicleTokenID; ColSyntheticTokenID;
                      ColWalletIndex] r' (db s))
         (setRecord (Some r') s)).
Proof.
  intros Hrec Hdb Hfetch Hnext Hidx r'.
  unfold MintVehicleWithSDAndUpdate. eapply defer_Done.
  - erewrite bind_Done by apply get_Done. rewrite Hrec. cbv beta iota.
    rewrite Hfetch. cbv beta iota.
    erewrite bind_Done by (apply GetNextSDWalletIndex_Done; [exact Hdb | exact Hnext]).
    cbv beta iota.
    cbn [GetAddress SDWalletsService]. unfold sdwallets.GetAddress.
    rewrite (getPrivateKey_hardened_index key index Hidx).
    erewrite bind_Done by reflexivity. cbv beta iota. unfold fail.
    erewrite bind_Done by (apply assign_Done; exact Hrec). reflexivity.
  - erewrite bind_Done by (apply update_Done; [db_ok Hdb | reflexivity]).
    reflexivity.
Qed.

End WalletIndex.



(** ** The submit handlers and the table *)

Section SubmitHandlers.
Import service controllers api props.

Lemma indexVins_snoc (l : list Vin) (x : Vin) :
  indexVins (l ++ [x]) = <[Vin_ x := x]> (indexVins l).
Proof. unfold indexVins. rewrite foldl_app. reflexivity. Qed.

Lemma indexVins_Some (l : list Vin) (k : string) (r : Vin) :
  indexVins l !! k = Some r -> r ∈ l /\ Vin_ r = k.
Proof.
  induction l as [|x l IH] using rev_ind.
  - unfold indexVins. cbn. rewrite lookup_empty. discriminate.
  - rewrite indexVins_snoc, lookup_insert. case_decide as Hk.
    + intros [= ->]. split; [| exact Hk]. apply elem_of_app. right.
      apply list_elem_of_here.
    + intros Hidx. destruct (IH Hidx) as [Hin Hkey]. split; [| exact Hkey].
      apply elem_of_app. left. exact Hin.
Qed.

Lemma indexVins_None (l : list Vin) (k : string) (r : Vin) :
  indexVins l !! k = None -> r ∈ l -> Vin_ r <> k.
Proof.
  induction l as [|x l IH] using rev_ind.
  - intros _ Hin. apply elem_of_nil in Hin. contradiction.
  - rewrite indexVins_snoc, lookup_insert. case_decide as Hk; [discriminate |].
    intros Hidx Hin. apply elem_of_app in Hin as [Hin | Hin]; [auto |].
    apply list_elem_of_singleton in Hin. subst r. exact Hk.
Qed.

Lemma GetVehiclesByVins_rows (f : faults) (t : gmap string Vin) ids dbVins :
  keyed t ->
  GetVehiclesByVins f t ids = (dbVins, None) ->
  forall r, r ∈ dbVins <-> t !! Vin_ r = Some r /\ Vin_ r ∈ ids.
Proof.
  intros Hkeyed. unfold GetVehiclesByVins.
  destruct (beginErr f); [discriminate |].
  destruct (fetchErr f) as [err|]; [destruct (IsNoRows err); discriminate |].
  intros [= <-] r.
  rewrite elem_of_List_filter, (elem_of_rows_keyed _ _ Hkeyed), bool_decide_eq_true.
  reflexivity.
Qed.

Lemma indexes_lookup (f : faults) (t : gmap string Vin) ids dbVins extra :
  keyed t ->
  GetVehiclesByVins f t ids = (dbVins, None) ->
  (forall r, r ∈ extra -> t !! Vin_ r = Some r) ->
  indexes t ids (indexVins (dbVins ++ extra)).
Proof.
  intros Hkeyed Hget Hextra.
  pose proof (GetVehiclesByVins_rows _ _ _ _ Hkeyed Hget) as Hrows.
  split.
  - intros k r Hidx. apply indexVins_Some in Hidx as [Hin <-].
    split; [| reflexivity].
    apply elem_of_app in Hin as [Hin | Hin]; [apply Hrows in Hin; tauto | auto].
  - intros k Hk Hidx. destruct (t !! k) as [r|] eqn:Hrow; [| reflexivity].
    exfalso. pose proof (Hkeyed _ _ Hrow) as Hkey.
    apply (indexVins_None _ _ r Hidx); [| exact Hkey].
    apply elem_of_app. left. apply Hrows. rewrite Hkey. auto.
Qed.

Lemma indexes_plain (f : faults) (t : gmap string Vin) ids dbVins :
  keyed t ->
  GetVehiclesByVins f t ids = (dbVins, None) ->
  indexes t ids (indexVins dbVins).
Proof.
  intros Hkeyed Hget. rewrite <- (app_nil_r dbVins).
  eapply indexes_lookup; [exact Hkeyed | exact Hget |].
  intros r Hin. apply elem_of_nil in Hin. contradiction.
Qed.

Lemma onlyFresh_refl code (t : gmap string Vin) : onlyFresh code t t.
Proof. intros k. left. reflexivity. Qed.

Lemma upsert_fresh code (t cur : gmap string Vin) ids idx (f : faults) (vin : string) :
  indexes t ids idx -> vin ∈ ids ->
  onlyFresh code t cur ->
  let dbVin := match idx !! vin with Some r => r | None => newVin vin code end in
  onlyFresh code t (fst (InsertOrUpdateVin f cur dbVin)).
Proof.
  intros [Hsome Hnone] Hvin Hcur dbVin. unfold InsertOrUpdateVin.
  destruct (beginErr f); [exact Hcur |].
  destruct (writeErr f); [exact Hcur |].
  destruct (commitErr f); [exact Hcur |]. cbn [fst].
  assert (Hkey : Vin_ dbVin = vin).
  { subst dbVin. destruct (idx !! vin) as [r|] eqn:Hidx; [| reflexivity].
    apply (Hsome _ _ Hidx). }
  rewrite Hkey. intros k. rewrite lookup_insert. case_decide as Hk.
  - subst k. subst dbVin. destruct (idx !! vin) as [r|] eqn:Hidx.
    + left. symmetry. apply (Hsome _ _ Hidx).
    + right. split; [apply Hnone; assumption | reflexivity].
  - apply Hcur.
Qed.

Lemma submitEach_fresh (e : controllers.env) (t : gmap string Vin) ids idx :
  indexes t ids idx ->
  forall items cur eff statuses,
    (forall item, item ∈ items -> ccVin item ∈ ids) ->
    onlyFresh OnboardingStatusSubmitUnknown t cur ->
    onlyFresh OnboardingStatusSubmitUnknown t
      (snd (fst (submitEach e idx items cur eff statuses))).
Proof.
  intros Hidx items. induction items as [|item items IH];
    intros cur eff statuses Hids Hcur; [exact Hcur |].
  cbn [submitEach].
  pose proof (upsert_fresh _ t cur ids idx
                (controllers.upsertFaults e
                   match idx !! ccVin item with
                   | Some r => r
                   | None => newVin (ccVin item) OnboardingStatusSubmitUnknown
                   end)
                (ccVin item) Hidx (Hids _ (list_elem_of_here _ _)) Hcur) as Hstep.
  cbv zeta in Hstep |- *.
  destruct (InsertOrUpdateVin _ cur _) as [cur' [err|]]; cbn [fst] in Hstep.
  - repeat case_match; exact Hstep.
  - repeat case_match; apply IH; try exact Hstep;
      intros it Hit; apply Hids; apply list_elem_of_further; exact Hit.
Qed.

Lemma mintEach_fresh (e : env) wallet sacd (t : gmap string Vin) ids idx :
  indexes t ids idx ->
  forall items cur calls statuses,
    (forall item, item ∈ items -> tdVin item ∈ ids) ->
    onlyFresh OnboardingStatusMintSubmitUnknown t cur ->
    onlyFresh OnboardingStatusMintSubmitUnknown t
      (snd (fst (mintEach e wallet sacd idx items cur calls statuses))).
Proof.
  intros Hidx items. induction items as [|item items IH];
    intros cur calls statuses Hids Hcur; [exact Hcur |].
  cbn [mintEach].
  pose proof (upsert_fresh _ t cur ids idx
                (upsertFaults e match idx !! tdVin item with
                                | Some r => r
                                | None => newVin (tdVin item) OnboardingStatusMintSubmitUnknown
                                end)
                (tdVin item) Hidx (Hids _ (list_elem_of_here _ _)) Hcur) as Hstep.
  cbv zeta in Hstep |- *.
  destruct (InsertOrUpdateVin _ cur _) as [cur' [err|]]; cbn [fst] in Hstep.
  - repeat case_match; exact Hstep.
  - repeat case_match; apply IH; try exact Hstep;
      intros it Hit; apply Hids; apply list_elem_of_further; exact Hit.
Qed.

Lemma disconnectEach_fresh (e : env) (t : gmap string Vin) ids idx :
  indexes t ids idx ->
  forall items cur calls statuses,
    (forall item, item ∈ items -> odVin item ∈ ids) ->
    onlyFresh OnboardingStatusDisconnectSubmitUnknown t cur ->
    onlyFresh OnboardingStatusDisconnectSubmitUnknown t
      (snd (fst (disconnectEach e idx items cur calls statuses))).
Proof.
  intros Hidx items. induction items as [|item items IH];
    intros cur calls statuses Hids Hcur; [exact Hcur |].
  cbn [disconnectEach].
  pose proof (upsert_fresh _ t cur ids idx
                (upsertFaults e match idx !! odVin item with
                                | Some r => r
                                | None => newVin (odVin item)
                                            OnboardingStatusDisconnectSubmitUnknown
                                end)
                (odVin item) Hidx (Hids _ (list_elem_of_here _ _)) Hcur) as Hstep.
  cbv zeta in Hstep |- *.
  destruct (InsertOrUpdateVin _ cur _) as [cur' [err|]]; cbn [fst] in Hstep.
  - repeat case_match; first [exact Hstep | exact Hcur].
  - repeat case_match; first [exact Hcur | apply IH]; try exact Hstep;
      intros it Hit; apply Hids; apply list_elem_of_further; exact Hit.
Qed.

Lemma deleteEach_fresh (e : env) (t : gmap string Vin) ids idx :
  indexes t ids idx ->
  forall items cur calls statuses,
    (forall item, item ∈ items -> odVin item ∈ ids) ->
    onlyFresh OnboardingStatusDeleteSubmitUnknown t cur ->
    onlyFresh OnboardingStatusDeleteSubmitUnknown t
      (snd (fst (deleteEach e idx items cur calls statuses))).
Proof.
  intros Hidx items. induction items as [|item items IH];
    intros cur calls statuses Hids Hcur; [exact Hcur |].
  cbn [deleteEach].
  pose proof (upsert_fresh _ t cur ids idx
                (upsertFaults e match idx !! odVin item with
                                | Some r => r
                                | None => newVin (odVin item)
                                            OnboardingStatusDeleteSubmitUnknown
                                end)
                (odVin item) Hidx (Hids _ (list_elem_of_here _ _)) Hcur) as Hstep.
  cbv zeta in Hstep |- *.
  destruct (InsertOrUpdateVin _ cur _) as [cur' [err|]]; cbn [fst] in Hstep.
  - repeat case_match; first [exact Hstep | exact Hcur].
  - repeat case_match; first [exact Hcur | apply IH]; try exact Hstep;
      intros it Hit; apply Hids; apply list_elem_of_further; exact Hit.
Qed.

Lemma minted_rows (f : faults) (t : gmap string Vin) ids status mintedVins err :
  keyed t ->
  GetVehiclesByVinsAndOnboardingStatus f t ids status = (mintedVins, err) ->
  forall r, r ∈ mintedVins -> t !! Vin_ r = Some r.
Proof.
  intros Hkeyed. unfold GetVehiclesByVinsAndOnboardingStatus.
  destruct (beginErr f); [intros [= <- <-] r Hin; apply elem_of_nil in Hin; contradiction |].
  destruct (fetchErr f) as [e|].
  - destruct (IsNoRows e); intros [= <- <-] r Hin; apply elem_of_nil in Hin;
      contradiction.
  - intros [= <- <-] r Hin. apply elem_of_List_filter in Hin as [Hin _].
    apply (elem_of_rows_keyed _ _ Hkeyed). exact Hin.
Qed.

Lemma SubmitVerification_fresh settings (e : controllers.env) params
    (t : gmap string Vin) :
  keyed t ->
  onlyFresh OnboardingStatusSubmitUnknown t
    (snd (fst (SubmitVerificationForVins settings e t params))).
Proof.
  intros Hkeyed. unfold SubmitVerificationForVins.
  destruct params as [|paramsVins]; [apply onlyFresh_refl |].
  cbv zeta.
  destruct (negb (_ =? _)%nat); [apply onlyFresh_refl |].
  destruct (negb (_ =? _)%nat); [apply onlyFresh_refl |].
  destruct (0 <? _)%nat; [| apply onlyFresh_refl].
  destruct (GetVehiclesByVins _ t _) as [dbVins [err|]] eqn:Hget.
  - destruct (IsNoRows err); apply onlyFresh_refl.
  - eapply submitEach_fresh.
    + eapply indexes_plain; [exact Hkeyed | exact Hget].
    + intros item Hin. apply list_elem_of_fmap. exists item. auto.
    + apply onlyFresh_refl.
Qed.

Lemma SubmitMint_fresh settings (e : env) wallet params (t : gmap string Vin) :
  keyed t ->
  onlyFresh OnboardingStatusMintSubmitUnknown t
    (snd (fst (SubmitMintDataForVins settings e wallet params t))).
Proof.
  intros Hkeyed. unfold SubmitMintDataForVins.
  destruct wallet as [wallet|]; [| apply onlyFresh_refl].
  destruct params as [params|]; [| apply onlyFresh_refl].
  destruct (validateAll _ _) as [valid | [msg|]]; try apply onlyFresh_refl.
  cbv zeta.
  destruct (negb (_ =? _)%nat); [apply onlyFresh_refl |].
  destruct (negb (_ =? _)%nat); [apply onlyFresh_refl |].
  destruct (0 <? _)%nat; [| apply onlyFresh_refl].
  destruct (GetVehiclesByVins _ t _) as [dbVins [err|]] eqn:Hget.
  - destruct (IsNoRows err); apply onlyFresh_refl.
  - destruct (GetVehiclesByVinsAndOnboardingStatus _ t _ _) as [mintedVins err] eqn:Hminted.
    destruct (match err with Some _ => _ | None => false end);
      [apply onlyFresh_refl |].
    eapply mintEach_fresh.
    + eapply indexes_lookup; [exact Hkeyed | exact Hget |].
      intros r Hin. apply elem_of_List_filter in Hin as [Hin _].
      eapply minted_rows; eassumption.
    + intros item Hin. apply list_elem_of_fmap. exists item. auto.
    + apply onlyFresh_refl.
Qed.

Lemma SubmitDisconnect_fresh settings (e : env) wallet params (t : gmap string Vin) :
  keyed t ->
  onlyFresh OnboardingStatusDisconnectSubmitUnknown t
    (snd (fst (SubmitDisconnectDataForVins settings e wallet params t))).
Proof.
  intros Hkeyed. unfold SubmitDisconnectDataForVins.
  destruct wallet as [wallet|]; [| apply onlyFresh_refl].
  destruct params as [params|]; [| apply onlyFresh_refl].
  destruct (validateAll _ _) as [valid | [msg|]]; try apply onlyFresh_refl.
  cbv zeta.
  destruct (negb (_ =? _)%nat); [apply onlyFresh_refl |].
  destruct (negb (_ =? _)%nat); [apply onlyFresh_refl |].
  destruct (0 <? _)%nat; [| apply onlyFresh_refl].
  destruct (GetVehiclesByVins _ t _) as [dbVins [err|]] eqn:Hget.
  - destruct (IsNoRows err); apply onlyFresh_refl.
  - eapply disconnectEach_fresh.
    + eapply indexes_plain; [exact Hkeyed | exact Hget].
    + intros item Hin. apply list_elem_of_fmap. exists item. auto.
    + apply onlyFresh_refl.
Qed.

Lemma SubmitDelete_fresh settings (e : env) wallet params (t : gmap string Vin) :
  keyed t ->
  onlyFresh OnboardingStatusDeleteSubmitUnknown t
    (snd (fst (SubmitDeleteDataForVins settings e wallet params t))).
Proof.
  intros Hkeyed. unfold SubmitDeleteDataForVins.
  destruct wallet as [wallet|]; [| apply onlyFresh_refl].
  destruct params as [params|]; [| apply onlyFresh_refl].
  destruct (validateAll _ _) as [valid | [msg|]]; try apply onlyFresh_refl.
  cbv zeta.
  destruct (negb (_ =? _)%nat); [apply onlyFresh_refl |].
  destruct (negb (_ =? _)%nat); [apply onlyFresh_refl |].
  destruct (0 <? _)%nat; [| apply onlyFresh_refl].
  destruct (GetVehiclesByVins _ t _) as [dbVins [err|]] eqn:Hget.
  - destruct (IsNoRows err); apply onlyFresh_refl.
  - eapply deleteEach_fresh.
    + eapply indexes_plain; [exact Hkeyed | exact Hget].
    + intros item Hin. apply list_elem_of_fmap. exists item. auto.
    + apply onlyFresh_refl.
Qed.

Lemma SubmitMint_unknown settings wallet vin signature sacd (t : gmap string Vin) :
  keyed t ->
  isValidVin settings (TrimSpace vin) = true ->
  t !! TrimSpace vin = None ->
  let v := TrimSpace vin in
  let job := onboard.mkOnboardingArgs wallet v None signature (sacdOf sacd) in
  let fresh := newVin v OnboardingStatusMintSubmitUnknown in
  SubmitMintDataForVins settings quiet (Some wallet)
    (Some (mkMintData [mkTransactionData vin None signature] sacd)) t
  = (Replies (mkResponse StatusOK
                (StatusesBody [mkVinStatus v "Pending" "MintSubmitPending"])),
     <[v := fresh]> t,
     [Lookup [v]; LookupStatus [v] OnboardingStatusMintSuccess;
      InsertOnboard job; Upsert fresh]).
Proof.
  intros Hkeyed Hvalid Hrow v job fresh.
  change (TrimSpace vin) with v in Hvalid, Hrow.
  unfold SubmitMintDataForVins.
  cbn [validateAll VinMintingData]. unfold getValidatedMintingData.
  cbn [tdVin tdTypedData tdSignature]. change (TrimSpace vin) with v.
  rewrite Hvalid. cbn [negb].
  cbv zeta. cbn [List.map tdVin length Compact Nat.eqb Nat.ltb Nat.leb negb].
  destruct (GetVehiclesByVins (lookupFaults quiet) t [v]) as [dbVins err] eqn:Hget.
  assert (err = None) as -> by (cbn in Hget; congruence).
  destruct (GetVehiclesByVinsAndOnboardingStatus (mintedFaults quiet) t [v]
              OnboardingStatusMintSuccess) as [mintedVins err] eqn:Hminted.
  assert (err = None) as -> by (cbn in Hminted; congruence).
  cbv beta iota.
  assert (Hidx : indexVins (dbVins ++ List.filter
                   (fun vin0 => String.eqb (null.String_ (ConnectionStatus vin0)) "failed")
                   mintedVins) !! v = None).
  { destruct (indexVins _ !! v) as [r|] eqn:Hidx; [| reflexivity].
    exfalso.
    assert (Hix : indexes t [v] (indexVins (dbVins ++ List.filter
                   (fun vin0 => String.eqb (null.String_ (ConnectionStatus vin0)) "failed")
                   mintedVins))).
    { eapply indexes_lookup; [exact Hkeyed | exact Hget |].
      intros r0 Hin. apply elem_of_List_filter in Hin as [Hin _].
      eapply minted_rows; eassumption. }
    destruct Hix as [Hsome _]. destruct (Hsome _ _ Hidx) as [Hr _]. congruence. }
  cbn [mintEach tdVin tdTypedData tdSignature]. rewrite Hidx.
  reflexivity.
Qed.

End SubmitHandlers.

(** X18. The four submit handlers (verification, mint, disconnect, delete)
    write nothing but fresh rows: whatever the request and the failures of
    the collaborators, every row of the table is afterwards as it was
    before, so the status "Pending" that a handler answers for an admitted
    VIN is not stored, and a key without a row either still has none or
    holds the fresh record of the handler, at SubmitUnknown(0),
    MintSubmitUnknown(30), DisconnectSubmitUnknown(60) or
    DeleteSubmitUnknown(90), with every other column at its zero value. *)
Theorem submit_handlers_write_fresh_rows
    (settings : config.Settings) (t : gmap string Vin) :
  props.keyed t ->
  (forall e params,
     props.onlyFresh OnboardingStatusSubmitUnknown t
       (snd (fst (controllers.SubmitVerificationForVins settings e t params)))) /\
  (forall e wallet params,
     props.onlyFresh OnboardingStatusMintSubmitUnknown t
       (snd (fst (api.SubmitMintDataForVins settings e wallet params t)))) /\
  (forall e wallet params,
     props.onlyFresh OnboardingStatusDisconnectSubmitUnknown t
       (snd (fst (api.SubmitDisconnectDataForVins settings e wallet params t)))) /\
  (forall e wallet params,
     props.onlyFresh OnboardingStatusDeleteSubmitUnknown t
       (snd (fst (api.SubmitDeleteDataForVins settings e wallet params t)))).
Proof.
  intros Hkeyed. repeat split; intros.
  - apply SubmitVerification_fresh. exact Hkeyed.
  - apply SubmitMint_fresh. exact Hkeyed.
  - apply SubmitDisconnect_fresh. exact Hkeyed.
  - apply SubmitDelete_fresh. exact Hkeyed.
Qed.

(** Witness of [submit_handlers_write_fresh_rows]: a disconnect submission
    for the minted record answers "Pending" and leaves its row at 53. *)
Lemma submit_handlers_write_fresh_rows_witness :
  let t : gmap string Vin := {[sample.vinA := sample.minted]} in
  let request :=
    [api.mkOperationData sample.vinA (Some (api.mkUserOperation 8 [])) [] [1; 2]] in
  let out := api.SubmitDisconnectDataForVins sample.settings api.quiet
               (Some sample.wallet) (Some request) t in
  props.keyed t /\
  fst (fst out)
  = api.Replies (controllers.mkResponse controllers.StatusOK
      (controllers.StatusesBody
         [controllers.mkVinStatus sample.vinA "Pending" "DisconnectSubmitPending"])) /\
  snd (fst out) !! sample.vinA = Some sample.minted.
Proof.
  cbv zeta.
  assert (Hk : props.keyed {[sample.vinA := sample.minted]})
    by exact (keyed_singleton sample.minted).
  split; [exact Hk |]. split; [vm_compute; reflexivity |].
  destruct (submit_handlers_write_fresh_rows sample.settings _ Hk)
    as (_ & _ & Hdisconnect & _).
  destruct (Hdisconnect api.quiet (Some sample.wallet)
              (Some [api.mkOperationData sample.vinA
                       (Some (api.mkUserOperation 8 [])) [] [1; 2]]) sample.vinA)
    as [Hsame | [Hnone _]].
  - rewrite Hsame. vm_compute. reflexivity.
  - vm_compute in Hnone. discriminate Hnone.
Defined.



(** ** The listing, data and status handlers *)

Section Listing.
Import service controllers api props.

Lemma indexIdentity_snoc (l : list Vehicle) (x : Vehicle) :
  indexIdentity (l ++ [x]) = <[TokenID x := x]> (indexIdentity l).
Proof. unfold indexIdentity. rewrite foldl_app. reflexivity. Qed.

Lemma indexIdentity_Some (l : list Vehicle) (k : Z) (v : Vehicle) :
  indexIdentity l !! k = Some v -> v ∈ l /\ TokenID v = k.
Proof.
  induction l as [|x l IH] using rev_ind.
  - unfold indexIdentity. cbn. rewrite lookup_empty. discriminate.
  - rewrite indexIdentity_snoc, lookup_insert. case_decide as Hk.
    + intros [= ->]. split; [| exact Hk]. apply elem_of_app. right.
      apply list_elem_of_here.
    + intros Hidx. destruct (IH Hidx) as [Hin Hkey]. split; [| exact Hkey].
      apply elem_of_app. left. exact Hin.
Qed.

Lemma listVehicles_sound identityVehicles (t : gmap string Vin) (vins : list Vin) :
  forall acc,
    (forall r, r ∈ vins -> r ∈ rows t /\ null.IValid (VehicleTokenID r) = true) ->
    Forall (listedFrom identityVehicles t) acc ->
    exists vs, listVehicles (indexIdentity identityVehicles) vins acc = Vehicles vs /\
               Forall (listedFrom identityVehicles t) vs.
Proof.
  induction vins as [|r vins IH]; intros acc Hvins Hacc; [eauto |].
  cbn [listVehicles].
  destruct (Hvins r (list_elem_of_here _ _)) as [Hrow Hvalid]. rewrite Hvalid.
  assert (Hrest : forall r0, r0 ∈ vins ->
            r0 ∈ rows t /\ null.IValid (VehicleTokenID r0) = true)
    by (intros r0 Hin; apply Hvins, list_elem_of_further, Hin).
  destruct (indexIdentity identityVehicles !! _) as [v|] eqn:Hidx.
  - apply IH; [exact Hrest |]. apply Forall_app. split; [exact Hacc |].
    apply Forall_singleton. apply indexIdentity_Some in Hidx as [Hin Htok].
    exists r, v. auto.
  - apply IH; assumption.
Qed.

Lemma GetVehicles_lists (c : chain) (f : faults) wallet (t : gmap string Vin) :
  (forall msg, GetVehicles c f wallet t <> VehiclesPanic msg) /\
  (forall vs, GetVehicles c f wallet t = Vehicles vs ->
     exists w identityVehicles,
       wallet = Some w /\
       FetchVehiclesByWalletAddress c w = inl identityVehicles /\
       Forall (listedFrom identityVehicles t) vs).
Proof.
  unfold GetVehicles.
  destruct wallet as [w|]; [| split; [discriminate | discriminate]].
  destruct (FetchVehiclesByWalletAddress c w) as [identityVehicles | err] eqn:Hfetch;
    [| split; discriminate].
  cbv zeta. unfold GetVinsByTokenIDs.
  destruct (fetchErr f); [split; discriminate |].
  destruct (listVehicles_sound identityVehicles t
              (List.filter (fun r => null.IValid (VehicleTokenID r)
                                     && bool_decide (null.Int64_ (VehicleTokenID r)
                                                     ∈ List.map TokenID identityVehicles))
                 (rows t)) [])
    as (vs & Hvs & Hall).
  - intros r Hin. apply elem_of_List_filter in Hin as [Hin Hp].
    apply andb_true_iff in Hp as [Hvalid _]. auto.
  - constructor.
  - rewrite Hvs. split; [discriminate |].
    intros vs' [= <-]. eauto.
Qed.

Lemma GetVehicleByExternalID_handler (c : chain) w externalID
    (t : gmap string Vin) identityVehicles :
  FetchVehiclesByWalletAddress c w = inl identityVehicles ->
  ((forall r, r ∈ rows t ->
      null.SValid (ExternalID r) && String.eqb (null.String_ (ExternalID r)) externalID
      = false) ->
   GetVehicleByExternalID c noFaults (Some w) externalID t
   = reply StatusInternalServerError "Failed to load vehicle from Database") /\
  (forall r, service.GetVehicleByExternalID noFaults t externalID = (Some r, None) ->
     null.IValid (VehicleTokenID r) = false ->
     GetVehicleByExternalID c noFaults (Some w) externalID t
     = Panics "interface conversion: interface {} is nil, not int64").
Proof.
  intros Hfetch. unfold GetVehicleByExternalID. rewrite Hfetch. split.
  - intros Hnone. unfold service.GetVehicleByExternalID. cbn.
    destruct (List.find _ (rows t)) as [r|] eqn:Hfind.
    + apply List.find_some in Hfind as [Hin Hp].
      apply list_elem_of_In in Hin. rewrite (Hnone r Hin) in Hp. discriminate.
    + reflexivity.
  - intros r -> Hnull. rewrite Hnull. reflexivity.
Qed.

End Listing.

(** X20. The handler of GET /v1/vehicle/:externalID, with the identity
    service and the database answering. When no stored row carries the
    external id, it answers 500 "Failed to load vehicle from Database",
    not 404: the store reports the miss with a new error that is not the
    sentinel the handler tests. When the row found has a null vehicle
    token, the handler panics in the type assertion on the token value. *)
Theorem GetVehicleByExternalID_handler_spec (c : api.chain) (w externalID : string)
    (t : gmap string Vin) (identityVehicles : list controllers.Vehicle) :
  api.FetchVehiclesByWalletAddress c w = inl identityVehicles ->
  ((forall r, r ∈ service.rows t ->
      null.SValid (ExternalID r) && String.eqb (null.String_ (ExternalID r)) externalID
      = false) ->
   api.GetVehicleByExternalID c service.noFaults (Some w) externalID t
   = api.reply controllers.StatusInternalServerError
       "Failed to load vehicle from Database") /\
  (forall r,
     service.GetVehicleByExternalID service.noFaults t externalID = (Some r, None) ->
     null.IValid (VehicleTokenID r) = false ->
     api.GetVehicleByExternalID c service.noFaults (Some w) externalID t
     = api.Panics "interface conversion: interface {} is nil, not int64").
Proof. apply GetVehicleByExternalID_handler. Qed.

(** Witness of [GetVehicleByExternalID_handler_spec]: an enrolled record
    whose vehicle token was never set. *)
Lemma GetVehicleByExternalID_handler_spec_witness :
  let t : gmap string Vin := {[sample.vinA := sample.enrolledUnminted]} in
  api.FetchVehiclesByWalletAddress (sample.ledger 202) sample.wallet
  = inl [controllers.mkVehicle "" 101 sample.wallet "dd-1" 202] /\
  api.GetVehicleByExternalID (sample.ledger 202) service.noFaults
    (Some sample.wallet) "veh-1" t
  = api.Panics "interface conversion: interface {} is nil, not int64".
Proof.
  cbv zeta. split; [reflexivity |].
  destruct (GetVehicleByExternalID_handler_spec (sample.ledger 202) sample.wallet
              "veh-1" {[sample.vinA := sample.enrolledUnminted]} _ eq_refl)
    as [_ Hpanic].
  apply (Hpanic sample.enrolledUnminted); vm_compute; reflexivity.
Defined.

(** X21. GetVehicles never panics, and what it lists is sound: every
    listed vehicle is a vehicle the identity service reports for the
    caller's wallet, whose token id is the (non-null) vehicle token of a
    stored row, shown under that row's VIN with the row's connection and
    disconnection status. *)
Theorem GetVehicles_lists_owned (c : api.chain) (f : service.faults)
    (wallet : option string) (t : gmap string Vin) :
  (forall msg, api.GetVehicles c f wallet t <> api.VehiclesPanic msg) /\
  (forall vs, api.GetVehicles c f wallet t = api.Vehicles vs ->
     exists w identityVehicles,
       wallet = Some w /\
       api.FetchVehiclesByWalletAddress c w = inl identityVehicles /\
       Forall (props.listedFrom identityVehicles t) vs).
Proof. apply GetVehicles_lists. Qed.

Section DataEndpoints.
Import service controllers api props.

Lemma disconnectData_sound (c : chain) w identityVehicles (dbVins : list Vin) :
  forall acc items,
    disconnectData c w (indexIdentity identityVehicles) dbVins acc = Data items ->
    exists new, items = (acc ++ new)%list /\
                Forall2 (disconnectItem c w identityVehicles) dbVins new.
Proof.
  induction dbVins as [|r dbVins IH]; intros acc items.
  - cbn. intros [= <-]. exists []. rewrite app_nil_r. split; [reflexivity | constructor].
  - cbn [disconnectData].
    destruct (indexIdentity identityVehicles !! _) as [v|] eqn:Hidx; [| discriminate].
    cbv zeta.
    destruct (null.IIsZero (VehicleTokenID r)) eqn:Hveh; [discriminate |].
    destruct (null.IIsZero (SyntheticTokenID r)) eqn:Hsd; [discriminate |].
    cbn [negb andb].
    destruct (Z.eqb_spec (TokenID v) (null.Int64_ (VehicleTokenID r))) as [Htok|];
      [| discriminate].
    destruct (Z.eqb_spec (SyntheticDeviceTokenID v) (null.Int64_ (SyntheticTokenID r)))
      as [Hsdtok|]; [| discriminate].
    cbn [negb andb].
    destruct (GetBurnSDByOwnerUserOperationAndHash c w _) as [[op hash] err] eqn:Hop.
    destruct hash as [hash|], err; try discriminate.
    intros Hrest. destruct (IH _ _ Hrest) as (new & -> & Hall).
    exists (mkOperationData (Vin_ r) op hash [] :: new).
    rewrite <- app_assoc. split; [reflexivity |]. constructor; [| exact Hall].
    apply indexIdentity_Some in Hidx as [Hin _].
    repeat split; try assumption; try reflexivity. exists v. auto.
Qed.

Lemma deleteData_sound (c : chain) w identityVehicles (dbVins : list Vin) :
  forall acc items,
    deleteData c w (indexIdentity identityVehicles) dbVins acc = Data items ->
    exists new, items = (acc ++ new)%list /\
                Forall2 (deleteItem c w identityVehicles) dbVins new.
Proof.
  induction dbVins as [|r dbVins IH]; intros acc items.
  - cbn. intros [= <-]. exists []. rewrite app_nil_r. split; [reflexivity | constructor].
  - cbn [deleteData].
    destruct (indexIdentity identityVehicles !! _) as [v|] eqn:Hidx; [| discriminate].
    cbv zeta.
    destruct (null.IIsZero (VehicleTokenID r)) eqn:Hveh; [discriminate |].
    destruct (null.IIsZero (SyntheticTokenID r)) eqn:Hsd; [| discriminate].
    cbn [negb andb].
    destruct (Z.eqb_spec (TokenID v) (null.Int64_ (VehicleTokenID r))) as [Htok|];
      [| discriminate].
    destruct (Z.eqb_spec (SyntheticDeviceTokenID v) 0) as [Hsdtok|]; [| discriminate].
    cbn [negb andb].
    destruct (GetBurnVehicleByOwnerUserOperationAndHash c w _) as [[op hash] err] eqn:Hop.
    destruct hash as [hash|], err; try discriminate.
    intros Hrest. destruct (IH _ _ Hrest) as (new & -> & Hall).
    exists (mkOperationData (Vin_ r) op hash [] :: new).
    rewrite <- app_assoc. split; [reflexivity |]. constructor; [| exact Hall].
    apply indexIdentity_Some in Hidx as [Hin _].
    repeat split; try assumption; try reflexivity. exists v. auto.
Qed.

Lemma range_rows (f : faults) (t : gmap string Vin) ids lo hi dbVins :
  keyed t ->
  GetVehiclesByVinsAndOnboardingStatusRange f t ids lo hi [] = (dbVins, None) ->
  forall r, r ∈ dbVins ->
    t !! Vin_ r = Some r /\ Vin_ r ∈ ids /\ lo <= OnboardingStatus r <= hi.
Proof.
  intros Hkeyed. unfold GetVehiclesByVinsAndOnboardingStatusRange.
  destruct (beginErr f); [discriminate |].
  destruct (fetchErr f) as [e|].
  - destruct (IsNoRows e); discriminate.
  - cbn. intros [= <-] r Hin. apply elem_of_List_filter in Hin as [Hin Hp].
    apply (elem_of_rows_keyed _ _ Hkeyed) in Hin.
    rewrite !andb_true_iff, bool_decide_eq_true, !Z.leb_le in Hp.
    intuition.
Qed.

Lemma Forall2_dataFor (P : Vin -> VinUserOperationData -> Prop) lo hi
    (t : gmap string Vin) (requested : list string) dbVins items :
  (forall r, r ∈ dbVins ->
     t !! Vin_ r = Some r /\ Vin_ r ∈ requested /\ lo <= OnboardingStatus r <= hi) ->
  (forall r it, P r it -> odVin it = Vin_ r) ->
  Forall2 P dbVins items ->
  Forall (fun it => exists r,
            t !! odVin it = Some r /\ odVin it ∈ requested /\
            lo <= OnboardingStatus r <= hi /\ P r it) items.
Proof.
  intros Hrows Hkey Hall. induction Hall as [|r it dbVins items Hp Hall IH];
    [constructor |].
  constructor.
  - exists r. rewrite (Hkey _ _ Hp).
    destruct (Hrows r (list_elem_of_here _ _)) as (? & ? & ?). auto.
  - apply IH. intros r0 Hin. apply Hrows, list_elem_of_further, Hin.
Qed.

Lemma GetDisconnectData_sound settings (c : chain) (f : faults)
    (t : gmap string Vin) paramsVins wallet items :
  keyed t ->
  GetDisconnectDataForVins settings c f t (Parsed paramsVins) wallet = Data items ->
  exists w identityVehicles,
    wallet = Some w /\
    (paramsVins = [] \/ FetchVehiclesByWalletAddress c w = inl identityVehicles) /\
    dataFor (disconnectItem c w identityVehicles)
      OnboardingStatusMintSuccess OnboardingStatusBurnSDFailure
      t (List.map TrimSpace paramsVins) items.
Proof.
  intros Hkeyed. unfold GetDisconnectDataForVins.
  destruct wallet as [w|]; [| discriminate]. cbv zeta.
  set (trimmed := List.map TrimSpace paramsVins).
  set (validVins := List.filter (isValidVin settings) trimmed).
  destruct (Nat.eqb_spec (length validVins) (length paramsVins)) as [Hlen|];
    [| discriminate].
  cbn [negb].
  destruct (Nat.eqb_spec (length validVins) (length (Compact validVins)));
    [| discriminate].
  cbn [negb].
  destruct (0 <? length validVins)%nat eqn:Hpos.
  - destruct (GetVehiclesByVinsAndOnboardingStatusRange f t validVins _ _ [])
      as [dbVins [err|]] eqn:Hrange; [destruct (IsVehicleNotFound err); discriminate |].
    destruct (Nat.eqb_spec (length dbVins) (length validVins)) as [Hdb|];
      [| discriminate].
    cbn [negb].
    destruct (FetchVehiclesByWalletAddress c w) as [identityVehicles|] eqn:Hfetch;
      [| discriminate].
    intros Hdata. apply disconnectData_sound in Hdata as (new & -> & Hall).
    exists w, identityVehicles. split; [reflexivity |]. split; [right; exact Hfetch |].
    split.
    + cbn [app]. rewrite <- (Forall2_length _ _ _ Hall), Hdb, Hlen.
      subst trimmed. rewrite length_map. reflexivity.
    + cbn [app].
      eapply (Forall2_dataFor (disconnectItem c w identityVehicles));
        [| intros r it Hit; apply Hit | exact Hall].
      intros r Hin.
      destruct (range_rows _ _ _ _ _ _ Hkeyed Hrange r Hin) as (Hrow & Hid & Hst).
      split; [exact Hrow |]. split; [| exact Hst].
      subst validVins. apply elem_of_List_filter in Hid. apply Hid.
  - intros [= <-]. exists w, []. split; [reflexivity |].
    apply Nat.ltb_ge in Hpos. rewrite Hlen in Hpos.
    assert (Hnil : paramsVins = []).
    { clear -Hpos. destruct paramsVins; [reflexivity |]. cbn [length] in Hpos. lia. }
    split; [left; exact Hnil |]. subst paramsVins. split; [reflexivity | constructor].
Qed.

Lemma GetDeleteData_sound settings (c : chain) (f : faults)
    (t : gmap string Vin) paramsVins wallet items :
  keyed t ->
  GetDeleteDataForVins settings c f t (Parsed paramsVins) wallet = Data items ->
  exists w identityVehicles,
    wallet = Some w /\
    (paramsVins = [] \/ FetchVehiclesByWalletAddress c w = inl identityVehicles) /\
    dataFor (deleteItem c w identityVehicles)
      OnboardingStatusBurnSDSuccess OnboardingStatusBurnVehicleFailure
      t (List.map TrimSpace paramsVins) items.
Proof.
  intros Hkeyed. unfold GetDeleteDataForVins.
  destruct wallet as [w|]; [| discriminate]. cbv zeta.
  set (trimmed := List.map TrimSpace paramsVins).
  set (validVins := List.filter (isValidVin settings) trimmed).
  destruct (Nat.eqb_spec (length validVins) (length paramsVins)) as [Hlen|];
    [| discriminate].
  cbn [negb].
  destruct (Nat.eqb_spec (length validVins) (length (Compact validVins)));
    [| discriminate].
  cbn [negb].
  destruct (0 <? length validVins)%nat eqn:Hpos.
  - destruct (GetVehiclesByVinsAndOnboardingStatusRange f t validVins _ _ [])
      as [dbVins [err|]] eqn:Hrange; [destruct (IsVehicleNotFound err); discriminate |].
    destruct (Nat.eqb_spec (length dbVins) (length validVins)) as [Hdb|];
      [| discriminate].
    cbn [negb].
    destruct (FetchVehiclesByWalletAddress c w) as [identityVehicles|] eqn:Hfetch;
      [| discriminate].
    intros Hdata. apply deleteData_sound in Hdata as (new & -> & Hall).
    exists w, identityVehicles. split; [reflexivity |]. split; [right; exact Hfetch |].
    split.
    + cbn [app]. rewrite <- (Forall2_length _ _ _ Hall), Hdb, Hlen.
      subst trimmed. rewrite length_map. reflexivity.
    + cbn [app].
      eapply (Forall2_dataFor (deleteItem c w identityVehicles));
        [| intros r it Hit; apply Hit | exact Hall].
      intros r Hin.
      destruct (range_rows _ _ _ _ _ _ Hkeyed Hrange r Hin) as (Hrow & Hid & Hst).
      split; [exact Hrow |]. split; [| exact Hst].
      subst validVins. apply elem_of_List_filter in Hid. apply Hid.
  - intros [= <-]. exists w, []. split; [reflexivity |].
    apply Nat.ltb_ge in Hpos. rewrite Hlen in Hpos.
    assert (Hnil : paramsVins = []).
    { clear -Hpos. destruct paramsVins; [reflexivity |]. cbn [length] in Hpos. lia. }
    split; [left; exact Hnil |]. subst paramsVins. split; [reflexivity | constructor].
Qed.

End DataEndpoints.





Section StatusEndpoints.
Import service controllers api props.

Lemma filter_all {A} (p : A -> bool) (l : list A) :
  Forall (fun x => p x = true) l -> List.filter p l = l.
Proof.
  induction 1 as [|x l Hx _ IH]; [reflexivity |].
  cbn. rewrite Hx, IH. reflexivity.
Qed.

Lemma statusForVins_answers (view : Z -> string) settings (t : gmap string Vin)
    (vins : list string) :
  keyed t ->
  let requested := List.map TrimSpace vins in
  Forall (fun vin => isValidVin settings vin = true) requested ->
  length (Compact requested) = length requested ->
  fst (statusForVins view settings noFaults t (Parsed vins))
  = mkResponse StatusOK (StatusesBody (List.map (statusOf view t) requested)).
Proof.
  intros Hkeyed requested Hvalid Hcompact. unfold statusForVins. cbv zeta.
  fold requested. rewrite (filter_all _ _ Hvalid).
  replace (length requested =? length vins)%nat with true
    by (symmetry; apply Nat.eqb_eq; subst requested; apply length_map).
  rewrite Hcompact, Nat.eqb_refl. cbn [negb].
  destruct (0 <? length requested)%nat eqn:Hpos.
  - destruct (GetVehiclesByVins noFaults t requested) as [dbVins err] eqn:Hget.
    assert (err = None) as -> by (cbn in Hget; congruence).
    cbn [fst]. f_equal. f_equal.
    pose proof (indexes_plain _ _ _ _ Hkeyed Hget) as [Hsome Hnone].
    apply List.map_ext_in. intros vin Hin. apply list_elem_of_In in Hin.
    unfold statusOf.
    destruct (indexVins dbVins !! vin) as [r|] eqn:Hidx.
    + destruct (Hsome _ _ Hidx) as [-> _]. reflexivity.
    + rewrite (Hnone _ Hin Hidx). reflexivity.
  - apply Nat.ltb_ge in Hpos. destruct requested; [reflexivity |].
    cbn [length] in Hpos. lia.
Qed.

End StatusEndpoints.



Section Register.
Import service controllers.

Lemma RegisterVehicle_updates_only
    (FetchVehicleByTokenID : Z -> Vehicle + error) (upsFaults : faults)
    (walletAddress : option string) (reqBody : RegisterBody) (t : gmap string Vin) :
  props.keyed t ->
  let out := RegisterVehicle FetchVehicleByTokenID noFaults upsFaults
               walletAddress reqBody t in
  snd out = t \/
  exists vin tokenID identityVehicle r,
    rbVin reqBody = Some vin /\ rbTokenID reqBody = Some tokenID /\
    FetchVehicleByTokenID tokenID = inl identityVehicle /\
    walletAddress = Some (Owner identityVehicle) /\
    service.GetVehicleByExternalID noFaults t vin = (Some r, None) /\
    t !! Vin_ r = Some r /\
    (null.IIsZero (VehicleTokenID r) = true
     \/ null.Int64_ (VehicleTokenID r) = tokenID) /\
    code (fst out) = StatusOK /\
    snd out
    = <[Vin_ r :=
          let r1 := if negb (SyntheticDeviceTokenID identityVehicle =? 0)
                    then withSyntheticTokenID
                           (null.Int64From (SyntheticDeviceTokenID identityVehicle)) r
                    else r in
          if negb (String.eqb (DefinitionID identityVehicle) "")
          then withDeviceDefinitionID (null.StringFrom (DefinitionID identityVehicle)) r1
          else r1]> t.
Proof.
  intros Hkeyed. cbv zeta. unfold RegisterVehicle.
  destruct walletAddress as [walletAddress|]; [| left; reflexivity].
  destruct (rbVin reqBody) as [vin|]; [| left; reflexivity].
  destruct (rbTokenID reqBody) as [tokenID|]; [| left; reflexivity].
  destruct (negb (String.length vin =? 17)%nat); [left; reflexivity |].
  destruct (FetchVehicleByTokenID tokenID) as [identityVehicle|] eqn:Hfetch;
    [| left; reflexivity].
  destruct (TokenID identityVehicle =? 0); [left; reflexivity |].
  destruct (String.eqb_spec (Owner identityVehicle) walletAddress) as [Howner|];
    [| left; reflexivity].
  cbn [negb].
  destruct (service.GetVehicleByExternalID noFaults t vin) as [found err] eqn:Hget.
  assert (Hcases : (exists r, found = Some r /\ err = None /\ t !! Vin_ r = Some r)
                   \/ (err = Some (New "vehicle not found"))).
  { revert Hget. unfold service.GetVehicleByExternalID. cbn.
    destruct (List.find _ (rows t)) as [r|] eqn:Hfind.
    - intros [= <- <-]. left. exists r. repeat split.
      apply List.find_some in Hfind as [Hin _].
      apply list_elem_of_In in Hin. apply (elem_of_rows_keyed _ _ Hkeyed). exact Hin.
    - intros [= <- <-]. right. reflexivity. }
  destruct Hcases as [(r & -> & -> & Hrow) | ->]; [| left; reflexivity].
  destruct (negb (null.IIsZero (VehicleTokenID r))
            && negb (null.Int64_ (VehicleTokenID r) =? tokenID)) eqn:Hconflict;
    [left; reflexivity |].
  cbv zeta.
  destruct (InsertOrUpdateVin upsFaults t _) as [t' [e|]] eqn:Hups.
  - left. revert Hups. unfold InsertOrUpdateVin.
    repeat case_match; intros [= <- ?]; try discriminate; reflexivity.
  - right. exists vin, tokenID, identityVehicle, r.
    split; [reflexivity |]. split; [reflexivity |]. split; [exact Hfetch |].
    split; [rewrite Howner; reflexivity |]. split; [exact Hget |].
    split; [exact Hrow |]. split.
    + apply andb_false_iff in Hconflict as [Hz | Hne].
      * left. apply negb_false_iff. exact Hz.
      * right. apply negb_false_iff, Z.eqb_eq in Hne. exact Hne.
    + split; [reflexivity |]. cbn [snd].
      revert Hups. unfold InsertOrUpdateVin.
      destruct (beginErr upsFaults); [discriminate |].
      destruct (writeErr upsFaults); [discriminate |].
      destruct (commitErr upsFaults); [discriminate |].
      intros [= <-].
      destruct (negb (SyntheticDeviceTokenID identityVehicle =? 0)),
        (negb (String.eqb (DefinitionID identityVehicle) "")); reflexivity.
Qed.

End Register.

(** X25. The register handler never adds a row. With the database
    answering its lookup, the table changes only in this way: the request
    names a VIN and a token, the identity service reports the token's
    vehicle as owned by the caller, a stored row carries the request's
    VIN in its external_id column and has no vehicle token or the
    requested one, and the handler answers 200; then exactly that row is
    rewritten, under its own key, with the synthetic token and definition
    id of the identity service when those are set and every other column,
    the vehicle token included, as it was. *)
Theorem RegisterVehicle_only_updates
    (FetchVehicleByTokenID : Z -> controllers.Vehicle + error)
    (upsFaults : service.faults) (walletAddress : option string)
    (reqBody : controllers.RegisterBody) (t : gmap string Vin) :
  props.keyed t ->
  let out := controllers.RegisterVehicle FetchVehicleByTokenID service.noFaults
               upsFaults walletAddress reqBody t in
  snd out = t \/
  exists vin tokenID identityVehicle r,
    controllers.rbVin reqBody = Some vin /\
    controllers.rbTokenID reqBody = Some tokenID /\
    FetchVehicleByTokenID tokenID = inl identityVehicle /\
    walletAddress = Some (controllers.Owner identityVehicle) /\
    service.GetVehicleByExternalID service.noFaults t vin = (Some r, None) /\
    t !! Vin_ r = Some r /\
    (null.IIsZero (VehicleTokenID r) = true
     \/ null.Int64_ (VehicleTokenID r) = tokenID) /\
    controllers.code (fst out) = controllers.StatusOK /\
    snd out
    = <[Vin_ r :=
          let r1 := if negb (controllers.SyntheticDeviceTokenID identityVehicle =? 0)
                    then controllers.withSyntheticTokenID
                           (null.Int64From
                              (controllers.SyntheticDeviceTokenID identityVehicle)) r
                    else r in
          if negb (String.eqb (controllers.DefinitionID identityVehicle) "")
          then controllers.withDeviceDefinitionID
                 (null.StringFrom (controllers.DefinitionID identityVehicle)) r1
          else r1]> t.
Proof. apply RegisterVehicle_updates_only. Qed.

(** Witness of [RegisterVehicle_only_updates]: registering [vinB] changes
    nothing; registering [vinA] rewrites the row that carries it as its
    external id. *)
Lemma RegisterVehicle_only_updates_witness :
  let t : gmap string Vin := {[sample.vinA := sample.selfLinked]} in
  let identity tokenID := inl (controllers.mkVehicle "" tokenID sample.wallet "dd-1" 202) in
  props.keyed t /\
  snd (controllers.RegisterVehicle identity service.noFaults service.noFaults
         (Some sample.wallet) (controllers.mkRegisterBody (Some sample.vinB) (Some 7)) t)
  = t /\
  SyntheticTokenID
  <$> (snd (controllers.RegisterVehicle identity service.noFaults service.noFaults
              (Some sample.wallet)
              (controllers.mkRegisterBody (Some sample.vinA) (Some 101)) t)
       !! sample.vinA)
  = Some (null.Int64From 202).
Proof.
  cbv zeta.
  assert (Hk : props.keyed {[sample.vinA := sample.selfLinked]})
    by exact (keyed_singleton sample.selfLinked).
  split; [exact Hk |]. split.
  - destruct (RegisterVehicle_only_updates
                (fun tokenID => inl (controllers.mkVehicle "" tokenID sample.wallet
                                       "dd-1" 202))
                service.noFaults (Some sample.wallet)
                (controllers.mkRegisterBody (Some sample.vinB) (Some 7)) _ Hk)
      as [Hsame | (vin & tokenID & v & r & Hvin & _ & _ & _ & Hfound & _)].
    + exact Hsame.
    + injection Hvin as <-. vm_compute in Hfound. discriminate Hfound.
  - vm_compute. reflexivity.
Defined.

(** ** The ingest client and the stamping of events *)

Section Ingest.
Import oracle props.

Lemma HandleSendToDIS_via (E : Env) (ce : CloudEvent) (s : state)
    marshalErr executed v err :
  dimoNodeSend marshalErr executed = Returns v err ->
  SendToDimoNode ce = (v, err) ->
  let out := HandleSendToDIS ce s in
  let sent := addForwarded ce s in
  match marshalErr, executed with
  | Some e, _ => out = (Some e, incFailed sent)
  | None, (Some resp, None) =>
      out = (None, if StatusCode resp =? 400 then incFailed sent else incSuccess sent)
  | None, (Some resp, Some e) =>
      if StatusCode resp =? 400 then out = (None, incFailed sent)
      else exists e', out = (Some e', incFailed sent)
  | None, (None, _) => False
  end.
Proof.
  intros Hvia Hsend out sent. subst out sent. unfold HandleSendToDIS. rewrite Hsend.
  unfold dimoNodeSend in Hvia.
  destruct marshalErr as [me|].
  - injection Hvia as <- <-. reflexivity.
  - destruct executed as [[resp|] [e|]]; try discriminate.
    + revert Hvia.
      unfold StatusUnauthorized, StatusForbidden, StatusNotFound, StatusBadRequest.
      destruct (Z.eqb_spec (StatusCode resp) 400) as [-> | Hne].
      * cbn. intros [= <- <-]. reflexivity.
      * repeat case_match; intros [= <- <-]; eauto.
    + injection Hvia as <- <-.
      destruct (Z.eqb_spec (StatusCode resp) 400) as [-> | Hne]; [reflexivity |].
      destruct (StatusCode resp) as [|p|p]; try reflexivity.
      repeat (destruct p as [p|p|]; try reflexivity).
      exfalso. apply Hne. reflexivity.
Qed.

Lemma NFTDID_String_nonempty chainID contract tokenID :
  NFTDID_String chainID contract tokenID <> "".
Proof. unfold NFTDID_String. cbn. discriminate. Qed.

Lemma SetProducerAndSubject_spec (veh : Vin) (ce : CloudEvent) settings :
  let out := SetProducerAndSubject veh ce settings in
  ID out = ID ce /\ Type_ out = Type_ ce /\ Data out = Data ce /\
  Producer out
  = NFTDID_String (config.ChainID settings) (config.SyntheticNftAddress settings)
      (null.Int64_ (SyntheticTokenID veh) mod 2 ^ 32) /\
  (Subject out = "" <-> null.Int64_ (VehicleTokenID veh) mod 2 ^ 32 = 0) /\
  (null.Int64_ (VehicleTokenID veh) mod 2 ^ 32 <> 0 ->
   Subject out
   = NFTDID_String (config.ChainID settings) (config.VehicleNftAddress settings)
       (null.Int64_ (VehicleTokenID veh) mod 2 ^ 32)).
Proof.
  cbv zeta. unfold SetProducerAndSubject, uint32. cbn [ID Type_ Data Producer Subject].
  repeat (split; [reflexivity |]).
  destruct (Z.eqb_spec (null.Int64_ (VehicleTokenID veh) mod 2 ^ 32) 0) as [Hz | Hnz];
    cbn [negb].
  - split; [tauto | contradiction].
  - split; [| reflexivity]. split; [| contradiction].
    intros Hempty. exfalso. exact (NFTDID_String_nonempty _ _ _ Hempty).
Qed.

Context `{E : Env}.
Variable settings : config.Settings.

Lemma HandleSendToDIS_frame (ce : CloudEvent) (s : state) :
  let out := HandleSendToDIS ce s in
  forwarded (snd out) = (forwarded s ++ [ce])%list /\
  fst out = snd (SendToDimoNode ce) /\
  store (snd out) = store s /\ cache (snd out) = cache s.
Proof.
  cbv zeta. unfold HandleSendToDIS.
  destruct (SendToDimoNode ce) as [v [e|]]; [cbn; auto |].
  repeat case_match; cbn; auto.
Qed.

Lemma forwarder_forwards_event (msg : message) vin (s : state) (r : Vin) :
  wellFormed msg vin ->
  lookedUp s vin r ->
  null.Int64_ (VehicleTokenID r) <> 0 ->
  exists ce,
    msg = Bytes (inl ce) /\
    let stamped := SetProducerAndSubject r ce settings in
    let out := HandleDeviceByVIN settings msg s in
    forwarded (snd out) = (forwarded s ++ [stamped])%list /\
    fst out = snd (SendToDimoNode stamped) /\
    store (snd out) = store s /\
    (cache (snd out) = cache s \/ cache (snd out) = <[vin := r]> (cache s)).
Proof.
  intros (ce & raw & data & -> & Hdata & Htype & Hdec & Hvin & Hsig) Hlook Hnz.
  exists ce. split; [reflexivity |]. cbv zeta.
  unfold HandleDeviceByVIN, ParseCloudEvent.
  rewrite Hdata. rewrite bool_decide_eq_false_2 by discriminate.
  destruct (String.eqb_spec (Type_ ce) ""); [contradiction |].
  cbn [orb]. rewrite Hdata, Hdec, Hvin, Hsig.
  apply Z.eqb_neq in Hnz.
  destruct Hlook as [Hhit | (Hmiss & Hdb & Hrow)].
  - rewrite Hhit, Hnz.
    destruct (HandleSendToDIS_frame (SetProducerAndSubject r ce settings) s)
      as (Hf & He & Hs & Hc).
    auto.
  - rewrite Hmiss. unfold service.GetVehicleByVin. rewrite Hdb. cbn -[insert].
    rewrite Hrow, Hnz.
    destruct (HandleSendToDIS_frame (SetProducerAndSubject r ce settings)
                (cacheSet vin r s)) as (Hf & He & Hs & Hc).
    rewrite Hf, He, Hs, Hc. cbn. auto.
Qed.

End Ingest.

(** X26. The forwarder over the repository's ingest client, for one
    outcome of marshalling and of the HTTP call that does not panic. The
    event is counted once, as sent. A marshalling error, or an error of
    the HTTP wrapper with any status but 400, comes back as an error
    (the message is redelivered) and counts as failed. A 400 answer
    returns nil, so the event is dropped for good, and counts as failed.
    Every answer without a wrapper error and other than 400 returns nil
    and counts as a success. *)
Theorem ingest_outcomes (E : oracle.Env) (ce : oracle.CloudEvent) (s : oracle.state)
    (marshalErr : option error)
    (executed : option oracle.HTTPResponse * option error)
    (v : oracle.iface) (err : option error) :
  oracle.dimoNodeSend marshalErr executed = oracle.Returns v err ->
  oracle.SendToDimoNode ce = (v, err) ->
  let out := oracle.HandleSendToDIS ce s in
  let sent := oracle.addForwarded ce s in
  match marshalErr, executed with
  | Some e, _ => out = (Some e, oracle.incFailed sent)
  | None, (Some resp, None) =>
      out = (None, if oracle.StatusCode resp =? 400
                   then oracle.incFailed sent else oracle.incSuccess sent)
  | None, (Some resp, Some e) =>
      if oracle.StatusCode resp =? 400 then out = (None, oracle.incFailed sent)
      else exists e', out = (Some e', oracle.incFailed sent)
  | None, (None, _) => False
  end.
Proof. apply HandleSendToDIS_via. Qed.

(** Witness of [ingest_outcomes]: the wrapper reports a 400. *)
Lemma ingest_outcomes_witness :
  let E : oracle.Env :=
    {| oracle.LoadSignalMap := inl [];
       oracle.SendToDimoNode ce := (oracle.IInt 400, None);
       oracle.dbFaults := service.noFaults |} in
  let executed := (Some (oracle.mkHTTPResponse 400), Some (External 400)) in
  oracle.dimoNodeSend None executed = oracle.Returns (oracle.IInt 400) None /\
  @oracle.HandleSendToDIS E sample.telemetryEvent sample.forwarderStart
  = (None, oracle.incFailed
             (oracle.addForwarded sample.telemetryEvent sample.forwarderStart)).
Proof.
  cbv zeta. split; [reflexivity |].
  exact (ingest_outcomes
           {| oracle.LoadSignalMap := inl [];
              oracle.SendToDimoNode ce := (oracle.IInt 400, None);
              oracle.dbFaults := service.noFaults |}
           sample.telemetryEvent sample.forwarderStart None
           (Some (oracle.mkHTTPResponse 400), Some (External 400))
           (oracle.IInt 400) None eq_refl eq_refl).
Defined.

(** X27. Stamping an event keeps its id, type and data and writes the
    producer from the synthetic token; both token ids are converted to
    uint32 first, so they enter the DIDs modulo 2^32. The subject is empty
    exactly when the vehicle token is a multiple of 2^32, which includes
    0 and the null token; otherwise it is the vehicle DID of the token
    modulo 2^32. *)
Theorem SetProducerAndSubject_truncates (veh : Vin) (ce : oracle.CloudEvent)
    (settings : config.Settings) :
  let out := oracle.SetProducerAndSubject veh ce settings in
  oracle.ID out = oracle.ID ce /\ oracle.Type_ out = oracle.Type_ ce /\
  oracle.Data out = oracle.Data ce /\
  oracle.Producer out
  = oracle.NFTDID_String (config.ChainID settings) (config.SyntheticNftAddress settings)
      (null.Int64_ (SyntheticTokenID veh) mod 2 ^ 32) /\
  (oracle.Subject out = "" <-> null.Int64_ (VehicleTokenID veh) mod 2 ^ 32 = 0) /\
  (null.Int64_ (VehicleTokenID veh) mod 2 ^ 32 <> 0 ->
   oracle.Subject out
   = oracle.NFTDID_String (config.ChainID settings) (config.VehicleNftAddress settings)
       (null.Int64_ (VehicleTokenID veh) mod 2 ^ 32)).
Proof. apply SetProducerAndSubject_spec. Qed.

(** X28. The forwarding half of the telemetry handler. For a well-formed
    CloudEvent, when the record the handler works with (the live cache
    entry if there is one, otherwise the stored row) has a vehicle token
    other than 0, the handler hands exactly one event to the ingest
    client, the received event stamped from that record, and returns what
    the client returned; it does not write the store, and the cache gains
    at most the entry of this VIN. *)
Theorem forwarder_forwards `{E : oracle.Env} (settings : config.Settings)
    (msg : oracle.message) (vin : string) (s : oracle.state) (r : Vin) :
  props.wellFormed msg vin ->
  props.lookedUp s vin r ->
  null.Int64_ (VehicleTokenID r) <> 0 ->
  exists ce,
    msg = oracle.Bytes (inl ce) /\
    let stamped := oracle.SetProducerAndSubject r ce settings in
    let out := oracle.HandleDeviceByVIN settings msg s in
    oracle.forwarded (snd out) = (oracle.forwarded s ++ [stamped])%list /\
    fst out = snd (oracle.SendToDimoNode stamped) /\
    oracle.store (snd out) = oracle.store s /\
    (oracle.cache (snd out) = oracle.cache s
     \/ oracle.cache (snd out) = <[vin := r]> (oracle.cache s)).
Proof. apply forwarder_forwards_event. Qed.

(** Witness of [forwarder_forwards]: a record whose vehicle token is 2^32
    passes the check against 0 and is forwarded with an empty subject. *)
Lemma forwarder_forwards_witness :
  let s := oracle.mkState {[sample.vinA := sample.wideToken]} ∅ [] 0 0 in
  @props.wellFormed sample.ingest sample.telemetry sample.vinA /\
  @props.lookedUp sample.ingest s sample.vinA sample.wideToken /\
  null.Int64_ (VehicleTokenID sample.wideToken) <> 0 /\
  oracle.Subject
  <$> oracle.forwarded
        (snd (@oracle.HandleDeviceByVIN sample.ingest sample.settings
                sample.telemetry s))
  = [""].
Proof.
  cbv zeta.
  assert (Hlook : @props.lookedUp sample.ingest
                    (oracle.mkState {[sample.vinA := sample.wideToken]} ∅ [] 0 0)
                    sample.vinA sample.wideToken).
  { right. split; [reflexivity |]. split; [reflexivity |]. vm_compute. reflexivity. }
  assert (Hnz : null.Int64_ (VehicleTokenID sample.wideToken) <> 0)
    by (vm_compute; discriminate).
  split; [exact telemetry_wellFormed |]. split; [exact Hlook |]. split; [exact Hnz |].
  destruct (@forwarder_forwards sample.ingest sample.settings _ _ _ _
              telemetry_wellFormed Hlook Hnz) as (ce & Hce & Hfwd & _).
  rewrite Hfwd. injection Hce as <-. vm_compute. reflexivity.
Defined.

(** ** The operations consumer *)

Section Kafka.
Import kafka props.

Lemma handleOperation_channel (f : service.faults) msg (s : state) :
  let out := handleOperation f msg s in
  if sendsToChannel msg then
    if (length (EnrollmentChannel s) <? EnrollmentChannelCapacity)%nat then
      fst out <> Blocked /\
      length (EnrollmentChannel (snd out)) = S (length (EnrollmentChannel s))
    else out = (Blocked, s)
  else fst out <> Blocked /\ EnrollmentChannel (snd out) = EnrollmentChannel s.
Proof.
  cbv zeta. unfold handleOperation, sendsToChannel, sendEnrollment.
  destruct msg as [operation | err]; [| split; [discriminate | reflexivity]].
  destruct (String.eqb (opType operation) OperationTypeEnrollment);
    [| split; [discriminate | reflexivity]].
  destruct (String.eqb (opAction operation) ActionEnroll); cbn [andb orb].
  - destruct (length (EnrollmentChannel s) <? EnrollmentChannelCapacity)%nat;
      [| reflexivity].
    cbn [table EnrollmentChannel].
    destruct (service.UpdateEnrollmentStatus _ _ _ _ _ _) as [t [e|]];
      cbn [fst snd EnrollmentChannel]; rewrite length_app; cbn [length];
      (split; [discriminate | lia]).
  - destruct (String.eqb (opAction operation) ActionUnenroll);
      [| split; [discriminate | reflexivity]].
    destruct (length (EnrollmentChannel s) <? EnrollmentChannelCapacity)%nat;
      [| reflexivity].
    cbn [table EnrollmentChannel].
    destruct (service.UpdateUnenrollmentStatus _ _ _ _ _) as [t [e|]];
      cbn [fst snd EnrollmentChannel]; rewrite length_app; cbn [length];
      (split; [discriminate | lia]).
Qed.

Lemma ConsumeOperations_channel (f : service.faults) msgs :
  forall s : state,
    let out := ConsumeOperations f msgs s in
    let room := (EnrollmentChannelCapacity - length (EnrollmentChannel s))%nat in
    let sends := length (List.filter sendsToChannel msgs) in
    (Blocked ∈ fst out <-> (room < sends)%nat) /\
    ((sends <= room)%nat ->
     length (fst out) = length msgs /\
     length (EnrollmentChannel (snd out))
     = (length (EnrollmentChannel s) + sends)%nat).
Proof.
  induction msgs as [|msg msgs IH]; intros s; cbv zeta.
  - cbn. split; [| intros _; split; [reflexivity | lia]].
    split; [intros Hin; apply elem_of_nil in Hin; contradiction | lia].
  - cbn [ConsumeOperations List.filter].
    pose proof (handleOperation_channel f msg s) as Hstep. cbv zeta in Hstep.
    destruct (sendsToChannel msg).
    + destruct (Nat.ltb_spec (length (EnrollmentChannel s)) EnrollmentChannelCapacity)
        as [Hroom | Hfull].
      * destruct (handleOperation f msg s) as [fate s1]. cbn [fst snd] in Hstep.
        destruct Hstep as [Hfate Hlen].
        specialize (IH s1). cbv zeta in IH.
        destruct (ConsumeOperations f msgs s1) as [fates s2]. cbn [fst snd] in IH.
        destruct IH as [IHb IHl]. rewrite Hlen in IHb, IHl.
        assert (Hout : match fate with
                       | Blocked => ([Blocked], s1)
                       | _ => (fate :: fates, s2)
                       end = (fate :: fates, s2))
          by (destruct fate; [reflexivity | reflexivity | contradiction]).
        rewrite Hout. cbn [fst snd length]. split.
        -- rewrite elem_of_cons, IHb. split.
           ++ intros [Heq | Hlt]; [congruence | lia].
           ++ intros Hlt. right. lia.
        -- intros Hle. destruct IHl as [-> ->]; [lia |]. split; lia.
      * rewrite Hstep. cbn [fst snd length]. split.
        -- split; [intros _; lia | intros _; apply list_elem_of_here].
        -- intros Hle. lia.
    + destruct (handleOperation f msg s) as [fate s1]. cbn [fst snd] in Hstep.
      destruct Hstep as [Hfate Hch].
      specialize (IH s1). cbv zeta in IH.
      destruct (ConsumeOperations f msgs s1) as [fates s2]. cbn [fst snd] in IH.
      destruct IH as [IHb IHl]. rewrite Hch in IHb, IHl.
      assert (Hout : match fate with
                     | Blocked => ([Blocked], s1)
                     | _ => (fate :: fates, s2)
                     end = (fate :: fates, s2))
        by (destruct fate; [reflexivity | reflexivity | contradiction]).
      rewrite Hout. cbn [fst snd length]. split.
      * rewrite elem_of_cons, IHb. split.
        -- intros [Heq | Hlt]; [congruence | exact Hlt].
        -- intros Hlt. right. exact Hlt.
      * intros Hle. destruct (IHl Hle) as [-> ->]. split; reflexivity.
Qed.

Lemma handleOperation_sends (f : service.faults) msg (s : state) :
  fst (handleOperation f msg s) <> Blocked ->
  EnrollmentChannel (snd (handleOperation f msg s))
  = (EnrollmentChannel s ++ enrollmentsOf [msg])%list.
Proof.
  unfold handleOperation, enrollmentsOf, sendsToChannel, sendEnrollment.
  destruct msg as [operation | err]; cbn [omap list_omap];
    [| intros _; symmetry; apply app_nil_r].
  destruct (String.eqb (opType operation) OperationTypeEnrollment); cbn [andb];
    [| intros _; symmetry; apply app_nil_r].
  destruct (String.eqb (opAction operation) ActionEnroll); cbn [orb].
  - destruct (length (EnrollmentChannel s) <? EnrollmentChannelCapacity)%nat;
      [| intros Hfate; contradiction Hfate; reflexivity].
    cbn [table EnrollmentChannel].
    destruct (service.UpdateEnrollmentStatus _ _ _ _ _ _) as [t [e|]];
      intros _; reflexivity.
  - destruct (String.eqb (opAction operation) ActionUnenroll);
      [| intros _; symmetry; apply app_nil_r].
    destruct (length (EnrollmentChannel s) <? EnrollmentChannelCapacity)%nat;
      [| intros Hfate; contradiction Hfate; reflexivity].
    cbn [table EnrollmentChannel].
    destruct (service.UpdateUnenrollmentStatus _ _ _ _ _) as [t [e|]];
      intros _; reflexivity.
Qed.

Lemma ConsumeOperations_cons (f : service.faults) msg msgs (s : state) :
  fst (handleOperation f msg s) <> Blocked ->
  ConsumeOperations f (msg :: msgs) s
  = (fst (handleOperation f msg s)
       :: fst (ConsumeOperations f msgs (snd (handleOperation f msg s))),
     snd (ConsumeOperations f msgs (snd (handleOperation f msg s)))).
Proof.
  cbn [ConsumeOperations].
  destruct (handleOperation f msg s) as [fate s1]. cbn [fst snd]. intros Hfate.
  destruct (ConsumeOperations f msgs s1) as [fates s2].
  destruct fate; [reflexivity | reflexivity | contradiction].
Qed.

Lemma enrollmentsOf_cons msg msgs :
  enrollmentsOf (msg :: msgs) = (enrollmentsOf [msg] ++ enrollmentsOf msgs)%list.
Proof.
  unfold enrollmentsOf. cbn [omap list_omap].
  destruct msg as [operation | err]; [| reflexivity].
  destruct (sendsToChannel (inl operation)); reflexivity.
Qed.

(** Without a blocked send the channel receives the enrollment messages
    of the batch, in order. *)
Lemma ConsumeOperations_sends (f : service.faults) msgs :
  forall s : state,
    Blocked ∉ fst (ConsumeOperations f msgs s) ->
    EnrollmentChannel (snd (ConsumeOperations f msgs s))
    = (EnrollmentChannel s ++ enrollmentsOf msgs)%list.
Proof.
  induction msgs as [|msg msgs IH]; intros s Hfree.
  - cbn. symmetry. apply app_nil_r.
  - assert (Hfate : fst (handleOperation f msg s) <> Blocked).
    { intros Hb. apply Hfree. cbn [ConsumeOperations].
      destruct (handleOperation f msg s) as [fate s1]. cbn [fst] in Hb. subst fate.
      apply list_elem_of_here. }
    rewrite (ConsumeOperations_cons f msg msgs s Hfate) in Hfree |- *.
    cbn [fst snd] in Hfree |- *.
    rewrite IH by (intros Hin; apply Hfree, list_elem_of_further, Hin).
    rewrite (handleOperation_sends f msg s Hfate), (enrollmentsOf_cons msg msgs).
    symmetry. apply app_assoc.
Qed.

(** When the batch holds more enrollment messages than the channel has
    room for, the run ends at the message that finds the channel full, in
    the state the messages before it left. *)
Lemma ConsumeOperations_blocks (f : service.faults) msgs :
  forall s : state,
    let room := (EnrollmentChannelCapacity - length (EnrollmentChannel s))%nat in
    (room < length (List.filter sendsToChannel msgs))%nat ->
    exists pre operation post,
      msgs = (pre ++ inl operation :: post)%list /\
      sendsToChannel (inl operation) = true /\
      length (List.filter sendsToChannel pre) = room /\
      ConsumeOperations f msgs s
      = (fst (ConsumeOperations f pre s) ++ [Blocked],
         snd (ConsumeOperations f pre s))%list.
Proof.
  induction msgs as [|msg msgs IH]; intros s; cbv zeta.
  - cbn. lia.
  - cbn [List.filter].
    pose proof (handleOperation_channel f msg s) as Hstep. cbv zeta in Hstep.
    destruct (sendsToChannel msg) eqn:Hsend.
    + destruct (Nat.ltb_spec (length (EnrollmentChannel s)) EnrollmentChannelCapacity)
        as [Hroom | Hfull].
      * destruct Hstep as [Hfate Hlen]. cbn [length]. intros Hlt.
        destruct (IH (snd (handleOperation f msg s)))
          as (pre & operation & post & -> & Hop & Hpre & Hrun).
        { cbv zeta. rewrite Hlen. lia. }
        exists (msg :: pre), operation, post.
        split; [reflexivity |]. split; [exact Hop |]. split.
        -- cbn [List.filter]. rewrite Hsend. cbn [length]. rewrite Hpre, Hlen. lia.
        -- rewrite !(ConsumeOperations_cons f msg _ s Hfate), Hrun. reflexivity.
      * intros _. destruct msg as [operation | err]; [| discriminate Hsend].
        exists [], operation, msgs.
        split; [reflexivity |]. split; [exact Hsend |].
        split; [cbn [List.filter length]; lia |].
        cbn [ConsumeOperations]. rewrite Hstep. reflexivity.
    + destruct Hstep as [Hfate Hch]. intros Hlt.
      destruct (IH (snd (handleOperation f msg s)))
        as (pre & operation & post & -> & Hop & Hpre & Hrun).
      { cbv zeta. rewrite Hch. exact Hlt. }
      exists (msg :: pre), operation, post.
      split; [reflexivity |]. split; [exact Hop |]. split.
      * cbn [List.filter]. rewrite Hsend, Hpre, Hch. reflexivity.
      * rewrite !(ConsumeOperations_cons f msg _ s Hfate), Hrun. reflexivity.
Qed.

Lemma handleOperation_failed (s : state) (operation : OperationMessage) (r : Vin) :
  table s !! opVIN operation = Some r ->
  Vin_ r = opVIN operation ->
  opType operation = OperationTypeEnrollment ->
  opStatus operation = OperationStatusFailed ->
  (length (EnrollmentChannel s) < EnrollmentChannelCapacity)%nat ->
  (opAction operation = ActionEnroll ->
   handleOperation service.noFaults (inl operation) s
   = (Marked, mkState (<[opVIN operation := afterFailedEnroll operation r]> (table s))
                (EnrollmentChannel s ++ [operation]))) /\
  (opAction operation = ActionUnenroll ->
   handleOperation service.noFaults (inl operation) s
   = (Marked, mkState (<[opVIN operation := afterFailedUnenroll r]> (table s))
                (EnrollmentChannel s ++ [operation]))).
Proof.
  intros Hrow Hkey Htype Hstatus Hroom.
  apply Nat.ltb_lt in Hroom.
  unfold handleOperation, sendEnrollment. rewrite Htype, Hstatus, Hroom.
  split; intros ->; cbn -[insert].
  - unfold service.UpdateEnrollmentStatus. cbn -[insert]. rewrite Hrow.
    cbn -[insert]. unfold Update. cbn -[insert]. rewrite Hkey, Hrow.
    reflexivity.
  - unfold service.UpdateUnenrollmentStatus. cbn -[insert]. rewrite Hrow.
    cbn -[insert]. unfold Update. cbn -[insert]. rewrite Hkey, Hrow.
    reflexivity.
Qed.

End Kafka.

(** X29. The operations consumer and the enrollment channel, which is
    made with room for 100 messages and which nothing in the repository
    receives from. The consumer blocks in a send exactly when the batch
    holds more enroll and unenroll messages of enrollment operations than
    the channel has room left. When they all fit, every message of the
    batch is handled and the channel holds its earlier content followed
    by these messages, in order. When they do not, the run ends at the
    first such message that finds the channel full: the messages before
    it are handled without blocking, and the table and the channel are as
    those messages left them, so the blocking message has not touched the
    table (its send comes before its update) and nothing after it is
    handled. *)
Theorem ConsumeOperations_channel_bound (f : service.faults)
    (msgs : list (kafka.OperationMessage + error)) (s : kafka.state) :
  let out := kafka.ConsumeOperations f msgs s in
  let room :=
    (kafka.EnrollmentChannelCapacity - length (kafka.EnrollmentChannel s))%nat in
  let sends := length (List.filter props.sendsToChannel msgs) in
  (kafka.Blocked ∈ fst out <-> (room < sends)%nat) /\
  ((sends <= room)%nat ->
   length (fst out) = length msgs /\
   kafka.EnrollmentChannel (snd out)
   = (kafka.EnrollmentChannel s ++ props.enrollmentsOf msgs)%list /\
   length (kafka.EnrollmentChannel (snd out))
   = (length (kafka.EnrollmentChannel s) + sends)%nat) /\
  ((room < sends)%nat ->
   exists pre operation post,
     msgs = (pre ++ inl operation :: post)%list /\
     props.sendsToChannel (inl operation) = true /\
     length (List.filter props.sendsToChannel pre) = room /\
     let before := kafka.ConsumeOperations f pre s in
     (kafka.Blocked ∉ fst before) /\
     length (fst before) = length pre /\
     kafka.EnrollmentChannel (snd before)
     = (kafka.EnrollmentChannel s ++ props.enrollmentsOf pre)%list /\
     out = (fst before ++ [kafka.Blocked], snd before)%list).
Proof.
  cbv zeta.
  destruct (ConsumeOperations_channel f msgs s) as [Hblocked Hfits].
  split; [exact Hblocked |]. split.
  - intros Hle. destruct (Hfits Hle) as [Hall Hlen].
    split; [exact Hall |]. split; [| exact Hlen].
    apply ConsumeOperations_sends. rewrite Hblocked. lia.
  - intros Hlt.
    destruct (ConsumeOperations_blocks f msgs s Hlt)
      as (pre & operation & post & Hmsgs & Hop & Hpre & Hrun).
    exists pre, operation, post.
    split; [exact Hmsgs |]. split; [exact Hop |]. split; [exact Hpre |].
    destruct (ConsumeOperations_channel f pre s) as [Hblocked' Hfits'].
    assert (Hfree : kafka.Blocked ∉ fst (kafka.ConsumeOperations f pre s))
      by (rewrite Hblocked'; lia).
    split; [exact Hfree |].
    split; [apply Hfits'; lia |].
    split; [apply ConsumeOperations_sends; exact Hfree | exact Hrun].
Qed.

(** Example for [ConsumeOperations_channel_bound]: with one place left in
    the channel, a failed enrollment of a stored VIN is recorded and the
    unenrollment that follows blocks; the row is as the first message
    left it. *)
Lemma ConsumeOperations_channel_bound_witness :
  let unenrollment :=
    kafka.mkOperation "op-2" "enrollment" "unenroll" "succeeded" sample.vinA
      (service.mkOperationError "" "" "") "" in
  let s := kafka.mkState {[sample.vinA := sample.minted]}
             (replicate 99 sample.failedEnrollment) in
  let out := kafka.ConsumeOperations service.noFaults
               [inl sample.failedEnrollment; inl unenrollment] s in
  kafka.Blocked ∈ fst out /\
  fst out = [kafka.Marked; kafka.Blocked] /\
  kafka.table (snd out) !! sample.vinA = Some sample.enrollmentFailed /\
  length (kafka.EnrollmentChannel (snd out)) = kafka.EnrollmentChannelCapacity.
Proof.
  cbv zeta. split; [| split; [| split]].
  - apply (ConsumeOperations_channel_bound service.noFaults).
    vm_compute. lia.
  - vm_compute. reflexivity.
  - vm_compute. reflexivity.
  - vm_compute. reflexivity.
Defined.

(** X30. How a failed enrollment is recorded and retried. An enroll
    message with status "failed" for a stored, minted VIN is marked as
    processed and rewrites the row: connection_status "failed", the
    operation id as external id, the three error columns from the
    message; the mint gate then admits the record again. The onboarding
    job run on that row, with the vendor connecting and the database
    answering, mints nothing and leaves the row at MintSuccess(53) with
    connection_status "succeeded", the tokens as they were, and the error
    of the failed enrollment still in the error columns. An unenroll
    message with status "failed" stores disconnection_status "failed" and
    clears the error columns: the error of the message is dropped. *)
Theorem failed_enrollment_is_retried `{V : onboarding.VendorOnboardingAPI}
    `{I : onboarding.IdentityAPI} `{Q : onboard.Sequence}
    `{W : onboard.SDWalletsAPI} `{T : onboard.MintClient}
    (settings : config.Settings) (ms : onboard.MintSettings)
    (s : kafka.state) (operation : kafka.OperationMessage) (r : Vin)
    (job : onboard.OnboardingArgs) :
  kafka.table s !! kafka.opVIN operation = Some r ->
  Vin_ r = kafka.opVIN operation ->
  kafka.opType operation = kafka.OperationTypeEnrollment ->
  kafka.opStatus operation = kafka.OperationStatusFailed ->
  (length (kafka.EnrollmentChannel s) < kafka.EnrollmentChannelCapacity)%nat ->
  OnboardingStatus r = OnboardingStatusMintSuccess ->
  null.IValid (VehicleTokenID r) = true ->
  null.IValid (SyntheticTokenID r) = true ->
  onboard.oaVIN job = kafka.opVIN operation ->
  props.vendorConnects settings (kafka.opVIN operation) ->
  let failed := props.afterFailedEnroll operation r in
  (kafka.opAction operation = kafka.ActionEnroll ->
   kafka.handleOperation service.noFaults (inl operation) s
   = (kafka.Marked,
      kafka.mkState (<[kafka.opVIN operation := failed]> (kafka.table s))
        (kafka.EnrollmentChannel s ++ [operation])) /\
   controllers.canSubmitMintingJob (Some failed) = true /\
   forall w,
     run.db w = <[kafka.opVIN operation := failed]> (kafka.table s) ->
     props.answering w ->
     exists w',
       onboard.OnboardingWorker_Work settings ms None job w = run.Done None w' /\
       run.db w' !! kafka.opVIN operation
       = Some (props.onboarded failed (VehicleTokenID r) (SyntheticTokenID r)
                 (WalletIndex r))) /\
  (kafka.opAction operation = kafka.ActionUnenroll ->
   kafka.handleOperation service.noFaults (inl operation) s
   = (kafka.Marked,
      kafka.mkState (<[kafka.opVIN operation := props.afterFailedUnenroll r]>
                       (kafka.table s))
        (kafka.EnrollmentChannel s ++ [operation]))).
Proof.
  intros Hrow Hkey Htype Hstatus Hroom Hminted Hveh Hsd Hjob Hvendor failed.
  destruct (handleOperation_failed s operation r Hrow Hkey Htype Hstatus Hroom)
    as [Henroll Hunenroll].
  split; [| exact Hunenroll].
  intros Haction. split; [exact (Henroll Haction) |]. split.
  - subst failed. unfold controllers.canSubmitMintingJob. cbn. rewrite Hminted.
    reflexivity.
  - intros w Hdb Hanswers.
    destruct (OnboardingWork_reconnects settings ms job w failed)
      as (w' & Hout & _ & _ & Hfinal).
    + rewrite Hjob, Hdb. apply lookup_insert_eq.
    + rewrite Hjob. exact Hkey.
    + exact Hanswers.
    + cbn. rewrite Hminted. vm_compute. discriminate.
    + intros _. reflexivity.
    + exact Hveh.
    + exact Hsd.
    + rewrite Hjob. exact Hvendor.
    + exists w'. split; [exact Hout |]. rewrite Hfinal, Hjob.
      apply lookup_insert_eq.
Qed.

(** Witness of [failed_enrollment_is_retried]: the failed enrollment of
    the minted record of [vinA]. *)
Lemma failed_enrollment_is_retried_witness :
  let s := kafka.mkState {[sample.vinA := sample.minted]} [] in
  let job := onboard.mkOnboardingArgs sample.wallet sample.vinA None [] None in
  kafka.table s !! kafka.opVIN sample.failedEnrollment = Some sample.minted /\
  Vin_ sample.minted = kafka.opVIN sample.failedEnrollment /\
  kafka.opType sample.failedEnrollment = kafka.OperationTypeEnrollment /\
  kafka.opStatus sample.failedEnrollment = kafka.OperationStatusFailed /\
  (length (kafka.EnrollmentChannel s) < kafka.EnrollmentChannelCapacity)%nat /\
  OnboardingStatus sample.minted = OnboardingStatusMintSuccess /\
  null.IValid (VehicleTokenID sample.minted) = true /\
  null.IValid (SyntheticTokenID sample.minted) = true /\
  onboard.oaVIN job = kafka.opVIN sample.failedEnrollment /\
  @props.vendorConnects (sample.vendorAnswering "capable") sample.settings
    (kafka.opVIN sample.failedEnrollment) /\
  fst (kafka.handleOperation service.noFaults (inl sample.failedEnrollment) s)
  = kafka.Marked /\
  controllers.canSubmitMintingJob
    (Some (props.afterFailedEnroll sample.failedEnrollment sample.minted)) = true.
Proof.
  cbv zeta.
  assert (Hrow : kafka.table (kafka.mkState {[sample.vinA := sample.minted]} [])
                   !! kafka.opVIN sample.failedEnrollment = Some sample.minted)
    by (vm_compute; reflexivity).
  assert (Hroom : (length (kafka.EnrollmentChannel
                             (kafka.mkState {[sample.vinA := sample.minted]} []))
                   < kafka.EnrollmentChannelCapacity)%nat)
    by (vm_compute; lia).
  split; [exact Hrow |]. split; [reflexivity |]. split; [reflexivity |].
  split; [reflexivity |]. split; [exact Hroom |]. split; [reflexivity |].
  split; [reflexivity |]. split; [reflexivity |]. split; [reflexivity |].
  split; [exact (sample_connects _) |].
  destruct (@failed_enrollment_is_retried (sample.vendorAnswering "capable")
              sample.identityNow (sample.sequence 7) sample.walletService
              sample.registry sample.settings sample.mintSettings
              (kafka.mkState {[sample.vinA := sample.minted]} [])
              sample.failedEnrollment sample.minted
              (onboard.mkOnboardingArgs sample.wallet sample.vinA None [] None)
              Hrow eq_refl eq_refl eq_refl Hroom eq_refl eq_refl eq_refl eq_refl
              (sample_connects _)) as [Henroll _].
  destruct (Henroll eq_refl) as (Hmarked & Hgate & _).
  split; [rewrite Hmarked; reflexivity | exact Hgate].
Defined.
